(** * IoT DPoS blockchain with Merkle commitments: a shallow embedding

    The development follows the Python sources of the node:

    - [utils/merkle_tree.py]   : [MerkleTree]
    - [consensus/block.py]     : [Block]
    - [consensus/dpos.py]      : [DPoS]
    - [main.py]                : the proposer duty of [BlockchainNode]

    Conventions of the embedding.

    - A Python [str] is a [string]; each character is a code point below 256.
    - A Python [int] is a [Z].  A Python [float] that comes from the wire
      (a timestamp of a block, a stake, a power usage) is a [pyfloat]: a
      finite value, read as an exact rational, an infinity or NaN.  The
      readings of the clock and of the sensors, and the settings of the
      engine, are finite and are rationals [Q].  [time.time()] is an
      explicit argument: the reading of the clock at the place of the call.
    - A Python [dict] is an association list in insertion order.
    - A function that may raise returns a [result].
    - [hashlib.sha256] is computed (FIPS 180-4), [json.dumps] is the
      standard encoder with [sort_keys=True] and its default separators.
      [float.__repr__], which the encoder calls on a float, is outside the
      repository and is a parameter [float_repr]. *)

From Stdlib Require Import List String Ascii ZArith QArith Qabs Qround Lia Lqa Bool.
From Stdlib Require Import DecimalString Permutation Sorted.
Import ListNotations.

Local Open Scope list_scope.
Local Open Scope string_scope.
Local Open Scope Z_scope.

(* ------------------------------------------------------------------ *)
(** ** Exceptions *)

(** [Untyped] is no exception of Python.  It marks a wire value that is not
    of the type that the dataclass declares for its field: the code checks
    no type and goes on with such a value, and the model does not follow it
    there. *)
Inductive exn : Type :=
| IndexError
| KeyError (key : string)
| AttributeError
| Untyped.

Inductive result (A : Type) : Type :=
| Ok (a : A)
| Raise (e : exn).

Arguments Ok {A} a.
Arguments Raise {A} e.

Definition bind {A B : Type} (r : result A) (k : A -> result B) : result B :=
  match r with
  | Ok a => k a
  | Raise e => Raise e
  end.

Notation "x <- r ;; k" := (bind r (fun x => k))
  (at level 61, r at next level, right associativity).

(* ------------------------------------------------------------------ *)
(** ** [hashlib.sha256(...).hexdigest()] *)

Module Sha256.

Definition mask32 : Z := 2 ^ 32 - 1.

Definition add32 (x y : Z) : Z := Z.land (x + y) mask32.

Definition rotr (n x : Z) : Z :=
  Z.lor (Z.shiftr x n) (Z.land (Z.shiftl x (32 - n)) mask32).

Definition Ch (x y z : Z) : Z :=
  Z.lxor (Z.land x y) (Z.land (Z.lxor x mask32) z).

Definition Maj (x y z : Z) : Z :=
  Z.lxor (Z.lxor (Z.land x y) (Z.land x z)) (Z.land y z).

Definition Sigma0 (x : Z) : Z :=
  Z.lxor (Z.lxor (rotr 2 x) (rotr 13 x)) (rotr 22 x).

Definition Sigma1 (x : Z) : Z :=
  Z.lxor (Z.lxor (rotr 6 x) (rotr 11 x)) (rotr 25 x).

Definition sigma0 (x : Z) : Z :=
  Z.lxor (Z.lxor (rotr 7 x) (rotr 18 x)) (Z.shiftr x 3).

Definition sigma1 (x : Z) : Z :=
  Z.lxor (Z.lxor (rotr 17 x) (rotr 19 x)) (Z.shiftr x 10).

(** The round constants are the first 32 bits of the fractional parts of
    the cube roots of the first 64 primes, the initial state those of the
    square roots of the first 8 primes. *)

Definition is_prime (n : Z) : bool :=
  forallb (fun d => negb (n mod d =? 0))
          (map Z.of_nat (seq 2 (Z.to_nat (Z.sqrt n) - 1))).

Definition primes_below (n : nat) : list Z :=
  filter is_prime (map Z.of_nat (seq 2 (n - 2))).

Fixpoint icbrt_bits (bit : nat) (n r : Z) : Z :=
  match bit with
  | O => r
  | S b =>
      let r' := r + 2 ^ Z.of_nat b in
      icbrt_bits b n (if r' * r' * r' <=? n then r' else r)
  end.

(** Integer cube root of a number below [2^120]. *)
Definition icbrt (n : Z) : Z := icbrt_bits 40 n 0.

Definition K : list Z :=
  Eval vm_compute in
    map (fun p => Z.land (icbrt (p * 2 ^ 96)) mask32) (primes_below 312).

Definition H0 : list Z :=
  Eval vm_compute in
    map (fun p => Z.land (Z.sqrt (p * 2 ^ 64)) mask32) (primes_below 20).

(** Padding: a bit 1, zero bits, and the bit length on 64 bits, up to a
    multiple of 64 bytes. *)
Definition be_bytes (n : nat) (x : Z) : list Z :=
  map (fun i => Z.land (Z.shiftr x (8 * Z.of_nat i)) 255) (rev (seq 0 n)).

Definition pad (msg : list Z) : list Z :=
  let len := Z.of_nat (List.length msg) in
  (msg ++ [128] ++ repeat 0 (Z.to_nat ((55 - len) mod 64)) ++ be_bytes 8 (8 * len))%list.

Fixpoint be_word (bytes : list Z) (acc : Z) : Z :=
  match bytes with
  | [] => acc
  | b :: r => be_word r (Z.lor (Z.shiftl acc 8) b)
  end.

Fixpoint words (n : nat) (bytes : list Z) : list Z :=
  match n with
  | O => []
  | S n' => be_word (firstn 4 bytes) 0 :: words n' (skipn 4 bytes)
  end.

(** The message schedule, most recent word first. *)
Fixpoint schedule (n : nat) (w : list Z) : list Z :=
  match n with
  | O => w
  | S n' =>
      let wt := add32 (add32 (sigma1 (nth 1 w 0)) (nth 6 w 0))
                      (add32 (sigma0 (nth 14 w 0)) (nth 15 w 0)) in
      schedule n' (wt :: w)
  end.

Record state : Type := mkState { a : Z; b : Z; c : Z; d : Z; e : Z; f : Z; g : Z; h : Z }.

Definition round (s : state) (kw : Z * Z) : state :=
  let t1 := add32 (add32 (add32 (h s) (Sigma1 (e s))) (Ch (e s) (f s) (g s)))
                  (add32 (fst kw) (snd kw)) in
  let t2 := add32 (Sigma0 (a s)) (Maj (a s) (b s) (c s)) in
  mkState (add32 t1 t2) (a s) (b s) (c s) (add32 (d s) t1) (e s) (f s) (g s).

Definition compress (s : state) (block : list Z) : state :=
  let w := rev (schedule 48 (rev (words 16 block))) in
  let s' := fold_left round (combine K w) s in
  mkState (add32 (a s) (a s')) (add32 (b s) (b s')) (add32 (c s) (c s'))
          (add32 (d s) (d s')) (add32 (e s) (e s')) (add32 (f s) (f s'))
          (add32 (g s) (g s')) (add32 (h s) (h s')).

Fixpoint blocks (n : nat) (bytes : list Z) (s : state) : state :=
  match n with
  | O => s
  | S n' => blocks n' (skipn 64 bytes) (compress s (firstn 64 bytes))
  end.

Definition init : state :=
  mkState (nth 0 H0 0) (nth 1 H0 0) (nth 2 H0 0) (nth 3 H0 0)
          (nth 4 H0 0) (nth 5 H0 0) (nth 6 H0 0) (nth 7 H0 0).

Definition digest (msg : list Z) : list Z :=
  let p := pad msg in
  let s := blocks (List.length p / 64) p init in
  flat_map (be_bytes 4) [a s; b s; c s; d s; e s; f s; g s; h s].

Definition hex_digit (n : Z) : ascii :=
  nth (Z.to_nat n) (list_ascii_of_string "0123456789abcdef") "0"%char.

Definition hex (bytes : list Z) : string :=
  string_of_list_ascii
    (flat_map (fun x => [hex_digit (Z.shiftr x 4); hex_digit (Z.land x 15)]) bytes).

(** [str.encode()]: UTF-8, here of code points below 256. *)
Definition encode (s : string) : list Z :=
  flat_map (fun ch => let n := Z.of_N (N_of_ascii ch) in
                      if n <? 128 then [n]
                      else [Z.lor 192 (Z.shiftr n 6); Z.lor 128 (Z.land n 63)])
           (list_ascii_of_string s).

Definition hexdigest (s : string) : string := hex (digest (encode s)).

End Sha256.

(* ------------------------------------------------------------------ *)
(** ** Python built-ins used by the node *)

(** [sorted(l, key=...)]: a stable sort, [le] is the order of the keys. *)
Fixpoint insert_by {A : Type} (le : A -> A -> bool) (x : A) (l : list A) : list A :=
  match l with
  | [] => [x]
  | y :: r => if le x y then x :: l else y :: insert_by le x r
  end.

Definition sorted {A : Type} (le : A -> A -> bool) (l : list A) : list A :=
  fold_right (insert_by le) [] l.

(** [l[i]] on a list: a negative index counts from the end. *)
Definition getitem {A : Type} (l : list A) (i : Z) : result A :=
  let len := Z.of_nat (List.length l) in
  let j := if i <? 0 then i + len else i in
  if (j <? 0) || (len <=? j) then Raise IndexError
  else match nth_error l (Z.to_nat j) with
       | Some x => Ok x
       | None => Raise IndexError
       end.

(** [l[:n]] on a list. *)
Definition slice_to {A : Type} (l : list A) (n : Z) : list A :=
  if n <? 0 then firstn (Z.to_nat (Z.of_nat (List.length l) + n)) l
  else firstn (Z.to_nat n) l.

(** [l[n:]] on a list, [n] not negative. *)
Definition slice_from {A : Type} (l : list A) (n : nat) : list A := skipn n l.

(** [x < y] on finite floats. *)
Definition Qltb (x y : Q) : bool := negb (Qle_bool y x).

(** A [float]: a finite value, an infinity, or NaN.  [json.loads] reads the
    last three from the texts [Infinity], [-Infinity] and [NaN]. *)
Inductive pyfloat : Type :=
| Finite (x : Q)
| Infinity (negative : bool)
| NaN.

Bind Scope Q_scope with pyfloat.

Coercion Finite : Q >-> pyfloat.

Definition is_nan (x : pyfloat) : bool :=
  match x with
  | NaN => true
  | _ => false
  end.

(** [-x], [x + y], [x - y] and [abs(x)].  On finite values the arithmetic
    is exact: the rounding of the machine, and an overflow to an infinity,
    are not modelled. *)
Definition fneg (x : pyfloat) : pyfloat :=
  match x with
  | Finite a => Finite (- a)
  | Infinity negative => Infinity (negb negative)
  | NaN => NaN
  end.

Definition fadd (x y : pyfloat) : pyfloat :=
  match x, y with
  | Finite a, Finite b => Finite (a + b)
  | Finite _, Infinity negative => Infinity negative
  | Infinity negative, Finite _ => Infinity negative
  | Infinity a, Infinity b => if Bool.eqb a b then Infinity a else NaN
  | _, _ => NaN
  end.

Definition fsub (x y : pyfloat) : pyfloat := fadd x (fneg y).

Definition fabs (x : pyfloat) : pyfloat :=
  match x with
  | Finite a => Finite (Qabs a)
  | Infinity _ => Infinity false
  | NaN => NaN
  end.

(** [x < y], [x <= y], [x > y], [x >= y] and [x == y]: each one is [False]
    when an operand is NaN. *)
Definition flt (x y : pyfloat) : bool :=
  match x, y with
  | Finite a, Finite b => Qltb a b
  | Finite _, Infinity negative => negb negative
  | Infinity negative, Finite _ => negative
  | Infinity a, Infinity b => a && negb b
  | _, _ => false
  end.

Definition fle (x y : pyfloat) : bool :=
  match x, y with
  | Finite a, Finite b => Qle_bool a b
  | Finite _, Infinity negative => negb negative
  | Infinity negative, Finite _ => negative
  | Infinity a, Infinity b => a || negb b
  | _, _ => false
  end.

Definition fgt (x y : pyfloat) : bool := flt y x.

Definition fge (x y : pyfloat) : bool := fle y x.

Definition feq (x y : pyfloat) : bool :=
  match x, y with
  | Finite a, Finite b => Qeq_bool a b
  | Infinity a, Infinity b => Bool.eqb a b
  | _, _ => false
  end.

(** [sep.join(l)] *)
Fixpoint join (sep : string) (l : list string) : string :=
  match l with
  | [] => ""
  | [x] => x
  | x :: r => x ++ sep ++ join sep r
  end.

(** ["0" * 64] *)
Definition zeros64 : string := string_of_list_ascii (repeat "0"%char 64).

(* ------------------------------------------------------------------ *)
(** ** JSON values and [json.dumps(obj, sort_keys=True)] *)

Local Unset Elimination Schemes.

Inductive value : Type :=
| VNone
| VBool (b : bool)
| VInt (n : Z)
| VFloat (x : pyfloat)
| VStr (s : string)
| VList (l : list value)
| VDict (d : list (string * value)).

Local Set Elimination Schemes.

Definition dict : Type := list (string * value).

(** [d.get(key)] and [d[key]] on a [dict]. *)
Fixpoint dict_get {A : Type} (d : list (string * A)) (key : string) : option A :=
  match d with
  | [] => None
  | (k, v) :: r => if String.eqb k key then Some v else dict_get r key
  end.

Definition dict_getitem {A : Type} (d : list (string * A)) (key : string) : result A :=
  match dict_get d key with
  | Some v => Ok v
  | None => Raise (KeyError key)
  end.

(** [d[key] = x] on a [dict]: the key keeps its place when it is present. *)
Fixpoint dict_set {A : Type} (d : list (string * A)) (key : string) (x : A)
  : list (string * A) :=
  match d with
  | [] => [(key, x)]
  | (k, v) :: r => if String.eqb k key then (k, x) :: r else (k, v) :: dict_set r key x
  end.

(** [del d[key]] *)
Fixpoint dict_del {A : Type} (d : list (string * A)) (key : string) : list (string * A) :=
  match d with
  | [] => []
  | (k, v) :: r => if String.eqb k key then r else (k, v) :: dict_del r key
  end.

Definition dict_mem {A : Type} (d : list (string * A)) (key : string) : bool :=
  match dict_get d key with
  | Some _ => true
  | None => false
  end.

Module Json.

(** The double quote character. *)
Definition quote : string := String (ascii_of_nat 34) "".

Definition hex4 (n : Z) : string :=
  string_of_list_ascii
    (map Sha256.hex_digit
         [Z.land (Z.shiftr n 12) 15; Z.land (Z.shiftr n 8) 15;
          Z.land (Z.shiftr n 4) 15; Z.land n 15]).

(** The replacement of one character in a string literal
    ([ensure_ascii=True]): the printable ASCII characters stand for
    themselves, except the quote and the backslash. *)
Definition escape_char (ch : ascii) : string :=
  let n := Z.of_N (N_of_ascii ch) in
  if n =? 34 then "\" ++ quote
  else if n =? 92 then "\\"
  else if n =? 10 then "\n"
  else if n =? 13 then "\r"
  else if n =? 9 then "\t"
  else if n =? 8 then "\b"
  else if n =? 12 then "\f"
  else if (32 <=? n) && (n <=? 126) then String ch ""
  else "\u" ++ hex4 n.

Definition encode_string (s : string) : string :=
  quote ++ concat "" (map escape_char (list_ascii_of_string s)) ++ quote.

Definition key_le (x y : string * string) : bool := String.leb (fst x) (fst y).

Section Encoder.

(** [float.__repr__] *)
Variable float_repr : Q -> string.

(** The text of a float ([allow_nan] has its default [True]). *)
Definition float_text (x : pyfloat) : string :=
  match x with
  | Finite a => float_repr a
  | Infinity false => "Infinity"
  | Infinity true => "-Infinity"
  | NaN => "NaN"
  end.

(** The separators between the items and between a key and its value. *)
Variables item_separator key_separator : string.

(** The encoder with [sort_keys=True].  The items of a [dict] are sorted by
    key (the keys of a [dict] are distinct, so the comparison of two items
    never looks at the values); each value is encoded as it stands. *)
Fixpoint encode (v : value) : string :=
  match v with
  | VNone => "null"
  | VBool true => "true"
  | VBool false => "false"
  | VInt n => NilZero.string_of_int (Z.to_int n)
  | VFloat x => float_text x
  | VStr s => encode_string s
  | VList l => "[" ++ join item_separator (map encode l) ++ "]"
  | VDict d =>
      let items := map (fun kv => let '(k, x) := kv in (k, encode x)) d in
      "{" ++ join item_separator
               (map (fun kr => encode_string (fst kr) ++ key_separator ++ snd kr)
                    (sorted key_le items))
          ++ "}"
  end.

End Encoder.

(** [json.dumps(obj, sort_keys=True)]: the separators are the defaults of
    [json.dumps], [(', ', ': ')]. *)
Definition dumps (float_repr : Q -> string) (obj : value) : string :=
  encode float_repr ", " ": " obj.

End Json.

(* ------------------------------------------------------------------ *)
(** ** [utils/merkle_tree.py] *)

Module MerkleTree.

Local Unset Elimination Schemes.

Inductive MerkleNode : Type :=
  mkNode {
    hash : string;
    left : option MerkleNode;
    right : option MerkleNode;
    is_leaf : bool;
    transaction_data : option dict
  }.

Local Set Elimination Schemes.

(** One entry of a proof: [{'hash': ..., 'position': 'left' | 'right'}]. *)
Record proof_item : Type :=
  mkItem {
    item_hash : string;
    position : string
  }.

Record t : Type :=
  mkTree {
    transactions : list dict;
    root : option MerkleNode;
    leaf_nodes : list MerkleNode
  }.

Definition _hash_data (data : string) : string := Sha256.hexdigest data.

Section WithRepr.

Variable float_repr : Q -> string.

Definition _create_leaf_node (transaction : dict) : MerkleNode :=
  let tx_string := Json.dumps float_repr (VDict transaction) in
  let tx_hash := _hash_data tx_string in
  mkNode tx_hash None None true (Some transaction).

Definition _create_parent_node (left : MerkleNode) (right : option MerkleNode) : MerkleNode :=
  let right := match right with
               | None => left
               | Some r => r
               end in
  let combined_hash := hash left ++ hash right in
  let parent_hash := _hash_data combined_hash in
  mkNode parent_hash (Some left) (Some right) false None.

(** The body of the [while] loop of [_build_tree]: the [for] loop over the
    pairs of the level. *)
Fixpoint next_level_of (current_level : list MerkleNode) : list MerkleNode :=
  match current_level with
  | [] => []
  | [l] => [_create_parent_node l None]
  | l :: r :: rest => _create_parent_node l (Some r) :: next_level_of rest
  end.

(** [while len(current_level) > 1]; a level of [n] nodes is reduced to one
    node in fewer than [n] rounds, and [fuel] is [n]. *)
Fixpoint build_levels (fuel : nat) (current_level : list MerkleNode) : list MerkleNode :=
  match fuel with
  | O => current_level
  | S fuel' =>
      if (1 <? List.length current_level)%nat
      then build_levels fuel' (next_level_of current_level)
      else current_level
  end.

Definition _build_tree (transactions : list dict) : t :=
  match transactions with
  | [] => mkTree transactions (Some (mkNode zeros64 None None false None)) []
  | _ =>
      let leaf_nodes := map _create_leaf_node transactions in
      let current_level := build_levels (List.length leaf_nodes) leaf_nodes in
      mkTree transactions (nth_error current_level 0) leaf_nodes
  end.

(** [MerkleTree(transactions)] *)
Definition init (transactions : list dict) : t := _build_tree transactions.

Definition get_root_hash (self : t) : string :=
  match root self with
  | Some r => hash r
  | None => zeros64
  end.

(** The search of [current_node] in the level, by hash. *)
Fixpoint index_of_hash (h : string) (level : list MerkleNode) (i : nat) : option nat :=
  match level with
  | [] => None
  | node :: rest => if String.eqb (hash node) h then Some i else index_of_hash h rest (S i)
  end.

(** The [for] loop of [get_proof] that builds the next level and moves
    [current_node] to the parent of the pair that holds [node_index]. *)
Fixpoint parents (level : list MerkleNode) (i node_index : nat) (current_node : MerkleNode)
  : list MerkleNode * MerkleNode :=
  let moved parent :=
    if (i =? node_index)%nat || (i + 1 =? node_index)%nat then parent else current_node in
  match level with
  | [] => ([], current_node)
  | [l] =>
      let parent := _create_parent_node l (Some l) in
      ([parent], moved parent)
  | l :: r :: rest =>
      let parent := _create_parent_node l (Some r) in
      let '(next_level, current_node) := parents rest (i + 2) node_index (moved parent) in
      (parent :: next_level, current_node)
  end.

Fixpoint proof_levels (fuel : nat) (current_node : MerkleNode)
         (current_level : list MerkleNode) (proof : list proof_item) : list proof_item :=
  match fuel with
  | O => proof
  | S fuel' =>
      if (1 <? List.length current_level)%nat then
        match index_of_hash (hash current_node) current_level 0 with
        | None => proof
        | Some node_index =>
            let is_left := Nat.even node_index in
            let sibling_index := if is_left then (node_index + 1)%nat else (node_index - 1)%nat in
            let proof :=
              match nth_error current_level sibling_index with
              | Some sibling =>
                  (proof ++ [mkItem (hash sibling) (if is_left then "right" else "left")])%list
              | None => proof
              end in
            let '(next_level, current_node) := parents current_level 0 node_index current_node in
            proof_levels fuel' current_node next_level proof
        end
      else proof
  end.

Definition get_proof (self : t) (transaction_index : Z) : result (list proof_item) :=
  if (match leaf_nodes self with [] => true | _ => false end)
     || (Z.of_nat (List.length (leaf_nodes self)) <=? transaction_index)
  then Ok []
  else
    current_node <- getitem (leaf_nodes self) transaction_index ;;
    Ok (proof_levels (List.length (leaf_nodes self)) current_node (leaf_nodes self) []).

Definition verify_proof (transaction : dict) (proof : list proof_item) (root_hash : string) : bool :=
  let tx_string := Json.dumps float_repr (VDict transaction) in
  let current_hash := _hash_data tx_string in
  let current_hash :=
    fold_left (fun current_hash proof_item =>
                 let combined_hash :=
                   if String.eqb (position proof_item) "left"
                   then item_hash proof_item ++ current_hash
                   else current_hash ++ item_hash proof_item in
                 _hash_data combined_hash)
              proof current_hash in
  String.eqb current_hash root_hash.

Definition get_leaf_count (self : t) : nat := List.length (leaf_nodes self).

Definition get_transaction_hashes (self : t) : list string := map hash (leaf_nodes self).

Definition find_transaction_index (self : t) (transaction : dict) : option nat :=
  let tx_string := Json.dumps float_repr (VDict transaction) in
  let target_hash := _hash_data tx_string in
  index_of_hash target_hash (leaf_nodes self) 0.

End WithRepr.

End MerkleTree.

(* ------------------------------------------------------------------ *)
(** ** [consensus/block.py] *)

(** A Python number: an [int] or a [float]. *)
Inductive number : Type :=
| Int (n : Z)
| Float (x : pyfloat).

(** The value of a number in a comparison or a subtraction with a float. *)
Definition float_of (n : number) : pyfloat :=
  match n with
  | Int n => Finite (inject_Z n)
  | Float x => x
  end.

Definition number_value (n : number) : value :=
  match n with
  | Int n => VInt n
  | Float x => VFloat x
  end.

Definition optional_str (s : option string) : value :=
  match s with
  | Some s => VStr s
  | None => VNone
  end.

(** The values of a wire dictionary read at the types that the dataclass
    declares for its fields.  [from_dict] checks no type; a value of another
    type is outside the model, which [Untyped] marks. *)
Definition as_int (v : value) : result Z :=
  match v with
  | VInt n => Ok n
  | _ => Raise Untyped
  end.

Definition as_number (v : value) : result number :=
  match v with
  | VInt n => Ok (Int n)
  | VFloat x => Ok (Float x)
  | _ => Raise Untyped
  end.

Definition as_str (v : value) : result string :=
  match v with
  | VStr s => Ok s
  | _ => Raise Untyped
  end.

Definition as_dict (v : value) : result dict :=
  match v with
  | VDict d => Ok d
  | _ => Raise Untyped
  end.

Fixpoint as_dicts (l : list value) : result (list dict) :=
  match l with
  | [] => Ok []
  | v :: r => d <- as_dict v ;; ds <- as_dicts r ;; Ok (d :: ds)
  end.

Definition as_dict_list (v : value) : result (list dict) :=
  match v with
  | VList l => as_dicts l
  | _ => Raise Untyped
  end.

Module Block.

Record t : Type :=
  mkBlock {
    block_index : Z;
    timestamp : number;
    transactions : list dict;
    previous_hash : string;
    validator : string;
    energy_metrics : dict;
    merkle_root : option string;
    merkle_tree : option MerkleTree.t;
    hash : string
  }.

Definition set_merkle_tree (self : t) (x : option MerkleTree.t) : t :=
  mkBlock (block_index self) (timestamp self) (transactions self) (previous_hash self)
          (validator self) (energy_metrics self) (merkle_root self) x (hash self).

Definition set_merkle_root (self : t) (x : option string) : t :=
  mkBlock (block_index self) (timestamp self) (transactions self) (previous_hash self)
          (validator self) (energy_metrics self) x (merkle_tree self) (hash self).

Definition set_hash (self : t) (x : string) : t :=
  mkBlock (block_index self) (timestamp self) (transactions self) (previous_hash self)
          (validator self) (energy_metrics self) (merkle_root self) (merkle_tree self) x.

Section WithRepr.

Variable float_repr : Q -> string.

(** The dictionary that [calculate_hash] serializes. *)
Definition hashed_fields (self : t) : dict :=
  [ ("block_index", VInt (block_index self));
    ("timestamp", number_value (timestamp self));
    ("merkle_root", optional_str (merkle_root self));
    ("previous_hash", VStr (previous_hash self));
    ("validator", VStr (validator self));
    ("energy_metrics", VDict (energy_metrics self)) ].

Definition calculate_hash (self : t) : string :=
  let block_string := Json.dumps float_repr (VDict (hashed_fields self)) in
  Sha256.hexdigest block_string.

Definition __post_init__ (self : t) : t :=
  let tree := MerkleTree.init float_repr (transactions self) in
  let self := set_merkle_tree self (Some tree) in
  let self := set_merkle_root self (Some (MerkleTree.get_root_hash tree)) in
  set_hash self (calculate_hash self).

(** [Block(block_index=..., ..., merkle_root=...)]; [merkle_tree] has its
    default [None], and [hash] is not set before [__post_init__]. *)
Definition init (block_index : Z) (timestamp : number) (transactions : list dict)
           (previous_hash validator : string) (energy_metrics : dict)
           (merkle_root : option string) : t :=
  __post_init__
    (mkBlock block_index timestamp transactions previous_hash validator
             energy_metrics merkle_root None "").

Definition get_merkle_proof (self : t) (transaction_index : Z)
  : result (list MerkleTree.proof_item) :=
  match merkle_tree self with
  | Some tree => MerkleTree.get_proof tree transaction_index
  | None => Ok []
  end.

Definition verify_transaction_inclusion (self : t) (transaction : dict)
           (proof : list MerkleTree.proof_item) : bool :=
  match merkle_tree self, merkle_root self with
  | Some tree, Some r => MerkleTree.verify_proof float_repr transaction proof r
  | _, _ => false
  end.

Definition get_transaction_index (self : t) (transaction : dict) : option nat :=
  match merkle_tree self with
  | Some tree => MerkleTree.find_transaction_index float_repr tree transaction
  | None => None
  end.

Definition get_transaction_hashes (self : t) : list string :=
  match merkle_tree self with
  | Some tree => MerkleTree.get_transaction_hashes tree
  | None => []
  end.

Definition to_dict (self : t) : dict :=
  [ ("block_index", VInt (block_index self));
    ("timestamp", number_value (timestamp self));
    ("transactions", VList (map VDict (transactions self)));
    ("previous_hash", VStr (previous_hash self));
    ("hash", VStr (hash self));
    ("validator", VStr (validator self));
    ("energy_metrics", VDict (energy_metrics self));
    ("merkle_root", optional_str (merkle_root self)) ].

(** The wire dictionaries of the model: each required field that is
    present holds a value of the type that the dataclass declares for it
    ([block_index: int], [timestamp: float], a number, [transactions:
    List[Dict]], [previous_hash: str], [validator: str], [energy_metrics:
    Dict]). *)
Definition typed_field {A : Type} (read : value -> result A) (data : dict) (key : string)
  : bool :=
  match dict_get data key with
  | Some v => match read v with
              | Ok _ => true
              | Raise _ => false
              end
  | None => true
  end.

Definition typed (data : dict) : bool :=
  typed_field as_int data "block_index"
  && typed_field as_number data "timestamp"
  && typed_field as_dict_list data "transactions"
  && typed_field as_str data "previous_hash"
  && typed_field as_str data "validator"
  && typed_field as_dict data "energy_metrics".

(** [data.get('merkle_root')] read at the type of the field. *)
Definition stored_merkle_root (data : dict) : option string :=
  match dict_get data "merkle_root" with
  | Some (VStr s) => Some s
  | _ => None
  end.

Definition from_dict (data : dict) : result t :=
  block_index <- dict_getitem data "block_index" ;;
  timestamp <- dict_getitem data "timestamp" ;;
  transactions <- dict_getitem data "transactions" ;;
  previous_hash <- dict_getitem data "previous_hash" ;;
  validator <- dict_getitem data "validator" ;;
  energy_metrics <- dict_getitem data "energy_metrics" ;;
  let merkle_root := stored_merkle_root data in
  block_index <- as_int block_index ;;
  timestamp <- as_number timestamp ;;
  transactions <- as_dict_list transactions ;;
  previous_hash <- as_str previous_hash ;;
  validator <- as_str validator ;;
  energy_metrics <- as_dict energy_metrics ;;
  Ok (init block_index timestamp transactions previous_hash validator
           energy_metrics merkle_root).

(** Objects and [==].  [Block] is a dataclass: the [__eq__] that the
    decorator writes compares the tuples of the fields of the class,
    [merkle_tree] among them and [hash] not.  [MerkleTree] defines no
    [__eq__], so two trees are equal when they are one object.  An object of
    class [Block] is the state of its fields with the address of the tree
    that [__post_init__] has made; [next_address] is the first address that
    no object of the heap has, and each construction moves it on. *)
Record object : Type :=
  mkObject {
    fields : t;
    tree_address : nat
  }.

Definition new (next_address : nat) (block_index : Z) (timestamp : number)
           (transactions : list dict) (previous_hash validator : string)
           (energy_metrics : dict) (merkle_root : option string) : object * nat :=
  (mkObject (init block_index timestamp transactions previous_hash validator
                  energy_metrics merkle_root)
            next_address,
   S next_address).

Definition from_dict_new (next_address : nat) (data : dict) : result (object * nat) :=
  block <- from_dict data ;;
  Ok (mkObject block next_address, S next_address).

(** [self == other] on two blocks; [values_equal] is [==] on the tuples of
    the seven fields before [merkle_tree]. *)
Definition __eq__ (values_equal : t -> t -> bool) (self other : object) : bool :=
  values_equal (fields self) (fields other)
  && (tree_address self =? tree_address other)%nat.

End WithRepr.

End Block.

(* ------------------------------------------------------------------ *)
(** ** [monitoring/metrics.py]: the liveness view *)

Module BlockchainMetrics.

(** [all_nodes_metrics]: for each node the numeric fields of its last
    metrics record; ['timestamp'] is the time of the last update. *)
Record t : Type :=
  mkMetrics {
    all_nodes_metrics : list (string * list (string * Q))
  }.

(** The numeric fields that [record_node_metrics] copies from a metrics
    message, each with the default 0. *)
Definition recorded_fields : list string :=
  ["cpu_percent"; "memory_percent"; "temperature"; "power_usage"; "block_count";
   "pending_transactions"; "current_stake"].

(** The entry that the [defaultdict] makes for a node on its first access. *)
Definition default_node_metrics : list (string * Q) :=
  [("cpu_percent", 0%Q); ("memory_percent", 0%Q); ("temperature", 0%Q);
   ("power_usage", 0%Q); ("block_count", 0%Q); ("pending_transactions", 0%Q);
   ("current_stake", 0%Q); ("is_validator", 0%Q); ("timestamp", 0%Q)].

(** [d.update(other)] *)
Definition dict_update {A : Type} (d other : list (string * A)) : list (string * A) :=
  fold_left (fun d kv => dict_set d (fst kv) (snd kv)) other d.

(** [now] is the reading of [time.time()]; [metrics_data] holds the numeric
    fields of the message.  The validator list and the elected validator
    that the message may carry are kept in fields that are not part of the
    model. *)
Definition record_node_metrics (self : t) (node_id : string)
           (metrics_data : list (string * Q)) (now : Q) : t :=
  let node_metrics :=
    match dict_get (all_nodes_metrics self) node_id with
    | Some m => m
    | None => default_node_metrics
    end in
  let get key := match dict_get metrics_data key with
                 | Some x => x
                 | None => 0%Q
                 end in
  let updates := (map (fun key => (key, get key)) recorded_fields ++ [("timestamp", now)])%list in
  mkMetrics (dict_set (all_nodes_metrics self) node_id (dict_update node_metrics updates)).

(** [record_block_time] and [record_consensus_time], on the history that
    each one keeps: the value is appended, and the oldest one leaves a
    history of more than 20 values. *)
Definition record_history (history : list Q) (value : Q) : list Q :=
  let history := (history ++ [value])%list in
  if (20 <? List.length history)%nat then tl history else history.

Definition record_block_time (block_time_history : list Q) (value : Q) : list Q :=
  record_history block_time_history value.

Definition record_consensus_time (consensus_time_history : list Q) (value : Q) : list Q :=
  record_history consensus_time_history value.

(** [tps_window_seconds] *)
Definition tps_window_seconds : Q := 10.

(** [while events and events[0] < cutoff: events.popleft()] *)
Fixpoint drop_older (cutoff : Q) (transaction_events : list Q) : list Q :=
  match transaction_events with
  | [] => []
  | first :: rest =>
      if Qltb first cutoff then drop_older cutoff rest else transaction_events
  end.

(** [record_transactions(count)] on the deque of event times; [count] is
    an [int]. *)
Definition record_transactions (transaction_events : list Q) (count : Z) (now : Q) : list Q :=
  let transaction_events :=
    (transaction_events ++ repeat now (Z.to_nat (Z.max 0 count)))%list in
  let cutoff := (now - tps_window_seconds)%Q in
  drop_older cutoff transaction_events.

(** [get_tps()]: the events that stay in the deque, and the rate. *)
Definition get_tps (transaction_events : list Q) (now : Q) : list Q * Q :=
  let cutoff := (now - tps_window_seconds)%Q in
  let transaction_events := drop_older cutoff transaction_events in
  match transaction_events with
  | [] => (transaction_events, 0%Q)
  | first :: _ =>
      let elapsed := (last transaction_events first - first)%Q in
      let elapsed := if Qeq_bool elapsed 0 then tps_window_seconds else elapsed in
      let bounded := if Qltb elapsed tps_window_seconds then elapsed else tps_window_seconds in
      let window_span := if Qltb (1 # 1000000) bounded then bounded else (1 # 1000000)%Q in
      (transaction_events, (inject_Z (Z.of_nat (List.length transaction_events)) / window_span)%Q)
  end.

End BlockchainMetrics.

(* ------------------------------------------------------------------ *)
(** ** [consensus/dpos.py] *)

Module DPoS.

Record checkpoint : Type :=
  mkCheckpoint {
    cp_block_height : Z;
    cp_delegates : list string;
    cp_validators : list (string * pyfloat);
    cp_timestamp : Q
  }.

Record t : Type :=
  mkDPoS {
    max_validators : Z;
    validators : list (string * pyfloat);
    delegates : list string;
    block_time : Q;
    energy_threshold : Q;
    metrics : option BlockchainMetrics.t;
    liveness_threshold : Q;
    last_delegate_update_time : Q;
    delegate_update_interval : Q;
    checkpoints : list (Z * checkpoint);
    checkpoint_interval : Z
  }.

(** [DPoS(max_validators=21, metrics=None)] *)
Definition init (max_validators : Z) (metrics : option BlockchainMetrics.t) : t :=
  mkDPoS max_validators [] [] 3 5 metrics 60 0 300 [] 100.

Definition set_validators (self : t) (x : list (string * pyfloat)) : t :=
  mkDPoS (max_validators self) x (delegates self) (block_time self)
         (energy_threshold self) (metrics self) (liveness_threshold self)
         (last_delegate_update_time self) (delegate_update_interval self)
         (checkpoints self) (checkpoint_interval self).

Definition set_delegates (self : t) (x : list string) (time : Q) : t :=
  mkDPoS (max_validators self) (validators self) x (block_time self)
         (energy_threshold self) (metrics self) (liveness_threshold self)
         time (delegate_update_interval self)
         (checkpoints self) (checkpoint_interval self).

Definition set_block_time (self : t) (x : Q) : t :=
  mkDPoS (max_validators self) (validators self) (delegates self) x
         (energy_threshold self) (metrics self) (liveness_threshold self)
         (last_delegate_update_time self) (delegate_update_interval self)
         (checkpoints self) (checkpoint_interval self).

Definition add_validator (self : t) (address : string) (stake : pyfloat) : t * bool :=
  if max_validators self <=? Z.of_nat (List.length (validators self)) then (self, false)
  else (set_validators self (dict_set (validators self) address stake), true).

Definition remove_validator (self : t) (address : string) : t * bool :=
  if dict_mem (validators self) address
  then (set_validators self (dict_del (validators self) address), true)
  else (self, false).

(** [<] on the keys [(-stake, node_id)] of two validators: the order of
    tuples, which compares the first components that are not equal. *)
Definition key_lt (x y : string * pyfloat) : bool :=
  if feq (fneg (snd x)) (fneg (snd y)) then String.ltb (fst x) (fst y)
  else flt (fneg (snd x)) (fneg (snd y)).

(** The order of [sorted] on two validators: the first one stays before the
    second one unless the key of the second is below its own.  On stakes
    without NaN the keys are totally ordered, and every stable sort returns
    the same list.  With a NaN stake the keys are not, and the list that
    [sorted] of Python returns depends on the steps of its algorithm, which
    the model does not follow beyond a list in which no key is below the
    key before it: such a list is returned as it is. *)
Definition stake_order (x y : string * pyfloat) : bool := negb (key_lt y x).

(** [current_time] is the reading of [time.time()] at the top of the call. *)
Definition _update_delegates (self : t) (force_update : bool) (current_time : Q) : t :=
  if negb force_update
     && Qltb (current_time - last_delegate_update_time self)
             (delegate_update_interval self)
  then self
  else
    let sorted_validators := sorted stake_order (validators self) in
    set_delegates self
                  (slice_to (map fst sorted_validators) (max_validators self))
                  current_time.

Definition update_stake (self : t) (address : string) (new_stake : pyfloat)
           (current_time : Q) : t * bool :=
  if negb (dict_mem (validators self) address) then (self, false)
  else
    let self := set_validators self (dict_set (validators self) address new_stake) in
    let self := _update_delegates self true current_time in
    (self, true).

(** The test of [get_current_validator] on one delegate: its metrics are
    present, not empty, and recent. *)
Definition is_live (self : t) (m : BlockchainMetrics.t) (current_system_time : Q)
           (delegate_id : string) : bool :=
  match dict_get (BlockchainMetrics.all_nodes_metrics m) delegate_id with
  | None => false
  | Some [] => false
  | Some node_metrics =>
      let timestamp := match dict_get node_metrics "timestamp" with
                       | Some ts => ts
                       | None => 0%Q
                       end in
      Qltb (current_system_time - timestamp) (liveness_threshold self)
  end.

(** [current_system_time] is the reading of [time.time()] when there is a
    metrics instance. *)
Definition get_current_validator (self : t) (reference_block_index : Z)
           (current_system_time : Q) : option string :=
  match delegates self with
  | [] => None
  | _ =>
      let active_and_live_delegates :=
        match metrics self with
        | Some m => filter (is_live self m current_system_time) (delegates self)
        | None => delegates self
        end in
      let active_and_live_delegates := sorted String.leb active_and_live_delegates in
      match active_and_live_delegates with
      | [] => None
      | _ =>
          let expected_validator_slot :=
            (reference_block_index + 1)
              mod Z.of_nat (List.length active_and_live_delegates) in
          nth_error active_and_live_delegates (Z.to_nat expected_validator_slot)
      end
  end.

Definition is_time_to_propose_block (self : t) (last_block_timestamp : pyfloat) (now : Q)
  : bool :=
  fge (Finite now) (fadd last_block_timestamp (Finite (block_time self))).

Definition _validate_merkle_tree (block : Block.t) : bool :=
  match Block.merkle_root block with
  | None => false
  | Some "" => false
  | Some merkle_root =>
      match Block.merkle_tree block with
      | Some tree =>
          let expected_root := MerkleTree.get_root_hash tree in
          if negb (String.eqb merkle_root expected_root) then false
          else
            let transaction_hashes := Block.get_transaction_hashes block in
            if negb (List.length transaction_hashes =? List.length (Block.transactions block))%nat
            then false
            else true
      | None => false
      end
  end.

(** [time_validator] is the reading of the clock inside
    [get_current_validator], [current_time] the one of the time window. *)
Definition validate_block (self : t) (block : Block.t) (power_usage : pyfloat)
           (previous_block_timestamp : pyfloat) (previous_block_index : Z)
           (sync_tolerance : pyfloat) (time_validator current_time : Q) : bool :=
  if negb (existsb (String.eqb (Block.validator block)) (delegates self)) then false
  else
    let current_validator := get_current_validator self previous_block_index time_validator in
    if negb (match current_validator with
             | Some v => String.eqb (Block.validator block) v
             | None => false
             end) then false
    else if fle (float_of (Block.timestamp block))
                (fsub previous_block_timestamp sync_tolerance)
    then false
    else if Block.block_index block <=? previous_block_index then false
    else if fgt (fabs (fsub (Finite current_time) (float_of (Block.timestamp block))))
                (Finite (block_time self))
    then false
    else if negb (_validate_merkle_tree block) then false
    else if fgt power_usage (Finite (energy_threshold self)) then false
    else true.

(** [max(1, x)] and [min(5, x)] of Python: the first argument is kept
    unless the second is strictly beyond it. *)
Definition py_max (x y : Q) : Q := if Qltb x y then y else x.

Definition py_min (x y : Q) : Q := if Qltb y x then y else x.

Definition adjust_block_time (self : t) (network_load : Q) : t :=
  if Qltb (8 # 10) network_load
  then set_block_time self (py_max 1 (block_time self - (1 # 2)))
  else if Qltb network_load (3 # 10)
  then set_block_time self (py_min 5 (block_time self + (1 # 2)))
  else self.

(** The checkpoints are a [dict] with [int] keys: [d.get(key)],
    [d[key] = x] and [max(d.keys())]. *)
Fixpoint int_dict_get {A : Type} (d : list (Z * A)) (key : Z) : option A :=
  match d with
  | [] => None
  | (k, v) :: r => if k =? key then Some v else int_dict_get r key
  end.

Fixpoint int_dict_set {A : Type} (d : list (Z * A)) (key : Z) (x : A) : list (Z * A) :=
  match d with
  | [] => [(key, x)]
  | (k, v) :: r => if k =? key then (k, x) :: r else (k, v) :: int_dict_set r key x
  end.

Definition max_key {A : Type} (d : list (Z * A)) : option Z :=
  match d with
  | [] => None
  | (k, _) :: r => Some (fold_left Z.max (map fst r) k)
  end.

Definition set_checkpoints (self : t) (x : list (Z * checkpoint)) : t :=
  mkDPoS (max_validators self) (validators self) (delegates self) (block_time self)
         (energy_threshold self) (metrics self) (liveness_threshold self)
         (last_delegate_update_time self) (delegate_update_interval self)
         x (checkpoint_interval self).

(** [now] is the reading of [time.time()] for the checkpoint.  The result
    is [None] when [block_height % self.checkpoint_interval] raises
    [ZeroDivisionError]. *)
Definition create_checkpoint (self : t) (block_height : Z) (now : Q) : option t :=
  if checkpoint_interval self =? 0 then None
  else if block_height mod checkpoint_interval self =? 0 then
    let checkpoint_data :=
      mkCheckpoint block_height (delegates self) (validators self) now in
    Some (set_checkpoints self (int_dict_set (checkpoints self) block_height checkpoint_data))
  else Some self.

Definition get_latest_checkpoint (self : t) : option checkpoint :=
  match max_key (checkpoints self) with
  | None => None
  | Some latest_height => int_dict_get (checkpoints self) latest_height
  end.

Definition restore_from_checkpoint (self : t) (block_height : Z) : t * bool :=
  match int_dict_get (checkpoints self) block_height with
  | None => (self, false)
  | Some checkpoint =>
      (mkDPoS (max_validators self) (cp_validators checkpoint) (cp_delegates checkpoint)
              (block_time self) (energy_threshold self) (metrics self)
              (liveness_threshold self) (last_delegate_update_time self)
              (delegate_update_interval self) (checkpoints self) (checkpoint_interval self),
       true)
  end.

End DPoS.

(* ------------------------------------------------------------------ *)
(** ** [main.py]: the proposer duty of the node *)

(** [s.strip()] and [s.lower()] on code points below 256. *)
Definition is_space (ch : ascii) : bool :=
  let n := Z.of_N (N_of_ascii ch) in
  ((9 <=? n) && (n <=? 13)) || ((28 <=? n) && (n <=? 32)) || (n =? 133) || (n =? 160).

Fixpoint lstrip (s : list ascii) : list ascii :=
  match s with
  | [] => []
  | ch :: r => if is_space ch then lstrip r else s
  end.

Definition strip (s : string) : string :=
  string_of_list_ascii (rev (lstrip (rev (lstrip (list_ascii_of_string s))))).

Definition lower_char (ch : ascii) : ascii :=
  let n := Z.of_N (N_of_ascii ch) in
  if ((65 <=? n) && (n <=? 90)) || ((192 <=? n) && (n <=? 222) && negb (n =? 215))
  then ascii_of_N (Z.to_N (n + 32))
  else ch.

Definition lower (s : string) : string :=
  string_of_list_ascii (map lower_char (list_ascii_of_string s)).

Module BlockchainNode.

(** One reading of [EnergyMonitor.get_system_metrics()]. *)
Record system_metrics : Type :=
  mkSystemMetrics {
    cpu_percent : Q;
    memory_percent : Q;
    temperature : Q;
    power_usage : Q
  }.

(** What one pass of the proposer reads from the clock and the sensors, in
    the order of the reads. *)
Record readings : Type :=
  mkReadings {
    time_validator : Q;
    health : system_metrics;
    time_propose : Q;
    start_time : Q;
    time_block : Q;
    sensors : system_metrics;
    time_consensus : Q
  }.

(** What one pass sends out. *)
Inductive event : Type :=
| PublishBlock (block : dict)
| SaveBlock (block : Block.t)
| PublishValidatorStatus (status : dict)
| Sleep (seconds : Z).

(** [self.metrics] and [self.dpos.metrics] are one object: it is kept in
    [dpos].  The chart histories, the performance monitor and the analytics
    of the storage are not part of the state. *)
Record t : Type :=
  mkNode {
    node_id : string;
    blocks : list Block.t;
    pending_transactions : list dict;
    dpos : DPoS.t
  }.

(** [RASPBERRY_PI_SETTINGS] of [config/network_config.py] *)
Definition cpu_throttle_temp : Q := 80.
Definition max_cpu_usage : Q := 70.
Definition max_memory_usage : Q := 80.

Definition _check_system_health (m : system_metrics) : bool :=
  if Qltb cpu_throttle_temp (temperature m) then false
  else if Qltb max_cpu_usage (cpu_percent m) then false
  else if Qltb max_memory_usage (memory_percent m) then false
  else true.

(** [MerkleTree.get_tree_height]: the length of the leftmost branch. *)
Fixpoint height_from (current : MerkleTree.MerkleNode) : nat :=
  match current with
  | MerkleTree.mkNode _ (Some l) _ _ _ => S (height_from l)
  | MerkleTree.mkNode _ None _ _ _ => O
  end.

Definition get_tree_height (tree : MerkleTree.t) : nat :=
  match MerkleTree.root tree with
  | Some r => height_from r
  | None => O
  end.

Section WithRepr.

Variable float_repr : Q -> string.

(** The sealing of a block from the pending pool, once the node is the
    validator, healthy and on time. *)
Definition propose (self : t) (env : readings) (current_validator : string)
  : t * list event :=
  match pending_transactions self with
  | [] => (self, [Sleep 1])
  | _ =>
      let transactions_for_block := slice_to (pending_transactions self) 10 in
      let tree := MerkleTree.init float_repr transactions_for_block in
      let energy_metrics : dict :=
        [ ("cpu_percent", VFloat (cpu_percent (sensors env)));
          ("memory_percent", VFloat (memory_percent (sensors env)));
          ("temperature", VFloat (temperature (sensors env)));
          ("power_usage", VFloat (power_usage (sensors env)));
          ("consensus_time", VFloat (time_consensus env - start_time env));
          ("merkle_tree_nodes", VInt (Z.of_nat (MerkleTree.get_leaf_count tree)));
          ("merkle_tree_height", VInt (Z.of_nat (get_tree_height tree))) ] in
      let new_block :=
        Block.init float_repr
                   (Z.of_nat (List.length (blocks self)))
                   (Float (time_block env))
                   transactions_for_block
                   (match last (map Some (blocks self)) None with
                    | Some b => Block.hash b
                    | None => zeros64
                    end)
                   current_validator
                   energy_metrics
                   None in
      let blocks' := (blocks self ++ [new_block])%list in
      let status : dict :=
        [ ("node_id", VStr (node_id self));
          ("block_count", VInt (Z.of_nat (List.length blocks')));
          ("stake", VFloat (match dict_get (DPoS.validators (dpos self)) (node_id self) with
                            | Some stake => stake
                            | None => Finite 0
                            end));
          ("is_validator", VBool true) ] in
      (mkNode (node_id self) blocks' (slice_from (pending_transactions self) 10) (dpos self),
       [ PublishBlock (Block.to_dict new_block);
         SaveBlock new_block;
         PublishValidatorStatus status;
         Sleep 1 ])
  end.

(** One pass of the [while True] loop of
    [_process_transactions_periodically]: the state after the pass, what
    was sent, and whether the pass ended or an exception left the loop. *)
Definition _process_transactions_periodically (self : t) (env : readings)
  : t * list event * result unit :=
  let previous_block_timestamp :=
    match last (map Some (blocks self)) None with
    | Some b => float_of (Block.timestamp b)
    | None => Finite 0
    end in
  let previous_block_index :=
    match last (map Some (blocks self)) None with
    | Some b => Block.block_index b
    | None => -1
    end in
  let current_validator :=
    DPoS.get_current_validator (dpos self) previous_block_index (time_validator env) in
  match current_validator with
  | None =>
      (* [current_validator.strip()]: [None] has no attribute [strip] *)
      (self, [], Raise AttributeError)
  | Some current_validator =>
      if negb (String.eqb (lower (strip current_validator)) (lower (strip (node_id self))))
      then (self, [Sleep 1], Ok tt)
      else if negb (_check_system_health (health env))
      then (self, [Sleep 1], Ok tt)
      else if negb (DPoS.is_time_to_propose_block (dpos self) previous_block_timestamp
                                                   (time_propose env))
      then (self, [Sleep 1], Ok tt)
      else
        let '(self', events) := propose self env current_validator in
        (self', events, Ok tt)
  end.

End WithRepr.

End BlockchainNode.

(* ------------------------------------------------------------------ *)
(** ** [utils/merkle_utils.py] *)

Module MerkleUtils.

Section WithRepr.

Variable float_repr : Q -> string.

Definition create_merkle_tree_from_transactions (transactions : list dict) : MerkleTree.t :=
  MerkleTree.init float_repr transactions.

(** The temporary tree over the transaction alone is built and not read. *)
Definition verify_transaction_in_block (block_merkle_root : string) (transaction : dict)
           (proof : list MerkleTree.proof_item) : bool :=
  MerkleTree.verify_proof float_repr transaction proof block_merkle_root.

Definition calculate_merkle_root (transactions : list dict) : string :=
  match transactions with
  | [] => zeros64
  | _ => MerkleTree.get_root_hash (MerkleTree.init float_repr transactions)
  end.

Definition generate_merkle_proof (transactions : list dict) (target_transaction : dict)
  : result (option (list MerkleTree.proof_item)) :=
  let tree := MerkleTree.init float_repr transactions in
  match MerkleTree.find_transaction_index float_repr tree target_transaction with
  | Some tx_index =>
      proof <- MerkleTree.get_proof tree (Z.of_nat tx_index) ;;
      Ok (Some proof)
  | None => Ok None
  end.

Definition batch_verify_transactions (block_merkle_root : string) (transactions : list dict)
           (proofs : list (list MerkleTree.proof_item)) : list bool :=
  if negb (List.length transactions =? List.length proofs)%nat
  then repeat false (List.length transactions)
  else map (fun tx_proof => verify_transaction_in_block block_merkle_root
                                                         (fst tx_proof) (snd tx_proof))
           (combine transactions proofs).

Definition get_merkle_tree_stats (transactions : list dict) : dict :=
  match transactions with
  | [] => [("leaf_count", VInt 0); ("tree_height", VInt 0); ("root_hash", VStr zeros64)]
  | _ =>
      let tree := MerkleTree.init float_repr transactions in
      [ ("leaf_count", VInt (Z.of_nat (MerkleTree.get_leaf_count tree)));
        ("tree_height", VInt (Z.of_nat (BlockchainNode.get_tree_height tree)));
        ("root_hash", VStr (MerkleTree.get_root_hash tree)) ]
  end.

(** [merkle_root] is the attribute of a block, a string or [None]. *)
Definition validate_merkle_tree_integrity (merkle_root : option string)
           (transactions : list dict) : bool :=
  match transactions with
  | [] =>
      match merkle_root with
      | Some r => String.eqb r zeros64
      | None => false
      end
  | _ =>
      let tree := MerkleTree.init float_repr transactions in
      match merkle_root with
      | Some r => String.eqb (MerkleTree.get_root_hash tree) r
      | None => false
      end
  end.

Definition get_merkle_path_for_transaction (transactions : list dict)
           (target_transaction : dict) : result (option (list string)) :=
  let tree := MerkleTree.init float_repr transactions in
  match MerkleTree.find_transaction_index float_repr tree target_transaction with
  | None => Ok None
  | Some tx_index =>
      proof <- MerkleTree.get_proof tree (Z.of_nat tx_index) ;;
      let tx_string := Json.dumps float_repr (VDict target_transaction) in
      let current_hash := Sha256.hexdigest tx_string in
      Ok (Some (current_hash :: map MerkleTree.item_hash proof))
  end.

Definition calculate_merkle_tree_size (transactions : list dict) : list (string * Z) :=
  match transactions with
  | [] => [("total_nodes", 0); ("leaf_nodes", 0); ("internal_nodes", 0)]
  | _ =>
      let tree := MerkleTree.init float_repr transactions in
      let leaf_count := Z.of_nat (MerkleTree.get_leaf_count tree) in
      let height := Z.of_nat (BlockchainNode.get_tree_height tree) in
      let total_nodes := 2 ^ (height + 1) - 1 in
      let internal_nodes := total_nodes - leaf_count in
      [ ("total_nodes", total_nodes); ("leaf_nodes", leaf_count);
        ("internal_nodes", internal_nodes); ("tree_height", height) ]
  end.

End WithRepr.

End MerkleUtils.

(* ------------------------------------------------------------------ *)
(** ** [main.py]: the inbound handlers and the peer synchronization *)

Module BlockchainNodeHandlers.

Section WithRepr.

Variable float_repr : Q -> string.

(** [self.blocks[-1]] when the chain is not empty. *)
Definition last_block (self : BlockchainNode.t) : option Block.t :=
  last (map Some (BlockchainNode.blocks self)) None.

Definition append_block (self : BlockchainNode.t) (block : Block.t) : BlockchainNode.t :=
  BlockchainNode.mkNode (BlockchainNode.node_id self)
                        (BlockchainNode.blocks self ++ [block])%list
                        (BlockchainNode.pending_transactions self)
                        (BlockchainNode.dpos self).

(** [power_usage] is the reading of the energy monitor, [time_validator]
    and [current_time] are the readings of the clock in [validate_block].
    An exception of [Block.from_dict] leaves the handler; on a dictionary
    that is not [Block.typed] the model does not follow the code. *)
Definition _handle_new_block (self : BlockchainNode.t) (block_data : dict)
           (power_usage : Q) (time_validator current_time : Q)
  : BlockchainNode.t * list BlockchainNode.event * result unit :=
  match Block.from_dict float_repr block_data with
  | Raise e => (self, [], Raise e)
  | Ok block =>
      if existsb (fun b => String.eqb (Block.hash b) (Block.hash block))
                 (BlockchainNode.blocks self)
      then (self, [], Ok tt)
      else
        let previous_block_timestamp :=
          match last_block self with
          | Some b => float_of (Block.timestamp b)
          | None => Finite 0
          end in
        let previous_block_index :=
          match last_block self with
          | Some b => Block.block_index b
          | None => -1
          end in
        let merkle_valid :=
          MerkleUtils.validate_merkle_tree_integrity
            float_repr (Block.merkle_root block) (Block.transactions block) in
        if negb merkle_valid then (self, [], Ok tt)
        else if DPoS.validate_block (BlockchainNode.dpos self) block (Finite power_usage)
                                    previous_block_timestamp previous_block_index
                                    (Finite 0) time_validator current_time
        then
          match last_block self with
          | Some tail =>
              if String.eqb (Block.previous_hash block) (Block.hash tail)
              then (append_block self block, [BlockchainNode.SaveBlock block], Ok tt)
              else (self, [], Ok tt)
          | None => (self, [], Ok tt)
          end
        else (self, [], Ok tt)
  end.

Definition _handle_new_transaction (self : BlockchainNode.t) (transaction_data : dict)
  : BlockchainNode.t :=
  BlockchainNode.mkNode (BlockchainNode.node_id self)
                        (BlockchainNode.blocks self)
                        (BlockchainNode.pending_transactions self ++ [transaction_data])%list
                        (BlockchainNode.dpos self).




(** [status_data.get('network_load', 0.5)] *)
Definition _handle_network_status (self : BlockchainNode.t) (network_load : option Q)
  : BlockchainNode.t :=
  let load := match network_load with
              | Some x => x
              | None => (1 # 2)%Q
              end in
  BlockchainNode.mkNode (BlockchainNode.node_id self)
                        (BlockchainNode.blocks self)
                        (BlockchainNode.pending_transactions self)
                        (DPoS.adjust_block_time (BlockchainNode.dpos self) load).

(** [validators] is the list under the key ['validators'], [None] without
    that key; each entry gives ['address'] and ['stake']. *)
Definition _handle_validator_status (self : BlockchainNode.t)
           (validators : option (list (string * pyfloat))) : BlockchainNode.t :=
  match validators with
  | None => self
  | Some validators =>
      BlockchainNode.mkNode
        (BlockchainNode.node_id self)
        (BlockchainNode.blocks self)
        (BlockchainNode.pending_transactions self)
        (fold_left (fun dpos validator =>
                      fst (DPoS.add_validator dpos (fst validator) (snd validator)))
                   validators (BlockchainNode.dpos self))
  end.

End WithRepr.

End BlockchainNodeHandlers.

(* ================================================================== *)
(** * Specification-level definitions and inputs of the examples *)

(** The delegates that [get_current_validator] keeps before it sorts. *)
Definition live_delegates (self : DPoS.t) (now : Q) : list string :=
  match DPoS.metrics self with
  | Some m => filter (DPoS.is_live self m now) (DPoS.delegates self)
  | None => DPoS.delegates self
  end.

Definition ascending : string -> string -> Prop := fun x y => String.leb x y = true.

(** The liveness view, as the specification words it: a mapping of the
    node ids to the time at which each node was last seen, where a node is
    live at time [T] iff [T - last_seen < liveness_threshold].  The time at
    which a node was last seen is the entry [timestamp] of its record. *)
Definition last_seen (view : BlockchainMetrics.t) (node_id : string) : option Q :=
  match dict_get (BlockchainMetrics.all_nodes_metrics view) node_id with
  | Some record => dict_get record "timestamp"
  | None => None
  end.

Definition live (liveness_threshold : Q) (view : BlockchainMetrics.t) (T : Q)
           (node_id : string) : bool :=
  match last_seen view node_id with
  | Some seen => Qltb (T - seen) liveness_threshold
  | None => false
  end.

(** The list [active] of the specification before it is sorted: the live
    delegates, all the delegates when the liveness view is absent. *)
Definition active_delegates (self : DPoS.t) (T : Q) : list string :=
  match DPoS.metrics self with
  | Some view => filter (live (DPoS.liveness_threshold self) view T) (DPoS.delegates self)
  | None => DPoS.delegates self
  end.

(** The records of a liveness view carry the time of their last update:
    [record_node_metrics] writes it, and the default record of a node holds
    it. *)
Definition timestamped (view : BlockchainMetrics.t) : Prop :=
  forall node_id record,
    dict_get (BlockchainMetrics.all_nodes_metrics view) node_id = Some record ->
    record <> [] ->
    exists seen, dict_get record "timestamp" = Some seen.

(** The range of [block_time]. *)
Definition block_time_in_range (self : DPoS.t) : Prop :=
  (1 <= DPoS.block_time self)%Q /\ (DPoS.block_time self <= 5)%Q.

(** Three validators of equal stake, seen a second before time 100. *)
Definition seen_at (time : Q) : list (string * Q) :=
  [("cpu_percent", 0%Q); ("timestamp", time)].

Definition three_metrics : BlockchainMetrics.t :=
  BlockchainMetrics.mkMetrics [("a", seen_at 99); ("b", seen_at 99); ("c", seen_at 99)].

Definition three_validators (metrics : option BlockchainMetrics.t) : DPoS.t :=
  let self := DPoS.init 21 metrics in
  let self := fst (DPoS.add_validator self "c" 1000) in
  let self := fst (DPoS.add_validator self "a" 1000) in
  let self := fst (DPoS.add_validator self "b" 1000) in
  DPoS._update_delegates self true 100.

(** [float.__repr__] on the floats of the examples, whose values are
    integers below [10^16]. *)
Definition repr_integral (x : Q) : string :=
  NilZero.string_of_int (Z.to_int (Qfloor x)) ++ ".0".

(** What the constructor of [Block] establishes: the tree of the block is
    the tree built over its transactions. *)
Definition constructed (float_repr : Q -> string) (block : Block.t) : Prop :=
  Block.merkle_tree block
  = Some (MerkleTree.init float_repr (Block.transactions block)).

(** Merkle integrity of a block, as the specification words it. *)
Definition merkle_integrity (float_repr : Q -> string) (block : Block.t) : Prop :=
  let rebuilt := MerkleTree.init float_repr (Block.transactions block) in
  (exists r, Block.merkle_root block = Some r /\ r <> "")
  /\ Some (MerkleTree.get_root_hash rebuilt) = Block.merkle_root block
  /\ List.length (Block.transactions block) = MerkleTree.get_leaf_count rebuilt.

(** A block of one transaction sealed by validator b at time 101, after a
    block of index 0 sealed at time 98. *)
Definition block_of_b : Block.t :=
  Block.init repr_integral 1 (Float 101) [[("i", VInt 0)]] zeros64 "b"
             [("power_usage", VInt 1)] None.

(** The conditions of [validate_block], as the specification words them. *)
Definition valid_as_specified
           (float_repr : Q -> string) (self : DPoS.t) (block : Block.t)
           (power_usage prev_ts : pyfloat) (prev_index : Z) (sync_tolerance : pyfloat)
           (time_validator now : Q) : Prop :=
  In (Block.validator block) (DPoS.delegates self)
  /\ DPoS.get_current_validator self prev_index time_validator
     = Some (Block.validator block)
  /\ fgt (float_of (Block.timestamp block)) (fsub prev_ts sync_tolerance) = true
  /\ prev_index < Block.block_index block
  /\ fle (fabs (fsub (Finite now) (float_of (Block.timestamp block))))
         (Finite (DPoS.block_time self)) = true
  /\ merkle_integrity float_repr block
  /\ fle power_usage (Finite (DPoS.energy_threshold self)) = true.

(** The block of b with the timestamp NaN. *)
Definition block_without_time : Block.t :=
  Block.init repr_integral 1 (Float NaN) [[("i", VInt 0)]] zeros64 "b"
             [("power_usage", VInt 1)] None.

(** The same validators when b was last seen 120 seconds before time 100. *)
Definition b_silent_metrics : BlockchainMetrics.t :=
  BlockchainMetrics.mkMetrics [("a", seen_at 99); ("b", seen_at (-20)); ("c", seen_at 99)].

(** The delegates that the validator mapping determines: its node ids by
    [(stake DESC, node_id ASC)], cut to [max_validators]. *)
Definition delegates_of_validators (self : DPoS.t) : list string :=
  slice_to (map fst (sorted DPoS.stake_order (DPoS.validators self)))
           (DPoS.max_validators self).

(** A node whose engine has no delegate yet. *)
Definition idle_node : BlockchainNode.t :=
  BlockchainNode.mkNode "pi_node_1" [] [[("i", VInt 0)]] (DPoS.init 21 None).

Definition quiet_readings : BlockchainNode.readings :=
  let m := BlockchainNode.mkSystemMetrics 10 10 40 1 in
  BlockchainNode.mkReadings 100 m 100 100 100 m 100.

(** The index that the proposer passes to [get_current_validator]. *)
Definition reference_block_index (self : BlockchainNode.t) : Z :=
  match last (map Some (BlockchainNode.blocks self)) None with
  | Some b => Block.block_index b
  | None => -1
  end.

(** Three transactions [{"i": 0}], [{"i": 1}], [{"i": 2}]. *)
Definition tx_i (i : Z) : dict := [("i", VInt i)].

Definition three_transactions : list dict := [tx_i 0; tx_i 1; tx_i 2].

(** [verify(txs[i], proof(txs, i), root(txs))] *)
Definition proof_verifies (float_repr : Q -> string) (txs : list dict) (i : Z) : result bool :=
  let tree := MerkleTree.init float_repr txs in
  tx <- getitem txs i ;;
  proof <- MerkleTree.get_proof tree i ;;
  Ok (MerkleTree.verify_proof float_repr tx proof (MerkleTree.get_root_hash tree)).

(** The wire dictionary of [block_of_b] with another [merkle_root]. *)
Definition tampered_dict : dict :=
  dict_set (Block.to_dict block_of_b) "merkle_root" (VStr "00").

(** Induction on a JSON value, through the lists and the dictionaries. *)
Section ValueInduction.

Variable P : value -> Prop.

Hypothesis HNone : P VNone.
Hypothesis HBool : forall b, P (VBool b).
Hypothesis HInt : forall n, P (VInt n).
Hypothesis HFloat : forall x, P (VFloat x).
Hypothesis HStr : forall s, P (VStr s).
Hypothesis HList : forall l, Forall P l -> P (VList l).
Hypothesis HDict : forall d, Forall (fun kv => P (snd kv)) d -> P (VDict d).

Fixpoint value_induction (v : value) : P v :=
  match v with
  | VNone => HNone
  | VBool b => HBool b
  | VInt n => HInt n
  | VFloat x => HFloat x
  | VStr s => HStr s
  | VList l =>
      HList l
            ((fix items (l : list value) : Forall P l :=
                match l with
                | [] => Forall_nil P
                | x :: r => Forall_cons x (value_induction x) (items r)
                end) l)
  | VDict d =>
      HDict d
            ((fix items (d : list (string * value)) : Forall (fun kv => P (snd kv)) d :=
                match d with
                | [] => Forall_nil _
                | (k, x) :: r =>
                    @Forall_cons _ (fun kv => P (snd kv)) (k, x) r (value_induction x) (items r)
                end) d)
  end.

End ValueInduction.

(** Canonical JSON, as the specification words it: the keys of every
    object in lexicographic order, at every nesting level, and no
    whitespace between the tokens. *)
Definition item_le (x y : string * value) : bool := String.leb (fst x) (fst y).

Fixpoint sort_keys (v : value) : value :=
  match v with
  | VList l => VList (map sort_keys l)
  | VDict d =>
      VDict (sorted item_le (map (fun kv => let '(k, x) := kv in (k, sort_keys x)) d))
  | _ => v
  end.

Section Plain.

Variable float_repr : Q -> string.

Variables item_separator key_separator : string.

(** The text of a value, its items in the order in which they stand. *)
Fixpoint plain (v : value) : string :=
  match v with
  | VNone => "null"
  | VBool true => "true"
  | VBool false => "false"
  | VInt n => NilZero.string_of_int (Z.to_int n)
  | VFloat x => Json.float_text float_repr x
  | VStr s => Json.encode_string s
  | VList l => "[" ++ join item_separator (map plain l) ++ "]"
  | VDict d =>
      "{" ++ join item_separator
               (map (fun kv => let '(k, x) := kv in
                               Json.encode_string k ++ key_separator ++ plain x) d)
          ++ "}"
  end.

End Plain.

Definition canonical_json (float_repr : Q -> string) (v : value) : string :=
  plain float_repr "," ":" (sort_keys v).

Local Unset Elimination Schemes.

Inductive keys_sorted : value -> Prop :=
| sorted_none : keys_sorted VNone
| sorted_bool : forall b, keys_sorted (VBool b)
| sorted_int : forall n, keys_sorted (VInt n)
| sorted_float : forall x, keys_sorted (VFloat x)
| sorted_str : forall s, keys_sorted (VStr s)
| sorted_list : forall l, Forall keys_sorted l -> keys_sorted (VList l)
| sorted_dict : forall d,
    StronglySorted ascending (map fst d) ->
    Forall (fun kv => keys_sorted (snd kv)) d ->
    keys_sorted (VDict d).

Local Set Elimination Schemes.

(** Four transactions [{"i": 0}], ..., [{"i": 3}] and their leaf hashes. *)
Definition four_transactions : list dict := [tx_i 0; tx_i 1; tx_i 2; tx_i 3].

Definition leaf_hash (float_repr : Q -> string) (tx : dict) : string :=
  Sha256.hexdigest (Json.dumps float_repr (VDict tx)).

(** The walk of [verify_proof] from a hash along a proof. *)
Definition fold_path (h : string) (proof : list MerkleTree.proof_item) : string :=
  fold_left (fun current_hash proof_item =>
               MerkleTree._hash_data
                 (if String.eqb (MerkleTree.position proof_item) "left"
                  then MerkleTree.item_hash proof_item ++ current_hash
                  else current_hash ++ MerkleTree.item_hash proof_item))
            proof h.

(** The number of rounds of the [while] loop of [_build_tree] on a level of
    [n] nodes. *)
Fixpoint rounds (fuel n : nat) : nat :=
  match fuel with
  | O => O
  | S fuel' => if (1 <? n)%nat then S (rounds fuel' (Nat.div2 (S n))) else O
  end.

(** The roster of validators as a [dict] within its capacity: distinct
    addresses, at most [max_validators] of them. *)
Definition roster_within_capacity (self : DPoS.t) : Prop :=
  NoDup (map fst (DPoS.validators self))
  /\ Z.of_nat (List.length (DPoS.validators self)) <= DPoS.max_validators self.

(** No stake of the roster is NaN. *)
Definition no_nan_stake (self : DPoS.t) : Prop :=
  Forall (fun validator => is_nan (snd validator) = false) (DPoS.validators self).

(** The stake that the roster gives to an address. *)
Definition stake_of (self : DPoS.t) (address : string) : option pyfloat :=
  dict_get (DPoS.validators self) address.


(** Three validators for two seats. *)
Definition two_seats : DPoS.t :=
  DPoS.mkDPoS 2 [("a", Finite 5); ("b", Finite 20); ("c", Finite 10)]
              [] 3 5 None 60 0 300 [] 100.

(** The three validators with a checkpoint at height 200, and the same
    engine after the removal of a. *)
Definition checkpointed : DPoS.t :=
  match DPoS.create_checkpoint (three_validators None) 200 50 with
  | Some saved => saved
  | None => three_validators None
  end.

Definition after_removal : DPoS.t := fst (DPoS.remove_validator checkpointed "a").

(** A chain of one block sealed by a at time 98 on a node that sees the
    three validators, and the block of b that follows it. *)
Definition first_block : Block.t :=
  Block.init repr_integral 0 (Float 98) [] zeros64 "a" [] None.

Definition second_block : Block.t :=
  Block.init repr_integral 1 (Float 101) [tx_i 0] (Block.hash first_block) "b"
             [("power_usage", VInt 1)] None.

Definition peer_node : BlockchainNode.t :=
  BlockchainNode.mkNode "pi_node_3" [first_block] []
                        (three_validators (Some three_metrics)).

(** The wire dictionary of [second_block] with a forged [merkle_root]. *)
Definition forged_dict : dict :=
  dict_set (Block.to_dict second_block) "merkle_root" (VStr "00").

(** The keys that [Block.from_dict] reads with [data[key]], in the order
    of the reads. *)
Definition required_fields : list string :=
  ["block_index"; "timestamp"; "transactions"; "previous_hash"; "validator";
   "energy_metrics"].



(* ================================================================== *)
(** * Properties *)

(** ** The hash function on the test vectors of FIPS 180-4 *)

Example sha256_empty :
  Sha256.hexdigest "" = "e3b0c44298fc1c149afbf4c8996fb92427ae41e4649b934ca495991b7852b855".
Proof. vm_compute. reflexivity. Qed.

Example sha256_abc :
  Sha256.hexdigest "abc" = "ba7816bf8f01cfea414140de5dae2223b00361a396177a9cb410ff61f20015ad".
Proof. vm_compute. reflexivity. Qed.

Example sha256_two_blocks :
  Sha256.hexdigest "abcdbcdecdefdefgefghfghighijhijkijkljklmklmnlmnomnopnopq"
  = "248d6a61d20638b8e5c026930c3e6039a33ce45964ff2167f6ecedd419db06c1".
Proof. vm_compute. reflexivity. Qed.

(** ** [sorted] *)

Section Sorting.

Context {A : Type} (le : A -> A -> bool).

Let R : A -> A -> Prop := fun x y => le x y = true.

Lemma insert_by_perm (x : A) (l : list A) : Permutation (x :: l) (insert_by le x l).
Proof.
  induction l as [|y r IH]; simpl.
  - reflexivity.
  - destruct (le x y).
    + reflexivity.
    + rewrite perm_swap. now apply perm_skip.
Qed.

Lemma sorted_perm (l : list A) : Permutation l (sorted le l).
Proof.
  induction l as [|x r IH]; simpl.
  - constructor.
  - rewrite <- insert_by_perm. now apply perm_skip.
Qed.

Lemma sorted_length (l : list A) : List.length (sorted le l) = List.length l.
Proof. symmetry. apply Permutation_length, sorted_perm. Qed.

Hypothesis le_total : forall x y, le x y = true \/ le y x = true.

Lemma insert_by_hd (x y : A) (l : list A) :
  R y x -> HdRel R y l -> HdRel R y (insert_by le x l).
Proof.
  intros Hyx Hhd. destruct l as [|z r]; simpl.
  - now constructor.
  - destruct (le x z); constructor; auto.
    now inversion Hhd.
Qed.

Lemma insert_by_Sorted (x : A) (l : list A) : Sorted R l -> Sorted R (insert_by le x l).
Proof.
  induction 1 as [|y r Hs IH Hhd]; simpl.
  - repeat constructor.
  - destruct (le x y) eqn:Hxy.
    + constructor; [now constructor | now constructor].
    + constructor; [exact IH |].
      apply insert_by_hd; [| exact Hhd].
      destruct (le_total x y) as [H|H]; [congruence | exact H].
Qed.

Lemma sorted_Sorted (l : list A) : Sorted R (sorted le l).
Proof.
  induction l as [|x r IH]; simpl.
  - constructor.
  - now apply insert_by_Sorted.
Qed.

Hypothesis le_trans : forall x y z, le x y = true -> le y z = true -> le x z = true.

Lemma sorted_StronglySorted (l : list A) : StronglySorted R (sorted le l).
Proof.
  apply Sorted_StronglySorted.
  - intros x y z. apply le_trans.
  - apply sorted_Sorted.
Qed.

End Sorting.

(** ** The order of strings *)

Lemma ascii_compare_trans (a b c : ascii) :
  Ascii.compare a b = Lt -> Ascii.compare b c = Lt -> Ascii.compare a c = Lt.
Proof.
  unfold Ascii.compare. rewrite !N.compare_lt_iff. apply N.lt_trans.
Qed.

Lemma string_compare_trans (s1 : string) :
  forall s2 s3, String.compare s1 s2 = Lt -> String.compare s2 s3 = Lt ->
                String.compare s1 s3 = Lt.
Proof.
  induction s1 as [|a s1 IH]; intros [|b s2] [|c s3]; simpl; try congruence.
  destruct (Ascii.compare a b) eqn:Hab; try congruence;
    destruct (Ascii.compare b c) eqn:Hbc; try congruence.
  - apply Ascii.compare_eq_iff in Hab, Hbc. subst.
    assert (H : Ascii.compare c c = Eq)
      by (unfold Ascii.compare; apply N.compare_refl).
    rewrite H. apply IH.
  - apply Ascii.compare_eq_iff in Hab. subst. now rewrite Hbc.
  - apply Ascii.compare_eq_iff in Hbc. subst. now rewrite Hab.
  - now rewrite (ascii_compare_trans _ _ _ Hab Hbc).
Qed.

Lemma string_leb_trans (x y z : string) :
  String.leb x y = true -> String.leb y z = true -> String.leb x z = true.
Proof.
  unfold String.leb.
  destruct (String.compare x y) eqn:Hxy; try discriminate;
    destruct (String.compare y z) eqn:Hyz; try discriminate; intros _ _.
  - apply String.compare_eq_iff in Hxy. subst. now rewrite Hyz.
  - apply String.compare_eq_iff in Hxy. subst. now rewrite Hyz.
  - apply String.compare_eq_iff in Hyz. subst. now rewrite Hxy.
  - now rewrite (string_compare_trans _ _ _ Hxy Hyz).
Qed.

(** ** The loops of [MerkleTree] end before their fuel does *)

Lemma pairs_ind {A : Type} (P : list A -> Prop) :
  P [] -> (forall x, P [x]) -> (forall x y l, P l -> P (x :: y :: l)) -> forall l, P l.
Proof.
  intros H0 H1 H2.
  assert (H : forall l, P l /\ forall x, P (x :: l)).
  { induction l as [|y l [IH1 IH2]]; split; auto. }
  intros l. apply H.
Qed.

Lemma next_level_of_length (level : list MerkleTree.MerkleNode) :
  List.length (MerkleTree.next_level_of level) = Nat.div2 (S (List.length level)).
Proof.
  induction level as [| x | x y l IH] using pairs_ind; try reflexivity.
  cbn [MerkleTree.next_level_of List.length]. rewrite IH. reflexivity.
Qed.

Lemma parents_next_level (level : list MerkleTree.MerkleNode) :
  forall i node_index current_node,
    fst (MerkleTree.parents level i node_index current_node)
    = MerkleTree.next_level_of level.
Proof.
  induction level as [| x | x y l IH] using pairs_ind; intros i node_index current_node;
    try reflexivity.
  cbn [MerkleTree.parents MerkleTree.next_level_of].
  specialize (IH (i + 2)%nat node_index
                 (if (i =? node_index)%nat || (i + 1 =? node_index)%nat
                  then MerkleTree._create_parent_node x (Some y) else current_node)).
  destruct (MerkleTree.parents l (i + 2) node_index _) as [next node].
  cbn [fst] in *. now rewrite IH.
Qed.

Lemma half_below (n fuel : nat) :
  (1 < n)%nat -> (n <= S fuel)%nat -> (Nat.div2 (S n) <= fuel)%nat /\ (0 < Nat.div2 (S n))%nat.
Proof.
  intros H1 H2. rewrite Nat.div2_div.
  assert (S n mod 2 < 2)%nat by (apply Nat.mod_upper_bound; discriminate).
  pose proof (Nat.div_mod_eq (S n) 2) as E.
  generalize dependent (S n / 2)%nat. generalize dependent (S n mod 2)%nat.
  intros. lia.
Qed.

(** [_build_tree] ends with a level of one node: the root. *)
Lemma build_levels_one (fuel : nat) :
  forall level, level <> [] -> (List.length level <= fuel)%nat ->
                List.length (MerkleTree.build_levels fuel level) = 1%nat.
Proof.
  induction fuel as [|fuel IH]; intros level Hne Hlen.
  - destruct level; [congruence | simpl in Hlen; lia].
  - cbn [MerkleTree.build_levels].
    destruct (Nat.ltb_spec 1 (List.length level)) as [H|H].
    + destruct (half_below _ _ H Hlen) as [Hle Hpos].
      apply IH.
      * intros E. apply (f_equal (@List.length _)) in E.
        rewrite next_level_of_length in E. cbn [List.length] in E.
        rewrite E in Hpos. inversion Hpos.
      * now rewrite next_level_of_length.
    + destruct level; [congruence | simpl in *; lia].
Qed.

Lemma root_of_init (float_repr : Q -> string) (transactions : list dict) :
  exists r, MerkleTree.root (MerkleTree.init float_repr transactions) = Some r.
Proof.
  unfold MerkleTree.init, MerkleTree._build_tree.
  destruct transactions as [|tx txs]; [eexists; reflexivity |].
  cbn [MerkleTree.root].
  pose proof (build_levels_one
                (List.length (map (MerkleTree._create_leaf_node float_repr) (tx :: txs)))
                (map (MerkleTree._create_leaf_node float_repr) (tx :: txs))) as H.
  destruct (MerkleTree.build_levels _ _) as [|r rest].
  - exfalso. assert (0 = 1)%nat; [| lia]. apply H; [discriminate | lia].
  - now exists r.
Qed.

(** [get_proof] ends because the level has one node left: more fuel
    changes nothing. *)
Lemma proof_levels_fuel (fuel1 : nat) :
  forall fuel2 current_node level proof,
    (List.length level <= fuel1)%nat -> (List.length level <= fuel2)%nat ->
    MerkleTree.proof_levels fuel1 current_node level proof
    = MerkleTree.proof_levels fuel2 current_node level proof.
Proof.
  induction fuel1 as [|fuel1 IH]; intros fuel2 current_node level proof H1 H2.
  - destruct level; [| simpl in H1; lia].
    destruct fuel2; reflexivity.
  - destruct fuel2 as [|fuel2].
    + destruct level; [reflexivity | simpl in H2; lia].
    + cbn [MerkleTree.proof_levels].
      destruct (Nat.ltb_spec 1 (List.length level)) as [H|H]; [| reflexivity].
      destruct (MerkleTree.index_of_hash _ level 0) as [node_index|]; [| reflexivity].
      pose proof (parents_next_level level 0 node_index current_node) as E.
      destruct (MerkleTree.parents level 0 node_index current_node) as [next node].
      cbn [fst] in E. subst next.
      apply IH; rewrite next_level_of_length.
      * apply (half_below _ _ H H1).
      * apply (half_below _ _ H H2).
Qed.

(** ** Proofs verify when every level is full *)

Lemma proof_levels_acc (fuel : nat) :
  forall current_node level acc,
    MerkleTree.proof_levels fuel current_node level acc
    = (acc ++ MerkleTree.proof_levels fuel current_node level [])%list.
Proof.
  induction fuel as [|fuel IH]; intros current_node level acc.
  - cbn [MerkleTree.proof_levels]. now rewrite app_nil_r.
  - cbn [MerkleTree.proof_levels].
    destruct (1 <? List.length level)%nat; [| now rewrite app_nil_r].
    destruct (MerkleTree.index_of_hash _ level 0) as [node_index|]; [| now rewrite app_nil_r].
    destruct (MerkleTree.parents level 0 node_index current_node) as [next node].
    destruct (nth_error level _) as [sibling|].
    + rewrite IH. rewrite (IH node next ([] ++ _)%list).
      now rewrite <- !app_assoc.
    + apply IH.
Qed.

Lemma index_of_hash_found (h : string) (level : list MerkleTree.MerkleNode) :
  forall i n,
    MerkleTree.index_of_hash h level i = Some n ->
    exists j x, n = (i + j)%nat /\ nth_error level j = Some x /\ MerkleTree.hash x = h.
Proof.
  induction level as [|y level IH]; intros i n; cbn [MerkleTree.index_of_hash];
    [discriminate |].
  destruct (String.eqb_spec (MerkleTree.hash y) h) as [E|E].
  - intros H. inversion H. subst. exists 0%nat, y. repeat split; auto.
  - intros H. destruct (IH _ _ H) as (j & x & Hn & Hx & Hh).
    exists (S j), x. repeat split; auto. lia.
Qed.

Lemma index_of_hash_exists (h : string) (level : list MerkleTree.MerkleNode) :
  In h (map MerkleTree.hash level) ->
  forall i, exists n, MerkleTree.index_of_hash h level i = Some n.
Proof.
  induction level as [|y level IH]; intros Hin i; [contradiction |].
  cbn [MerkleTree.index_of_hash].
  destruct (String.eqb_spec (MerkleTree.hash y) h) as [E|E]; [now eexists |].
  destruct Hin as [H|H]; [contradiction | now apply IH].
Qed.

Lemma parents_before (level : list MerkleTree.MerkleNode) :
  forall i node_index current_node,
    (node_index < i)%nat ->
    snd (MerkleTree.parents level i node_index current_node) = current_node.
Proof.
  induction level as [| x | x y l IH] using pairs_ind; intros i node_index current_node H;
    cbn [MerkleTree.parents]; try reflexivity.
  - destruct (Nat.eqb_spec i node_index); [lia |].
    destruct (Nat.eqb_spec (i + 1) node_index); [lia | reflexivity].
  - destruct (Nat.eqb_spec i node_index); [lia |].
    destruct (Nat.eqb_spec (i + 1) node_index); [lia |].
    cbn [orb].
    specialize (IH (i + 2)%nat node_index current_node).
    destruct (MerkleTree.parents l (i + 2) node_index current_node) as [next node].
    cbn [snd] in *. apply IH. lia.
Qed.

(** The node to which [get_proof] moves: the parent of the pair of the
    position [j], whose hash is the one that [verify_proof] computes from
    the node of that position and its sibling. *)
Lemma parents_at (level : list MerkleTree.MerkleNode) :
  forall i j current_node x,
    nth_error level j = Some x ->
    let node := snd (MerkleTree.parents level i (i + j) current_node) in
    In node (MerkleTree.next_level_of level)
    /\ (Nat.even j = true ->
        MerkleTree.hash node
        = MerkleTree._hash_data (MerkleTree.hash x ++ MerkleTree.hash (nth (S j) level x)))
    /\ (Nat.even j = false ->
        exists s, nth_error level (j - 1) = Some s
                  /\ MerkleTree.hash node
                     = MerkleTree._hash_data (MerkleTree.hash s ++ MerkleTree.hash x)).
Proof.
  induction level as [| x0 | x0 y0 l IH] using pairs_ind; intros i j current_node x Hx.
  - destruct j; discriminate.
  - destruct j as [|j]; [| destruct j; discriminate].
    inversion Hx. subst x0. cbn [MerkleTree.parents MerkleTree.next_level_of snd].
    rewrite Nat.add_0_r, Nat.eqb_refl. cbn [orb].
    split; [now left |]. split; [reflexivity | discriminate].
  - destruct j as [|[|j]].
    + inversion Hx. subst x0. cbn [MerkleTree.parents MerkleTree.next_level_of].
      rewrite Nat.add_0_r, Nat.eqb_refl. cbn [orb].
      pose proof (parents_before l (i + 2) i (MerkleTree._create_parent_node x (Some y0))) as B.
      destruct (MerkleTree.parents l (i + 2) i _) as [next node]. cbn [snd] in *.
      rewrite B by lia.
      split; [now left |]. split; [reflexivity | discriminate].
    + inversion Hx. subst y0. cbn [MerkleTree.parents MerkleTree.next_level_of].
      destruct (Nat.eqb_spec i (i + 1)); [lia |].
      rewrite Nat.eqb_refl. cbn [orb].
      pose proof (parents_before l (i + 2) (i + 1)
                                 (MerkleTree._create_parent_node x0 (Some x))) as B.
      destruct (MerkleTree.parents l (i + 2) (i + 1) _) as [next node]. cbn [snd] in *.
      rewrite B by lia.
      split; [now left |]. split; [discriminate |].
      intros _. exists x0. split; reflexivity.
    + cbn [nth_error] in Hx. cbn [MerkleTree.parents MerkleTree.next_level_of].
      destruct (Nat.eqb_spec i (i + S (S j))); [lia |].
      destruct (Nat.eqb_spec (i + 1) (i + S (S j))); [lia |].
      cbn [orb].
      replace (i + S (S j))%nat with (i + 2 + j)%nat by lia.
      specialize (IH (i + 2)%nat j current_node x Hx). cbv zeta in IH.
      destruct (MerkleTree.parents l (i + 2) (i + 2 + j) current_node) as [next node].
      cbn [snd] in *. destruct IH as (Hin & Heven & Hodd).
      split; [now right |]. split.
      * intros E. apply Heven. exact E.
      * intros E. destruct (Hodd E) as (s & Hs & Hh).
        exists s. split; [| exact Hh].
        destruct j as [|j]; [discriminate |].
        cbn [Nat.sub nth_error] in *. now rewrite Nat.sub_0_r in *.
Qed.

Lemma full_levels_path (k : nat) :
  forall fuel level node,
    List.length level = (2 ^ k)%nat ->
    (List.length level <= fuel)%nat ->
    In (MerkleTree.hash node) (map MerkleTree.hash level) ->
    exists r,
      MerkleTree.build_levels fuel level = [r]
      /\ fold_path (MerkleTree.hash node) (MerkleTree.proof_levels fuel node level [])
         = MerkleTree.hash r.
Proof.
  induction k as [|k IH]; intros fuel level node Hlen Hfuel Hin.
  - destruct level as [|x [|y l]]; try discriminate.
    destruct fuel as [|fuel]; [simpl in Hfuel; lia |].
    exists x. split; [reflexivity |].
    cbn [MerkleTree.proof_levels List.length Nat.ltb Nat.leb fold_path fold_left].
    destruct Hin as [H|[]]. now rewrite H.
  - rewrite Nat.pow_succ_r' in Hlen.
    assert (Hpos : (0 < 2 ^ k)%nat) by (apply Nat.neq_0_lt_0, Nat.pow_nonzero; discriminate).
    destruct fuel as [|fuel]; [lia |].
    assert (Hbig : (1 < List.length level)%nat) by lia.
    destruct (half_below _ _ Hbig Hfuel) as [Hhalf _].
    assert (Hnext : List.length (MerkleTree.next_level_of level) = (2 ^ k)%nat).
    { rewrite next_level_of_length, Hlen. apply Nat.div2_succ_double. }
    cbn [MerkleTree.build_levels MerkleTree.proof_levels].
    apply Nat.ltb_lt in Hbig. rewrite Hbig. apply Nat.ltb_lt in Hbig.
    destruct (index_of_hash_exists _ _ Hin 0%nat) as [n Hn]. rewrite Hn.
    destruct (index_of_hash_found _ _ _ _ Hn) as (j & x & Hj & Hx & Hh).
    cbn [Nat.add] in Hj. subst n.
    assert (Hjlen : (j < List.length level)%nat) by (apply nth_error_Some; congruence).
    pose proof (parents_at level 0 j node x Hx) as P. cbv zeta in P. cbn [Nat.add] in P.
    pose proof (parents_next_level level 0 j node) as N.
    destruct (MerkleTree.parents level 0 j node) as [next node'].
    cbn [fst snd] in *. subst next. destruct P as (Pin & Peven & Podd).
    destruct (IH fuel (MerkleTree.next_level_of level) node' Hnext)
      as (r & Hr & Hpath).
    { rewrite next_level_of_length. exact Hhalf. }
    { now apply in_map. }
    exists r. split; [exact Hr |].
    destruct (Nat.even j) eqn:Ej.
    + assert (Hs : (j + 1 < List.length level)%nat).
      { apply Nat.even_spec in Ej. destruct Ej as [m Em]. lia. }
      destruct (nth_error level (j + 1)) as [s|] eqn:Es;
        [| apply nth_error_None in Es; lia].
      rewrite proof_levels_acc. cbn [app]. unfold fold_path. cbn [fold_left].
      fold (fold_path
              (MerkleTree._hash_data
                 (if (MerkleTree.position (MerkleTree.mkItem (MerkleTree.hash s) "right")
                      =? "left")%string
                  then MerkleTree.item_hash (MerkleTree.mkItem (MerkleTree.hash s) "right")
                       ++ MerkleTree.hash node
                  else MerkleTree.hash node
                       ++ MerkleTree.item_hash (MerkleTree.mkItem (MerkleTree.hash s) "right")))
              (MerkleTree.proof_levels fuel node' (MerkleTree.next_level_of level) [])).
      cbn [MerkleTree.position MerkleTree.item_hash].
      replace ("right" =? "left")%string with false by reflexivity.
      rewrite <- Hpath. f_equal. rewrite (Peven eq_refl). rewrite Hh.
      replace (S j) with (j + 1)%nat by lia.
      now rewrite (nth_error_nth _ _ _ Es).
    + destruct (Podd eq_refl) as (s & Hs & Hnode).
      rewrite Hs.
      rewrite proof_levels_acc. cbn [app]. unfold fold_path. cbn [fold_left].
      fold (fold_path
              (MerkleTree._hash_data
                 (if (MerkleTree.position (MerkleTree.mkItem (MerkleTree.hash s) "left")
                      =? "left")%string
                  then MerkleTree.item_hash (MerkleTree.mkItem (MerkleTree.hash s) "left")
                       ++ MerkleTree.hash node
                  else MerkleTree.hash node
                       ++ MerkleTree.item_hash (MerkleTree.mkItem (MerkleTree.hash s) "left")))
              (MerkleTree.proof_levels fuel node' (MerkleTree.next_level_of level) [])).
      cbn [MerkleTree.position MerkleTree.item_hash].
      replace ("left" =? "left")%string with true by reflexivity.
      rewrite <- Hpath. f_equal. now rewrite Hnode, Hh.
Qed.

Lemma verify_proof_fold_path
      (float_repr : Q -> string) (tx : dict) (proof : list MerkleTree.proof_item)
      (root_hash : string) :
  MerkleTree.verify_proof float_repr tx proof root_hash
  = String.eqb (fold_path (leaf_hash float_repr tx) proof) root_hash.
Proof. reflexivity. Qed.

(** X1.  When the number of transactions is a power of two, every level of
    the tree is full, and the proof of every index in range verifies. *)
Theorem proofs_verify_on_full_levels
        (float_repr : Q -> string) (k : nat) (txs : list dict) (i : Z) :
  List.length txs = (2 ^ k)%nat ->
  0 <= i < Z.of_nat (List.length txs) ->
  proof_verifies float_repr txs i = Ok true.
Proof.
  intros Hlen Hi.
  assert (Hpos : (0 < 2 ^ k)%nat) by (apply Nat.neq_0_lt_0, Nat.pow_nonzero; discriminate).
  destruct (nth_error txs (Z.to_nat i)) as [tx|] eqn:Htx;
    [| apply nth_error_None in Htx; lia].
  assert (Hget : forall (A : Type) (l : list A) (x : A),
             List.length l = List.length txs ->
             nth_error l (Z.to_nat i) = Some x -> getitem l i = Ok x).
  { intros A l x Hl Hx. unfold getitem. cbv zeta.
    assert (E1 : (i <? 0) = false) by (apply Z.ltb_ge; lia).
    assert (E2 : (Z.of_nat (List.length l) <=? i) = false) by (apply Z.leb_gt; lia).
    rewrite E1. cbv iota. rewrite E1, E2. cbn [orb]. now rewrite Hx. }
  unfold proof_verifies. cbv zeta.
  rewrite (Hget _ txs tx eq_refl Htx). cbn [bind].
  set (leaves := map (MerkleTree._create_leaf_node float_repr) txs).
  assert (Hleaves : MerkleTree.leaf_nodes (MerkleTree.init float_repr txs) = leaves).
  { unfold MerkleTree.init, MerkleTree._build_tree.
    destruct txs; [simpl in Hlen; lia | reflexivity]. }
  assert (Hroot : MerkleTree.root (MerkleTree.init float_repr txs)
                  = nth_error (MerkleTree.build_levels (List.length leaves) leaves) 0).
  { unfold MerkleTree.init, MerkleTree._build_tree.
    destruct txs; [simpl in Hlen; lia | reflexivity]. }
  assert (Hll : List.length leaves = List.length txs) by apply length_map.
  assert (Hleaf : nth_error leaves (Z.to_nat i)
                  = Some (MerkleTree._create_leaf_node float_repr tx)).
  { unfold leaves. now rewrite nth_error_map, Htx. }
  unfold MerkleTree.get_proof. rewrite Hleaves.
  destruct leaves as [|leaf0 rest] eqn:El; [simpl in Hll; lia |]. rewrite <- El in *.
  cbn [orb].
  assert (E : (Z.of_nat (List.length leaves) <=? i) = false) by (apply Z.leb_gt; lia).
  rewrite E. rewrite (Hget _ leaves _ Hll Hleaf). cbn [bind].
  destruct (full_levels_path k (List.length leaves) leaves
                             (MerkleTree._create_leaf_node float_repr tx))
    as (r & Hr & Hpath).
  - now rewrite Hll.
  - apply Nat.le_refl.
  - apply in_map. eapply nth_error_In. exact Hleaf.
  - unfold MerkleTree.get_root_hash. rewrite Hroot, Hr. cbn [nth_error].
    rewrite verify_proof_fold_path.
    change (leaf_hash float_repr tx)
      with (MerkleTree.hash (MerkleTree._create_leaf_node float_repr tx)).
    rewrite Hpath. now rewrite String.eqb_refl.
Qed.

(** ** The scenarios of the specification on the Merkle commitment *)

Example root_of_no_transaction (float_repr : Q -> string) :
  MerkleTree.get_root_hash (MerkleTree.init float_repr []) = zeros64.
Proof. reflexivity. Qed.

Example proof_of_single_transaction (float_repr : Q -> string) (tx : dict) :
  MerkleTree.get_root_hash (MerkleTree.init float_repr [tx]) = leaf_hash float_repr tx
  /\ MerkleTree.get_proof (MerkleTree.init float_repr [tx]) 0 = Ok []
  /\ proof_verifies float_repr [tx] 0 = Ok true.
Proof.
  split; [reflexivity |]. split; [reflexivity |].
  unfold proof_verifies, MerkleTree.verify_proof.
  cbn [getitem bind MerkleTree.get_proof MerkleTree.init MerkleTree._build_tree
       MerkleTree.leaf_nodes map List.length MerkleTree.proof_levels Nat.ltb Nat.leb
       orb Z.of_nat Z.leb Z.ltb Z.compare Pos.of_succ_nat Pos.compare nth_error Z.to_nat
       Z.add fold_left].
  cbn [MerkleTree.get_root_hash MerkleTree.root MerkleTree.build_levels
       MerkleTree._create_leaf_node MerkleTree.hash nth_error List.length Nat.ltb Nat.leb].
  now rewrite String.eqb_refl.
Qed.

Example proof_of_four_transactions (float_repr : Q -> string) :
  let h := fun i => leaf_hash float_repr (tx_i i) in
  let h01 := Sha256.hexdigest (h 0 ++ h 1) in
  let h23 := Sha256.hexdigest (h 2 ++ h 3) in
  MerkleTree.get_root_hash (MerkleTree.init float_repr four_transactions)
  = Sha256.hexdigest (h01 ++ h23)
  /\ MerkleTree.get_proof (MerkleTree.init float_repr four_transactions) 0
     = Ok [MerkleTree.mkItem (h 1) "right"; MerkleTree.mkItem h23 "right"]
  /\ map (proof_verifies float_repr four_transactions) [0; 1; 2; 3]
     = [Ok true; Ok true; Ok true; Ok true].
Proof.
  cbv zeta.
  split; [vm_compute; reflexivity |].
  split; vm_compute; reflexivity.
Qed.

(** ** [DPoS.adjust_block_time] *)

Lemma Qltb_true (x y : Q) : Qltb x y = true <-> (x < y)%Q.
Proof.
  unfold Qltb. rewrite negb_true_iff. split.
  - intros H. apply Qnot_le_lt. intros Hle. apply Qle_bool_iff in Hle. congruence.
  - intros H. destruct (Qle_bool y x) eqn:E; [| reflexivity].
    apply Qle_bool_iff in E. exfalso. apply (Qlt_not_le _ _ H E).
Qed.

Lemma Qltb_false (x y : Q) : Qltb x y = false <-> (y <= x)%Q.
Proof.
  unfold Qltb. rewrite negb_false_iff. apply Qle_bool_iff.
Qed.

Lemma adjust_block_time_preserves (self : DPoS.t) (network_load : Q) :
  block_time_in_range self -> block_time_in_range (DPoS.adjust_block_time self network_load).
Proof.
  unfold block_time_in_range, DPoS.adjust_block_time, DPoS.py_max, DPoS.py_min.
  intros [Hlo Hhi].
  destruct (Qltb (8 # 10) network_load).
  - cbn [DPoS.block_time DPoS.set_block_time].
    destruct (Qltb 1 (DPoS.block_time self - (1 # 2))) eqn:E.
    + apply Qltb_true in E. split; lra.
    + split; lra.
  - destruct (Qltb network_load (3 # 10)).
    + cbn [DPoS.block_time DPoS.set_block_time].
      destruct (Qltb (DPoS.block_time self + (1 # 2)) 5) eqn:E.
      * apply Qltb_true in E. split; lra.
      * split; lra.
    + now split.
Qed.

Lemma adjust_block_time_run (loads : list Q) :
  forall self, block_time_in_range self ->
               block_time_in_range (fold_left DPoS.adjust_block_time loads self).
Proof.
  induction loads as [|load loads IH]; intros self H; simpl.
  - exact H.
  - apply IH, adjust_block_time_preserves, H.
Qed.

(** C10.  A node starts with [block_time = 3]; after any sequence of calls
    of [adjust_block_time], whatever the network loads, [block_time] lies
    in the closed interval from 1 to 5. *)
Theorem block_time_stays_in_range
        (max_validators : Z) (metrics : option BlockchainMetrics.t) (loads : list Q) :
  block_time_in_range
    (fold_left DPoS.adjust_block_time loads (DPoS.init max_validators metrics)).
Proof.
  apply adjust_block_time_run.
  unfold block_time_in_range, DPoS.init. cbn [DPoS.block_time]. split; lra.
Qed.

(** ** [DPoS.get_current_validator] *)

Lemma live_delegates_nil (self : DPoS.t) (now : Q) :
  DPoS.delegates self = [] -> live_delegates self now = [].
Proof.
  unfold live_delegates. intros H. rewrite H. now destruct (DPoS.metrics self).
Qed.

Lemma sorted_nil_iff {A : Type} (le : A -> A -> bool) (l : list A) :
  sorted le l = [] <-> l = [].
Proof.
  split; intros H.
  - apply Permutation_nil. rewrite <- H. symmetry. apply sorted_perm.
  - now subst.
Qed.

Lemma slot_in_range {A : Type} (l : list A) (k : Z) :
  l <> [] -> exists x, nth_error l (Z.to_nat (k mod Z.of_nat (List.length l))) = Some x.
Proof.
  intros Hne.
  destruct (nth_error l (Z.to_nat (k mod Z.of_nat (List.length l)))) as [x|] eqn:E.
  - now exists x.
  - exfalso. apply nth_error_None in E.
    assert (0 < Z.of_nat (List.length l)) by (destruct l; [congruence | simpl; lia]).
    pose proof (Z.mod_pos_bound k (Z.of_nat (List.length l)) H). lia.
Qed.

Lemma get_current_validator_eq (self : DPoS.t) (reference_block_index : Z) (now : Q) :
  DPoS.get_current_validator self reference_block_index now =
  match sorted String.leb (live_delegates self now) with
  | [] => None
  | active =>
      nth_error active
                (Z.to_nat ((reference_block_index + 1) mod Z.of_nat (List.length active)))
  end.
Proof.
  unfold DPoS.get_current_validator.
  destruct (DPoS.delegates self) as [|d ds] eqn:Hd.
  - now rewrite (live_delegates_nil self now Hd).
  - unfold live_delegates. rewrite Hd.
    now destruct (sorted String.leb _).
Qed.

(** The liveness test of the code is the one of the specification, on a
    view whose records carry the time of their last update. *)
Lemma is_live_live (self : DPoS.t) (view : BlockchainMetrics.t) (now : Q) (node_id : string) :
  timestamped view ->
  DPoS.is_live self view now node_id = live (DPoS.liveness_threshold self) view now node_id.
Proof.
  intros Hview. unfold DPoS.is_live, live, last_seen.
  destruct (dict_get (BlockchainMetrics.all_nodes_metrics view) node_id)
    as [record|] eqn:E; [| reflexivity].
  destruct record as [|entry rest]; [reflexivity |].
  destruct (Hview node_id (entry :: rest) E) as [seen Hseen]; [discriminate |].
  now rewrite Hseen.
Qed.

Lemma live_delegates_active (self : DPoS.t) (now : Q) :
  (forall view, DPoS.metrics self = Some view -> timestamped view) ->
  live_delegates self now = active_delegates self now.
Proof.
  intros Hview. unfold live_delegates, active_delegates.
  destruct (DPoS.metrics self) as [view|]; [| reflexivity].
  apply filter_ext. intros node_id. apply is_live_live. now apply Hview.
Qed.

(** C2.  [get_current_validator] returns the entry of index
    [(ref_index + 1) mod len(active)] of [active], the live delegates (all
    the delegates without a liveness view) in ascending order of node id,
    where a delegate is live at time [T] iff [T - last_seen] is below the
    liveness threshold; it returns [None] when there is no delegate or no
    live delegate.  With validators a, b, c all live, the indices -1, 0, 1, 2
    give a, b, c, a; when b was last seen 120 seconds ago, the active list is
    a, c and the indices -1, 0, 1 give a, c, a. *)
Theorem current_validator_rotation :
  (forall (self : DPoS.t) (reference_block_index : Z) (now : Q),
      (forall view, DPoS.metrics self = Some view -> timestamped view) ->
      exists active : list string,
        Permutation active (active_delegates self now)
        /\ StronglySorted ascending active
        /\ (DPoS.delegates self = [] \/ active = [] ->
            DPoS.get_current_validator self reference_block_index now = None)
        /\ (active <> [] ->
            exists v,
              DPoS.get_current_validator self reference_block_index now = Some v
              /\ nth_error active
                           (Z.to_nat ((reference_block_index + 1)
                                        mod Z.of_nat (List.length active))) = Some v))
  /\ timestamped three_metrics
  /\ DPoS.delegates (three_validators (Some three_metrics)) = ["a"; "b"; "c"]
  /\ active_delegates (three_validators (Some three_metrics)) 100 = ["a"; "b"; "c"]
  /\ map (fun i => DPoS.get_current_validator (three_validators (Some three_metrics)) i 100)
         [-1; 0; 1; 2]
     = [Some "a"; Some "b"; Some "c"; Some "a"]
  /\ map (fun i => DPoS.get_current_validator (three_validators None) i 100)
         [-1; 0; 1; 2]
     = [Some "a"; Some "b"; Some "c"; Some "a"]
  /\ timestamped b_silent_metrics
  /\ active_delegates (three_validators (Some b_silent_metrics)) 100 = ["a"; "c"]
  /\ map (fun i => DPoS.get_current_validator (three_validators (Some b_silent_metrics)) i 100)
         [-1; 0; 1]
     = [Some "a"; Some "c"; Some "a"].
Proof.
  assert (Hseen : forall t1 t2 t3,
             timestamped (BlockchainMetrics.mkMetrics
                            [("a", seen_at t1); ("b", seen_at t2); ("c", seen_at t3)])).
  { intros t1 t2 t3 node_id record H _.
    cbn [BlockchainMetrics.all_nodes_metrics dict_get] in H.
    destruct (String.eqb "a" node_id); [inversion H; now eexists |].
    destruct (String.eqb "b" node_id); [inversion H; now eexists |].
    destruct (String.eqb "c" node_id); [inversion H; now eexists | discriminate]. }
  split; [| split; [apply Hseen |];
            split; [vm_compute; reflexivity |];
            split; [vm_compute; reflexivity |];
            split; [vm_compute; reflexivity |];
            split; [vm_compute; reflexivity |];
            split; [apply Hseen |];
            split; vm_compute; reflexivity].
  intros self reference_block_index now Hview.
  exists (sorted String.leb (active_delegates self now)).
  rewrite get_current_validator_eq, (live_delegates_active self now Hview).
  split; [symmetry; apply sorted_perm |].
  split; [apply sorted_StronglySorted; [apply String.leb_total | apply string_leb_trans] |].
  split.
  - intros [H | H].
    + rewrite <- (live_delegates_active self now Hview).
      now rewrite (live_delegates_nil self now H).
    + now rewrite H.
  - intros Hne.
    destruct (slot_in_range (sorted String.leb (active_delegates self now))
                            (reference_block_index + 1) Hne) as [v Hv].
    exists v. split; [| exact Hv].
    destruct (sorted String.leb (active_delegates self now)); [congruence | exact Hv].
Qed.

(** A delegate that has not been seen for the liveness threshold is left
    out of the rotation. *)
Example rotation_without_silent_delegate :
  live_delegates (three_validators (Some b_silent_metrics)) 100 = ["a"; "c"]
  /\ map (fun i => DPoS.get_current_validator (three_validators (Some b_silent_metrics)) i 100)
         [-1; 0; 1]
     = [Some "a"; Some "c"; Some "a"].
Proof.
  split; vm_compute; reflexivity.
Qed.

(** ** [DPoS.validate_block] *)

Lemma Qle_bool_false (x y : Q) : Qle_bool x y = false <-> (y < x)%Q.
Proof.
  rewrite <- Qltb_true. unfold Qltb. now rewrite negb_true_iff.
Qed.

Lemma existsb_eqb_In (x : string) (l : list string) :
  existsb (String.eqb x) l = true <-> In x l.
Proof.
  rewrite existsb_exists. split.
  - intros (y & Hy & E). apply String.eqb_eq in E. now subst.
  - intros H. exists x. split; [exact H | apply String.eqb_refl].
Qed.

Lemma leaf_count_init (float_repr : Q -> string) (transactions : list dict) :
  MerkleTree.get_leaf_count (MerkleTree.init float_repr transactions)
  = List.length transactions.
Proof.
  unfold MerkleTree.get_leaf_count, MerkleTree.init, MerkleTree._build_tree.
  destruct transactions as [|tx txs]; [reflexivity |].
  cbn [MerkleTree.leaf_nodes]. apply length_map.
Qed.

(** What [_validate_merkle_tree] tests, on the tree that the block holds. *)
Lemma _validate_merkle_tree_true (block : Block.t) :
  DPoS._validate_merkle_tree block = true <->
  exists r tree,
    Block.merkle_root block = Some r /\ r <> ""
    /\ Block.merkle_tree block = Some tree
    /\ MerkleTree.get_root_hash tree = r
    /\ List.length (MerkleTree.get_transaction_hashes tree)
       = List.length (Block.transactions block).
Proof.
  unfold DPoS._validate_merkle_tree, Block.get_transaction_hashes.
  destruct (Block.merkle_root block) as [r|].
  2: { split; [discriminate | intros (r & tree & H & _); discriminate]. }
  destruct (Block.merkle_tree block) as [tree|].
  2: { split.
       - destruct r; discriminate.
       - intros (r' & tree & _ & _ & H & _). discriminate. }
  assert (Hmain :
            (if negb (r =? MerkleTree.get_root_hash tree)%string then false
             else if negb (List.length (MerkleTree.get_transaction_hashes tree)
                           =? List.length (Block.transactions block))%nat
                  then false else true) = true
            <-> MerkleTree.get_root_hash tree = r
                /\ List.length (MerkleTree.get_transaction_hashes tree)
                   = List.length (Block.transactions block)).
  { destruct (String.eqb_spec r (MerkleTree.get_root_hash tree)) as [E|E]; cbn [negb].
    - destruct (Nat.eqb_spec (List.length (MerkleTree.get_transaction_hashes tree))
                             (List.length (Block.transactions block))) as [L|L];
        cbn [negb].
      + split; auto.
      + split; [discriminate | intros [_ H]; contradiction].
    - split; [discriminate | intros [H _]; congruence]. }
  destruct r as [|ch r].
  - split; [discriminate |].
    intros (r' & tree' & H & Hne & _). inversion H. congruence.
  - rewrite Hmain. split.
    + intros [H1 H2]. exists (String ch r), tree. repeat split; auto. discriminate.
    + intros (r' & tree' & Hr & _ & Ht & H1 & H2).
      inversion Hr. inversion Ht. subst. auto.
Qed.

Lemma _validate_merkle_tree_constructed (float_repr : Q -> string) (block : Block.t) :
  constructed float_repr block ->
  (DPoS._validate_merkle_tree block = true <-> merkle_integrity float_repr block).
Proof.
  unfold constructed, merkle_integrity. intros Hc.
  rewrite _validate_merkle_tree_true. split.
  - intros (r & tree & Hr & Hne & Ht & Hroot & Hlen).
    rewrite Hc in Ht. inversion Ht. subst tree.
    split; [exists r; auto |].
    split; [congruence |].
    rewrite <- Hlen. unfold MerkleTree.get_transaction_hashes, MerkleTree.get_leaf_count.
    now rewrite length_map.
  - intros ((r & Hr & Hne) & Hroot & Hlen).
    exists r, (MerkleTree.init float_repr (Block.transactions block)).
    repeat split; auto.
    + congruence.
    + rewrite Hlen. unfold MerkleTree.get_transaction_hashes, MerkleTree.get_leaf_count.
      now rewrite length_map.
Qed.

(** The comparisons of floats without NaN. *)
Lemma flt_negb_fle (x y : pyfloat) :
  is_nan x = false -> is_nan y = false -> flt y x = negb (fle x y).
Proof.
  destruct x as [a|a|], y as [b|b|]; cbn; try discriminate; intros _ _.
  - reflexivity.
  - now destruct b.
  - reflexivity.
  - now destruct a, b.
Qed.

Lemma fle_false_fgt (x y : pyfloat) :
  is_nan x = false -> is_nan y = false -> (fle x y = false <-> fgt x y = true).
Proof.
  intros Hx Hy. unfold fgt. rewrite (flt_negb_fle x y Hx Hy).
  now destruct (fle x y).
Qed.

Lemma fgt_false_fle (x y : pyfloat) :
  is_nan x = false -> is_nan y = false -> (fgt x y = false <-> fle x y = true).
Proof.
  intros Hx Hy. unfold fgt. rewrite (flt_negb_fle x y Hx Hy).
  now destruct (fle x y).
Qed.

Lemma is_nan_distance (now : Q) (x : pyfloat) :
  is_nan (fabs (fsub (Finite now) x)) = is_nan x.
Proof. now destruct x as [a|[|]|]. Qed.

(** The tests of [validate_block], in the order of the code. *)
Lemma validate_block_tests
      (self : DPoS.t) (block : Block.t) (power_usage prev_ts : pyfloat) (prev_index : Z)
      (sync_tolerance : pyfloat) (time_validator now : Q) :
  DPoS.validate_block self block power_usage prev_ts prev_index sync_tolerance
                      time_validator now = true
  <->
  In (Block.validator block) (DPoS.delegates self)
  /\ DPoS.get_current_validator self prev_index time_validator
     = Some (Block.validator block)
  /\ fle (float_of (Block.timestamp block)) (fsub prev_ts sync_tolerance) = false
  /\ prev_index < Block.block_index block
  /\ fgt (fabs (fsub (Finite now) (float_of (Block.timestamp block))))
         (Finite (DPoS.block_time self)) = false
  /\ DPoS._validate_merkle_tree block = true
  /\ fgt power_usage (Finite (DPoS.energy_threshold self)) = false.
Proof.
  unfold DPoS.validate_block.
  rewrite <- existsb_eqb_In, <- Z.leb_gt.
  destruct (existsb (String.eqb (Block.validator block)) (DPoS.delegates self));
    cbn [negb]; [| intuition discriminate].
  destruct (DPoS.get_current_validator self prev_index time_validator) as [v|];
    [| intuition discriminate].
  destruct (String.eqb_spec (Block.validator block) v) as [E|E]; cbn [negb];
    [subst v | split; [discriminate | intros (_ & H & _); congruence]].
  destruct (fle (float_of (Block.timestamp block)) (fsub prev_ts sync_tolerance));
    [intuition discriminate |].
  destruct (Block.block_index block <=? prev_index); [intuition discriminate |].
  destruct (fgt (fabs (fsub (Finite now) (float_of (Block.timestamp block))))
                (Finite (DPoS.block_time self)));
    [intuition discriminate |].
  destruct (DPoS._validate_merkle_tree block); cbn [negb]; [| intuition discriminate].
  destruct (fgt power_usage (Finite (DPoS.energy_threshold self))); intuition discriminate.
Qed.

(** C1, at the place where the code departs from it.  [validate_block]
    rejects a block by the tests [timestamp <= prev_ts - sync_tolerance],
    [abs(now - timestamp) > block_time] and [power_usage > energy_threshold],
    and each of them is false on NaN.  On floats without NaN the function
    returns true exactly when the seven conditions of the specification hold.
    A block whose timestamp is NaN meets neither the condition on the previous
    timestamp nor the one on the freshness, and the function returns true for
    it whenever the other five tests pass: the block of b with the timestamp
    NaN is accepted after a block of index 0. *)
Theorem validate_block_passes_nan :
  (forall (float_repr : Q -> string) (self : DPoS.t) (block : Block.t)
          (power_usage prev_ts : pyfloat) (prev_index : Z) (sync_tolerance : pyfloat)
          (time_validator now : Q),
      constructed float_repr block ->
      is_nan (float_of (Block.timestamp block)) = false ->
      is_nan (fsub prev_ts sync_tolerance) = false ->
      is_nan power_usage = false ->
      (DPoS.validate_block self block power_usage prev_ts prev_index sync_tolerance
                           time_validator now = true
       <-> valid_as_specified float_repr self block power_usage prev_ts prev_index
                              sync_tolerance time_validator now))
  /\ (forall (float_repr : Q -> string) (self : DPoS.t) (block : Block.t)
             (power_usage prev_ts : pyfloat) (prev_index : Z) (sync_tolerance : pyfloat)
             (time_validator now : Q),
         constructed float_repr block ->
         float_of (Block.timestamp block) = NaN ->
         ~ valid_as_specified float_repr self block power_usage prev_ts prev_index
                              sync_tolerance time_validator now
         /\ (DPoS.validate_block self block power_usage prev_ts prev_index sync_tolerance
                                 time_validator now = true
             <-> In (Block.validator block) (DPoS.delegates self)
                 /\ DPoS.get_current_validator self prev_index time_validator
                    = Some (Block.validator block)
                 /\ prev_index < Block.block_index block
                 /\ merkle_integrity float_repr block
                 /\ fgt power_usage (Finite (DPoS.energy_threshold self)) = false))
  /\ Block.timestamp block_without_time = Float NaN
  /\ DPoS.validate_block (three_validators (Some three_metrics)) block_without_time
                         1 98 0 0 100 102 = true
  /\ ~ valid_as_specified repr_integral (three_validators (Some three_metrics))
                          block_without_time 1 98 0 0 100 102.
Proof.
  split; [| split; [| split; [| split]]].
  - intros float_repr self block power_usage prev_ts prev_index sync_tolerance
           time_validator now Hc Hts Hprev Hpow.
    unfold valid_as_specified.
    rewrite validate_block_tests, (_validate_merkle_tree_constructed float_repr block Hc).
    rewrite (fle_false_fgt _ _ Hts Hprev).
    rewrite (fgt_false_fle _ (Finite (DPoS.block_time self))
                           (eq_trans (is_nan_distance now _) Hts) eq_refl).
    rewrite (fgt_false_fle _ (Finite (DPoS.energy_threshold self)) Hpow eq_refl).
    reflexivity.
  - intros float_repr self block power_usage prev_ts prev_index sync_tolerance
           time_validator now Hc Hts.
    split.
    + unfold valid_as_specified. rewrite Hts. intros (_ & _ & H & _).
      unfold fgt in H. destruct (fsub prev_ts sync_tolerance) as [a|a|]; discriminate.
    + rewrite validate_block_tests, (_validate_merkle_tree_constructed float_repr block Hc).
      rewrite Hts. cbn [fle fsub fadd fneg fabs fgt flt]. intuition.
  - reflexivity.
  - vm_compute. reflexivity.
  - unfold valid_as_specified. intros (_ & _ & H & _). vm_compute in H. discriminate.
Qed.

(** ** [DPoS.remove_validator] and [DPoS.update_stake] *)

Lemma update_stake_recomputes
      (self : DPoS.t) (address : string) (new_stake : pyfloat) (now : Q) :
  snd (DPoS.update_stake self address new_stake now) = true ->
  let self' := fst (DPoS.update_stake self address new_stake now) in
  DPoS.validators self' = dict_set (DPoS.validators self) address new_stake
  /\ DPoS.delegates self' = delegates_of_validators self'.
Proof.
  unfold DPoS.update_stake.
  destruct (dict_mem (DPoS.validators self) address); cbn [negb fst snd];
    [intros _ | discriminate].
  split; reflexivity.
Qed.

(** C8, at the place where the code departs from it.  [remove_validator]
    changes the validator mapping and nothing else: the delegates are not
    recomputed.  After the removal of a from the validators a, b, c the
    delegates still hold a, and a is still the validator of the next slot. *)
Theorem remove_validator_keeps_delegates :
  (forall (self : DPoS.t) (address : string),
      DPoS.delegates (fst (DPoS.remove_validator self address)) = DPoS.delegates self)
  /\ (let self' := fst (DPoS.remove_validator (three_validators None) "a") in
      map fst (DPoS.validators self') = ["c"; "b"]
      /\ DPoS.delegates self' = ["a"; "b"; "c"]
      /\ delegates_of_validators self' = ["b"; "c"]
      /\ DPoS.get_current_validator self' (-1) 100 = Some "a").
Proof.
  split.
  - intros self address. unfold DPoS.remove_validator.
    now destruct (dict_mem (DPoS.validators self) address).
  - cbv zeta.
    split; [vm_compute; reflexivity |].
    split; [vm_compute; reflexivity |].
    split; vm_compute; reflexivity.
Qed.

(** ** The proposer duty without a current validator *)

(** C6, at the place where the code departs from it.  When
    [get_current_validator] returns [None], the pass of the proposer leaves
    the chain and the pending pool as they were and sends nothing, but it
    does not end: [current_validator.strip()] raises [AttributeError], and
    nothing in the loop catches it. *)
Theorem proposer_raises_without_validator
        (float_repr : Q -> string) (self : BlockchainNode.t) (env : BlockchainNode.readings) :
  DPoS.get_current_validator (BlockchainNode.dpos self) (reference_block_index self)
                             (BlockchainNode.time_validator env) = None ->
  BlockchainNode._process_transactions_periodically float_repr self env
  = (self, [], Raise AttributeError).
Proof.
  unfold BlockchainNode._process_transactions_periodically, reference_block_index.
  intros H. now rewrite H.
Qed.

(** A node without delegates. *)
Lemma proposer_raises_without_validator_witness :
  BlockchainNode._process_transactions_periodically repr_integral idle_node quiet_readings
  = (idle_node, [], Raise AttributeError).
Proof.
  apply (proposer_raises_without_validator repr_integral idle_node quiet_readings).
  reflexivity.
Defined.

(** ** [MerkleTree.get_proof] outside the range of the transactions *)

Lemma get_proof_beyond_end (self : MerkleTree.t) (transaction_index : Z) :
  Z.of_nat (List.length (MerkleTree.leaf_nodes self)) <= transaction_index ->
  MerkleTree.get_proof self transaction_index = Ok [].
Proof.
  intros H. unfold MerkleTree.get_proof.
  apply Z.leb_le in H. rewrite H. now rewrite orb_true_r.
Qed.

Lemma getitem_negative {A : Type} (l : list A) (i : Z) :
  - Z.of_nat (List.length l) <= i < 0 ->
  getitem l i = getitem l (i + Z.of_nat (List.length l)).
Proof.
  intros H.
  assert (E1 : (i <? 0) = true) by (apply Z.ltb_lt; lia).
  assert (E2 : (i + Z.of_nat (List.length l) <? 0) = false) by (apply Z.ltb_ge; lia).
  unfold getitem. cbv zeta. rewrite E1, !E2. reflexivity.
Qed.

Lemma getitem_below {A : Type} (l : list A) (i : Z) :
  i < - Z.of_nat (List.length l) -> getitem l i = Raise IndexError.
Proof.
  intros H.
  assert (E1 : (i <? 0) = true) by (apply Z.ltb_lt; lia).
  assert (E2 : (i + Z.of_nat (List.length l) <? 0) = true) by (apply Z.ltb_lt; lia).
  unfold getitem. cbv zeta. rewrite E1, E2. reflexivity.
Qed.

(** C9, at the place where the code departs from it.  The guard of
    [get_proof] tests [transaction_index >= len(leaf_nodes)] only.  An
    index at or beyond the end gives the empty proof; a negative index
    [i >= -len] is read from the end of the leaves and gives the proof of
    the transaction [len + i]; an index below [-len] raises [IndexError].
    On three transactions the index -1 gives the proof of the last one,
    which is not empty. *)
Theorem get_proof_negative_index (float_repr : Q -> string) :
  (forall (self : MerkleTree.t) (i : Z),
      let len := Z.of_nat (List.length (MerkleTree.leaf_nodes self)) in
      (len <= i -> MerkleTree.get_proof self i = Ok [])
      /\ (- len <= i < 0 -> MerkleTree.get_proof self i = MerkleTree.get_proof self (i + len))
      /\ (i < - len -> 0 < len -> MerkleTree.get_proof self i = Raise IndexError))
  /\ (let tree := MerkleTree.init float_repr three_transactions in
      MerkleTree.get_proof tree (-1) = MerkleTree.get_proof tree 2
      /\ MerkleTree.get_proof tree (-1)
         = Ok [MerkleTree.mkItem
                 "7762548f35d0953b23c48e605b9e4314eea59d07a07442aa9fac2eb52a213c86"
                 "left"]
      /\ MerkleTree.get_proof tree (-4) = Raise IndexError
      /\ MerkleTree.get_proof tree 3 = Ok []).
Proof.
  split.
  - intros self i len. split; [apply get_proof_beyond_end |]. split.
    + intros H. unfold MerkleTree.get_proof. fold len.
      destruct (MerkleTree.leaf_nodes self) as [|n ns] eqn:E; [reflexivity |].
      cbn [orb].
      destruct (Z.leb_spec len i); [lia |].
      destruct (Z.leb_spec len (i + len)); [lia |].
      subst len. now rewrite getitem_negative.
    + intros H Hlen. unfold MerkleTree.get_proof. fold len.
      destruct (MerkleTree.leaf_nodes self) as [|n ns] eqn:E; [simpl in len; lia |].
      cbn [orb].
      destruct (Z.leb_spec len i); [lia |].
      subst len. now rewrite getitem_below.
  - cbv zeta.
    split; [vm_compute; reflexivity |].
    split; [vm_compute; reflexivity |].
    split; vm_compute; reflexivity.
Qed.

(** ** A proof that does not verify *)

(** C3, at the place where the code departs from it.  On three
    transactions the last leaf has no sibling at the first level.  The tree
    pairs it with itself, but [get_proof] adds a sibling only when
    [sibling_index < len(current_level)]: the proof of index 2 holds the
    single entry of the second level, and [verify_proof] rejects it.  The
    proofs of the indices 0 and 1 verify. *)
Theorem proof_of_last_odd_leaf_fails (float_repr : Q -> string) :
  MerkleTree.get_proof (MerkleTree.init float_repr three_transactions) 2
  = Ok [MerkleTree.mkItem
          "7762548f35d0953b23c48e605b9e4314eea59d07a07442aa9fac2eb52a213c86" "left"]
  /\ proof_verifies float_repr three_transactions 2 = Ok false
  /\ proof_verifies float_repr three_transactions 0 = Ok true
  /\ proof_verifies float_repr three_transactions 1 = Ok true.
Proof.
  split; [vm_compute; reflexivity |].
  split; [vm_compute; reflexivity |].
  split; vm_compute; reflexivity.
Qed.

(** ** [Block.to_dict] and [Block.from_dict] *)

Lemma as_dicts_map (txs : list dict) : as_dicts (map VDict txs) = Ok txs.
Proof.
  induction txs as [|tx txs IH]; [reflexivity |].
  cbn [map as_dicts as_dict bind]. rewrite IH. reflexivity.
Qed.

Lemma as_number_value (n : number) : as_number (number_value n) = Ok n.
Proof. now destruct n. Qed.

Lemma stored_merkle_root_to_dict (b : Block.t) :
  Block.stored_merkle_root (Block.to_dict b) = Block.merkle_root b.
Proof.
  unfold Block.stored_merkle_root.
  assert (E : dict_get (Block.to_dict b) "merkle_root"
              = Some (optional_str (Block.merkle_root b))) by reflexivity.
  rewrite E. now destruct (Block.merkle_root b).
Qed.

(** The constructor does not read its argument [merkle_root]. *)
Lemma init_ignores_merkle_root
      (float_repr : Q -> string) (block_index : Z) (timestamp : number)
      (transactions : list dict) (previous_hash validator : string)
      (energy_metrics : dict) (r1 r2 : option string) :
  Block.init float_repr block_index timestamp transactions previous_hash validator
             energy_metrics r1
  = Block.init float_repr block_index timestamp transactions previous_hash validator
               energy_metrics r2.
Proof. reflexivity. Qed.

(** Deserialization calls the constructor on the fields of the dictionary. *)
Lemma from_dict_to_dict_fields (float_repr : Q -> string) (b : Block.t) :
  Block.from_dict float_repr (Block.to_dict b)
  = Ok (Block.init float_repr (Block.block_index b) (Block.timestamp b)
                   (Block.transactions b) (Block.previous_hash b) (Block.validator b)
                   (Block.energy_metrics b) (Block.merkle_root b)).
Proof.
  unfold Block.from_dict.
  rewrite stored_merkle_root_to_dict.
  replace (dict_getitem (Block.to_dict b) "block_index")
    with (Ok (VInt (Block.block_index b))) by reflexivity.
  replace (dict_getitem (Block.to_dict b) "timestamp")
    with (Ok (number_value (Block.timestamp b))) by reflexivity.
  replace (dict_getitem (Block.to_dict b) "transactions")
    with (Ok (VList (map VDict (Block.transactions b)))) by reflexivity.
  replace (dict_getitem (Block.to_dict b) "previous_hash")
    with (Ok (VStr (Block.previous_hash b))) by reflexivity.
  replace (dict_getitem (Block.to_dict b) "validator")
    with (Ok (VStr (Block.validator b))) by reflexivity.
  replace (dict_getitem (Block.to_dict b) "energy_metrics")
    with (Ok (VDict (Block.energy_metrics b))) by reflexivity.
  cbn [bind as_int as_str as_dict as_dict_list].
  rewrite as_number_value, as_dicts_map.
  reflexivity.
Qed.

(** C7, at the place where the code departs from it.  For every block [B]
    that the constructor builds, [from_dict(to_dict(B))] is read without an
    error and reproduces every field of [B], its Merkle root and its hash,
    and the two trees hold the same nodes.  It is still not [==] to [B]: the
    [__eq__] of the dataclass compares the field [merkle_tree], the class of
    the trees has no [__eq__], and the tree of the block that [from_dict]
    makes is another object than the tree of [B].  So the comparison answers
    [False] in both directions, for every block, at whatever addresses the
    two blocks are made and whatever the comparison of the other fields
    answers; a block is [==] to itself as far as its other fields are. *)
Theorem round_trip_is_not_equal
        (float_repr : Q -> string) (values_equal : Block.t -> Block.t -> bool)
        (next_address later : nat) (block_index : Z) (timestamp : number)
        (transactions : list dict) (previous_hash validator : string)
        (energy_metrics : dict) (merkle_root : option string) :
  let created := Block.new float_repr next_address block_index timestamp transactions
                           previous_hash validator energy_metrics merkle_root in
  let B := fst created in
  exists B',
    Block.from_dict_new float_repr (snd created + later) (Block.to_dict (Block.fields B))
    = Ok (B', S (snd created + later))
    /\ Block.fields B' = Block.fields B
    /\ Block.hash (Block.fields B') = Block.hash (Block.fields B)
    /\ Block.merkle_root (Block.fields B') = Block.merkle_root (Block.fields B)
    /\ Block.tree_address B' <> Block.tree_address B
    /\ Block.__eq__ values_equal B' B = false
    /\ Block.__eq__ values_equal B B' = false
    /\ Block.__eq__ values_equal B B = values_equal (Block.fields B) (Block.fields B).
Proof.
  cbv zeta. unfold Block.new, Block.from_dict_new. cbn [fst snd Block.fields].
  rewrite from_dict_to_dict_fields. cbn [bind].
  eexists. split; [reflexivity |].
  cbn [Block.fields Block.tree_address].
  split; [apply init_ignores_merkle_root |].
  split; [reflexivity |]. split; [reflexivity |].
  split; [lia |].
  unfold Block.__eq__. cbn [Block.fields Block.tree_address].
  split; [| split].
  - replace (S next_address + later =? next_address)%nat with false
      by (symmetry; apply Nat.eqb_neq; lia).
    apply Bool.andb_false_r.
  - replace (next_address =? S next_address + later)%nat with false
      by (symmetry; apply Nat.eqb_neq; lia).
    apply Bool.andb_false_r.
  - rewrite Nat.eqb_refl. apply Bool.andb_true_r.
Qed.

(** ** [Block.from_dict] and the stored Merkle root *)

Lemma dict_get_set_other {A : Type} (d : list (string * A)) (key other : string) (x : A) :
  other <> key -> dict_get (dict_set d key x) other = dict_get d other.
Proof.
  intros Hne. induction d as [|[k v] r IH]; cbn [dict_set dict_get].
  - destruct (String.eqb_spec key other); [congruence | reflexivity].
  - destruct (String.eqb_spec k key) as [E|E]; cbn [dict_get].
    + subst k. destruct (String.eqb_spec key other); [congruence | reflexivity].
    + destruct (String.eqb_spec k other); [reflexivity | exact IH].
Qed.

Lemma dict_getitem_set_other {A : Type} (d : list (string * A)) (key other : string) (x : A) :
  other <> key -> dict_getitem (dict_set d key x) other = dict_getitem d other.
Proof.
  intros Hne. unfold dict_getitem. now rewrite dict_get_set_other.
Qed.

Lemma from_dict_Ok_inv (float_repr : Q -> string) (data : dict) (b : Block.t) :
  Block.from_dict float_repr data = Ok b ->
  exists block_index timestamp transactions previous_hash validator energy_metrics merkle_root,
    b = Block.init float_repr block_index timestamp transactions previous_hash validator
                   energy_metrics merkle_root.
Proof.
  unfold Block.from_dict.
  destruct (dict_getitem data "block_index") as [v1|]; [| discriminate].
  destruct (dict_getitem data "timestamp") as [v2|]; [| discriminate].
  destruct (dict_getitem data "transactions") as [v3|]; [| discriminate].
  destruct (dict_getitem data "previous_hash") as [v4|]; [| discriminate].
  destruct (dict_getitem data "validator") as [v5|]; [| discriminate].
  destruct (dict_getitem data "energy_metrics") as [v6|]; [| discriminate].
  cbn [bind].
  destruct (as_int v1) as [x1|]; [| discriminate].
  destruct (as_number v2) as [x2|]; [| discriminate].
  destruct (as_dict_list v3) as [x3|]; [| discriminate].
  destruct (as_str v4) as [x4|]; [| discriminate].
  destruct (as_str v5) as [x5|]; [| discriminate].
  destruct (as_dict v6) as [x6|]; [| discriminate].
  cbn [bind]. intros H. inversion H.
  now exists x1, x2, x3, x4, x5, x6, (Block.stored_merkle_root data).
Qed.

(** The stored Merkle root reaches the constructor, which overwrites it:
    the result of [from_dict] is the same whatever root is stored. *)
Lemma from_dict_ignores_stored_root
      (float_repr : Q -> string) (data : dict) (stored : value) :
  Block.from_dict float_repr (dict_set data "merkle_root" stored)
  = Block.from_dict float_repr data.
Proof.
  unfold Block.from_dict.
  rewrite !dict_getitem_set_other by discriminate.
  destruct (dict_getitem data "block_index") as [v1|]; [| reflexivity].
  destruct (dict_getitem data "timestamp") as [v2|]; [| reflexivity].
  destruct (dict_getitem data "transactions") as [v3|]; [| reflexivity].
  destruct (dict_getitem data "previous_hash") as [v4|]; [| reflexivity].
  destruct (dict_getitem data "validator") as [v5|]; [| reflexivity].
  destruct (dict_getitem data "energy_metrics") as [v6|]; [| reflexivity].
  cbn [bind].
  destruct (as_int v1) as [x1|]; [| reflexivity].
  destruct (as_number v2) as [x2|]; [| reflexivity].
  destruct (as_dict_list v3) as [x3|]; [| reflexivity].
  destruct (as_str v4) as [x4|]; [| reflexivity].
  destruct (as_str v5) as [x5|]; [| reflexivity].
  destruct (as_dict v6) as [x6|]; [| reflexivity].
  cbn [bind]. apply f_equal, init_ignores_merkle_root.
Qed.

Lemma from_dict_constructed (float_repr : Q -> string) (data : dict) (b : Block.t) :
  Block.from_dict float_repr data = Ok b ->
  constructed float_repr b
  /\ Block.merkle_root b
     = Some (MerkleTree.get_root_hash (MerkleTree.init float_repr (Block.transactions b)))
  /\ Block.hash b = Block.calculate_hash float_repr b.
Proof.
  intros H.
  destruct (from_dict_Ok_inv float_repr data b H) as (x1 & x2 & x3 & x4 & x5 & x6 & r & E).
  subst b. split; [reflexivity |]. split; reflexivity.
Qed.

(** A typed dictionary is read to a block, unless a required key is
    missing. *)
Lemma from_dict_typed (float_repr : Q -> string) (data : dict) :
  Block.typed data = true ->
  (exists block, Block.from_dict float_repr data = Ok block)
  \/ (exists key, In key required_fields /\ dict_get data key = None
                  /\ Block.from_dict float_repr data = Raise (KeyError key)).
Proof.
  unfold Block.typed, Block.typed_field, Block.from_dict, dict_getitem, required_fields.
  destruct (dict_get data "block_index") as [v1|] eqn:E1;
    [| intros _; right; exists "block_index"; cbn; auto].
  destruct (dict_get data "timestamp") as [v2|] eqn:E2;
    [| intros _; right; exists "timestamp"; cbn; auto].
  destruct (dict_get data "transactions") as [v3|] eqn:E3;
    [| intros _; right; exists "transactions"; cbn; auto].
  destruct (dict_get data "previous_hash") as [v4|] eqn:E4;
    [| intros _; right; exists "previous_hash"; cbn; auto 7].
  destruct (dict_get data "validator") as [v5|] eqn:E5;
    [| intros _; right; exists "validator"; cbn; auto 8].
  destruct (dict_get data "energy_metrics") as [v6|] eqn:E6;
    [| intros _; right; exists "energy_metrics"; cbn; auto 9].
  cbn [bind].
  destruct (as_int v1); [| discriminate].
  destruct (as_number v2); [| discriminate].
  destruct (as_dict_list v3); [| discriminate].
  destruct (as_str v4); [| discriminate].
  destruct (as_str v5); [| discriminate].
  destruct (as_dict v6); [| discriminate].
  intros _. left. eexists. reflexivity.
Qed.

(** C5, at the place where the code departs from it.  No dictionary is
    reported as malformed on account of the root that it stores.  The stored
    [merkle_root] reaches the constructor, and [__post_init__] overwrites it
    with the root of the tree that it builds: the result of [from_dict] is
    the same whatever root the dictionary stores, and the tests of the root
    that follow, the one of [_validate_merkle_tree] and
    [validate_merkle_tree_integrity] in [_handle_new_block], compare the
    rebuilt root with itself.  The wire dictionary of the block of b with
    the root ["00"], which is not the root of its transactions, is read
    without an error to the honest block, passes both tests and is appended
    to the chain of the node that receives it. *)
Theorem forged_root_is_accepted :
  (forall (float_repr : Q -> string) (data : dict) (stored : value),
      Block.from_dict float_repr (dict_set data "merkle_root" stored)
      = Block.from_dict float_repr data)
  /\ Block.stored_merkle_root forged_dict = Some "00"
  /\ MerkleTree.get_root_hash
       (MerkleTree.init repr_integral (Block.transactions second_block)) <> "00"
  /\ Block.from_dict repr_integral forged_dict = Ok second_block
  /\ DPoS._validate_merkle_tree second_block = true
  /\ MerkleUtils.validate_merkle_tree_integrity
       repr_integral (Block.merkle_root second_block) (Block.transactions second_block)
     = true
  /\ BlockchainNodeHandlers._handle_new_block repr_integral peer_node forged_dict 1 100 102
     = (BlockchainNodeHandlers.append_block peer_node second_block,
        [BlockchainNode.SaveBlock second_block], Ok tt)
  /\ BlockchainNode.blocks (BlockchainNodeHandlers.append_block peer_node second_block)
     = [first_block; second_block].
Proof.
  split; [intros float_repr data stored; apply from_dict_ignores_stored_root |].
  split; [vm_compute; reflexivity |].
  split; [vm_compute; discriminate |].
  split; [vm_compute; reflexivity |].
  split; [vm_compute; reflexivity |].
  split; [vm_compute; reflexivity |].
  split; vm_compute; reflexivity.
Qed.

(** ** [json.dumps(..., sort_keys=True)] and the hashed forms *)

Lemma insert_by_map {A B : Type} (leA : A -> A -> bool) (leB : B -> B -> bool) (g : A -> B) :
  (forall x y, leB (g x) (g y) = leA x y) ->
  forall x l, insert_by leB (g x) (map g l) = map g (insert_by leA x l).
Proof.
  intros Hg x l. induction l as [|y r IH]; cbn [map insert_by]; [reflexivity |].
  rewrite Hg. destruct (leA x y); cbn [map]; [reflexivity | now rewrite IH].
Qed.

Lemma sorted_map {A B : Type} (leA : A -> A -> bool) (leB : B -> B -> bool) (g : A -> B) :
  (forall x y, leB (g x) (g y) = leA x y) ->
  forall l, sorted leB (map g l) = map g (sorted leA l).
Proof.
  intros Hg l. unfold sorted.
  induction l as [|x r IH]; cbn [map fold_right]; [reflexivity |].
  rewrite IH. now apply insert_by_map.
Qed.

Lemma encode_plain (float_repr : Q -> string) (item_separator key_separator : string) :
  forall v,
    Json.encode float_repr item_separator key_separator v
    = plain float_repr item_separator key_separator (sort_keys v).
Proof.
  induction v as [| b | n | x | s | l IH | d IH] using value_induction;
    try reflexivity.
  - cbn [Json.encode sort_keys plain]. do 3 f_equal.
    rewrite map_map. apply map_ext_in. intros x Hx.
    rewrite Forall_forall in IH. now apply IH.
  - cbn [Json.encode sort_keys plain]. do 3 f_equal.
    replace (map (fun kv : string * value =>
                    let '(k, x) := kv in
                    (k, Json.encode float_repr item_separator key_separator x)) d)
      with (map (fun kv : string * value =>
                   let '(k, x) := kv in
                   (k, plain float_repr item_separator key_separator x))
                (map (fun kv : string * value => let '(k, x) := kv in (k, sort_keys x)) d)).
    + rewrite (sorted_map item_le Json.key_le
                          (fun kv : string * value =>
                             let '(k, x) := kv in
                             (k, plain float_repr item_separator key_separator x))).
      * rewrite map_map. apply map_ext. now intros [k x].
      * now intros [k1 x1] [k2 x2].
    + rewrite map_map. apply map_ext_in. intros [k x] Hx.
      rewrite Forall_forall in IH. f_equal. symmetry. exact (IH (k, x) Hx).
Qed.

Lemma keys_sorted_sort_keys : forall v, keys_sorted (sort_keys v).
Proof.
  induction v as [| b | n | x | s | l IH | d IH] using value_induction;
    try (constructor; fail).
  - cbn [sort_keys]. constructor. now apply Forall_map.
  - cbn [sort_keys]. constructor.
    + rewrite <- (sorted_map item_le String.leb fst) by reflexivity.
      apply sorted_StronglySorted; [apply String.leb_total | apply string_leb_trans].
    + eapply Permutation_Forall; [apply sorted_perm |].
      apply Forall_map. eapply Forall_impl; [| exact IH].
      now intros [k x].
Qed.

(** The text that is hashed for [{"i": 0}] has a space after the colon; the
    leaf hash, and the hash of a block, are not the hashes of the canonical
    form. *)
Lemma leaf_hash_is_not_of_canonical_json :
  Json.dumps repr_integral (VDict (tx_i 0)) = "{" ++ Json.quote ++ "i" ++ Json.quote ++ ": 0}"
  /\ canonical_json repr_integral (VDict (tx_i 0))
     = "{" ++ Json.quote ++ "i" ++ Json.quote ++ ":0}"
  /\ MerkleTree.hash (MerkleTree._create_leaf_node repr_integral (tx_i 0))
     <> Sha256.hexdigest (canonical_json repr_integral (VDict (tx_i 0)))
  /\ Block.calculate_hash repr_integral block_of_b
     <> Sha256.hexdigest (canonical_json repr_integral (VDict (Block.hashed_fields block_of_b))).
Proof.
  split; [vm_compute; reflexivity |].
  split; [vm_compute; reflexivity |].
  split; vm_compute; discriminate.
Qed.

(** C4, as the code has it.  The text that is hashed, for a transaction
    leaf and for a block, is the value with the keys of every object in
    lexicographic order, at every nesting level, its items separated by a
    comma and a space and each key from its value by a colon and a space;
    the hash is the SHA-256 of that text in hexadecimal. *)
Theorem hashed_form_sorted_with_spaces (float_repr : Q -> string) :
  (forall v : value,
      Json.dumps float_repr v = plain float_repr ", " ": " (sort_keys v)
      /\ keys_sorted (sort_keys v))
  /\ (forall tx : dict,
         MerkleTree.hash (MerkleTree._create_leaf_node float_repr tx)
         = Sha256.hexdigest (plain float_repr ", " ": " (sort_keys (VDict tx))))
  /\ (forall b : Block.t,
         Block.calculate_hash float_repr b
         = Sha256.hexdigest
             (plain float_repr ", " ": " (sort_keys (VDict (Block.hashed_fields b))))).
Proof.
  split; [| split].
  - intros v. split; [apply encode_plain | apply keys_sorted_sort_keys].
  - intros tx. unfold MerkleTree._create_leaf_node, MerkleTree._hash_data, Json.dumps.
    cbn [MerkleTree.hash]. now rewrite encode_plain.
  - intros b. unfold Block.calculate_hash, Json.dumps. now rewrite encode_plain.
Qed.

(* ================================================================== *)
(** * Further properties of the code *)

(** ** The shape of the Merkle tree *)

Lemma string_of_list_ascii_length (l : list ascii) :
  String.length (string_of_list_ascii l) = List.length l.
Proof.
  induction l as [|ch l IH]; [reflexivity |]. cbn [string_of_list_ascii String.length].
  now rewrite IH.
Qed.

Lemma flat_map_length_const {A B : Type} (f : A -> list B) (c : nat) (l : list A) :
  (forall x, List.length (f x) = c) -> List.length (flat_map f l) = (c * List.length l)%nat.
Proof.
  intros H. induction l as [|x l IH]; cbn [flat_map List.length]; [lia |].
  rewrite length_app, H, IH. lia.
Qed.

Lemma hexdigest_length (s : string) : String.length (Sha256.hexdigest s) = 64%nat.
Proof.
  unfold Sha256.hexdigest, Sha256.hex, Sha256.digest. cbv zeta.
  rewrite string_of_list_ascii_length.
  rewrite (flat_map_length_const _ 2) by reflexivity.
  rewrite (flat_map_length_const _ 4).
  - reflexivity.
  - intros x. unfold Sha256.be_bytes. now rewrite length_map, length_rev, length_seq.
Qed.

Lemma hexdigest_not_empty (s : string) : Sha256.hexdigest s <> "".
Proof.
  intros E. pose proof (hexdigest_length s) as H. rewrite E in H. discriminate.
Qed.

Lemma build_levels_rounds (fuel : nat) :
  forall level d,
    level <> [] -> (List.length level <= fuel)%nat ->
    Forall (fun x => BlockchainNode.height_from x = d) level ->
    exists r,
      MerkleTree.build_levels fuel level = [r]
      /\ BlockchainNode.height_from r = (d + rounds fuel (List.length level))%nat.
Proof.
  induction fuel as [|fuel IH]; intros level d Hne Hlen Hall.
  - destruct level; [congruence | simpl in Hlen; lia].
  - cbn [MerkleTree.build_levels rounds].
    destruct (Nat.ltb_spec 1 (List.length level)) as [H|H].
    + destruct (half_below _ _ H Hlen) as [Hle Hpos].
      destruct (IH (MerkleTree.next_level_of level) (S d)) as (r & Hr & Hh).
      * intros E. apply (f_equal (@List.length _)) in E.
        rewrite next_level_of_length in E. cbn [List.length] in E.
        rewrite E in Hpos. inversion Hpos.
      * now rewrite next_level_of_length.
      * clear -Hall. induction level as [| x | x y l IHl] using pairs_ind.
        -- constructor.
        -- inversion Hall; subst. constructor; [reflexivity | constructor].
        -- inversion Hall as [|? ? Hx Hrest]; subst.
           inversion Hrest as [|? ? Hy Hl]; subst.
           cbn [MerkleTree.next_level_of]. constructor; [reflexivity | now apply IHl].
      * exists r. split; [exact Hr |]. rewrite Hh, next_level_of_length. lia.
    + destruct level as [|x [|y l]]; [congruence | | simpl in H; lia].
      inversion Hall; subst. exists x. split; [reflexivity | lia].
Qed.

Lemma rounds_bounds (fuel : nat) :
  forall n, (1 <= n)%nat -> (n <= fuel)%nat ->
            (rounds fuel n = 0%nat /\ n = 1%nat)
            \/ exists k, rounds fuel n = S k /\ (2 ^ k < n)%nat /\ (n <= 2 * 2 ^ k)%nat.
Proof.
  induction fuel as [|fuel IH]; intros n H1 Hf; [lia |].
  cbn [rounds]. destruct (Nat.ltb_spec 1 n) as [H|H]; [| left; split; [reflexivity | lia]].
  right. destruct (half_below _ _ H Hf) as [Hle Hpos].
  assert (Hm : (n <= 2 * Nat.div2 (S n))%nat /\ (2 * Nat.div2 (S n) <= S n)%nat).
  { rewrite Nat.div2_div.
    assert (S n mod 2 < 2)%nat by (apply Nat.mod_upper_bound; discriminate).
    pose proof (Nat.div_mod_eq (S n) 2) as E.
    generalize dependent (S n / 2)%nat. generalize dependent (S n mod 2)%nat.
    intros. lia. }
  destruct (IH (Nat.div2 (S n)) Hpos Hle) as [[Ht Hone] | (k & Ht & Hlo & Hhi)].
  - exists 0%nat. rewrite Ht. cbn [Nat.pow]. repeat split; lia.
  - exists (S k). rewrite Ht. rewrite Nat.pow_succ_r'.
    generalize dependent (2 ^ k)%nat. intros. repeat split; lia.
Qed.

Lemma leaves_have_height_zero (float_repr : Q -> string) (transactions : list dict) :
  Forall (fun x => BlockchainNode.height_from x = 0%nat)
         (map (MerkleTree._create_leaf_node float_repr) transactions).
Proof.
  apply Forall_map. apply Forall_forall. intros tx _. reflexivity.
Qed.

Lemma tree_height_rounds (float_repr : Q -> string) (transactions : list dict) :
  BlockchainNode.get_tree_height (MerkleTree.init float_repr transactions)
  = rounds (List.length transactions) (List.length transactions).
Proof.
  destruct transactions as [|tx txs]; [reflexivity |].
  unfold BlockchainNode.get_tree_height, MerkleTree.init, MerkleTree._build_tree.
  cbn [MerkleTree.root].
  destruct (build_levels_rounds
              (List.length (map (MerkleTree._create_leaf_node float_repr) (tx :: txs)))
              (map (MerkleTree._create_leaf_node float_repr) (tx :: txs)) 0%nat)
    as (r & Hr & Hh).
  - discriminate.
  - apply Nat.le_refl.
  - apply leaves_have_height_zero.
  - rewrite Hr. cbn [nth_error]. rewrite Hh. now rewrite length_map.
Qed.

(** X2.  The height of the tree over [n] transactions is the least [h]
    with [n <= 2^h]: 0 for at most one transaction, and otherwise
    [2^(h-1) < n <= 2^h]. *)
Theorem tree_height_is_log2 (float_repr : Q -> string) (transactions : list dict) :
  let n := List.length transactions in
  let h := BlockchainNode.get_tree_height (MerkleTree.init float_repr transactions) in
  ((n <= 1)%nat -> h = 0%nat)
  /\ ((1 < n)%nat -> (2 ^ (h - 1) < n)%nat /\ (n <= 2 ^ h)%nat).
Proof.
  cbv zeta. rewrite tree_height_rounds.
  set (n := List.length transactions). split.
  - intros H. destruct n as [|[|n]]; [reflexivity | reflexivity | lia].
  - intros H.
    destruct (rounds_bounds n n) as [[_ Hone] | (k & Ht & Hlo & Hhi)]; try lia.
    rewrite Ht. cbn [Nat.sub]. rewrite Nat.sub_0_r, Nat.pow_succ_r'. split; lia.
Qed.

Lemma proof_levels_length (fuel : nat) :
  forall current_node level acc,
    (List.length (MerkleTree.proof_levels fuel current_node level acc)
     <= List.length acc + rounds fuel (List.length level))%nat.
Proof.
  induction fuel as [|fuel IH]; intros current_node level acc.
  - cbn [MerkleTree.proof_levels rounds]. lia.
  - cbn [MerkleTree.proof_levels rounds].
    destruct (1 <? List.length level)%nat; [| lia].
    destruct (MerkleTree.index_of_hash _ level 0) as [node_index|]; [| lia].
    pose proof (parents_next_level level 0 node_index current_node) as E.
    destruct (MerkleTree.parents level 0 node_index current_node) as [next node].
    cbn [fst] in E. subst next.
    destruct (nth_error level _) as [sibling|].
    + specialize (IH node (MerkleTree.next_level_of level)
                     (acc ++ [MerkleTree.mkItem (MerkleTree.hash sibling)
                                                (if Nat.even node_index then "right" else "left")])%list).
      rewrite length_app, next_level_of_length in IH. cbn [List.length] in IH. lia.
    + specialize (IH node (MerkleTree.next_level_of level) acc).
      rewrite next_level_of_length in IH. lia.
Qed.

(** X3.  On the tree over any transactions, [get_proof] raises only for an
    index below [-len]; otherwise it returns a proof with at most as many
    entries as the tree is high. *)
Theorem get_proof_length_bound
        (float_repr : Q -> string) (transactions : list dict) (i : Z) :
  let tree := MerkleTree.init float_repr transactions in
  match MerkleTree.get_proof tree i with
  | Ok proof => (List.length proof <= BlockchainNode.get_tree_height tree)%nat
  | Raise e => e = IndexError /\ i < - Z.of_nat (List.length transactions)
  end.
Proof.
  cbv zeta. rewrite tree_height_rounds.
  destruct transactions as [|tx txs]; [cbn; lia |].
  unfold MerkleTree.get_proof.
  assert (Hleaves : MerkleTree.leaf_nodes (MerkleTree.init float_repr (tx :: txs))
                    = map (MerkleTree._create_leaf_node float_repr) (tx :: txs))
    by reflexivity.
  rewrite Hleaves.
  set (leaves := map (MerkleTree._create_leaf_node float_repr) (tx :: txs)).
  assert (Hlen : List.length leaves = List.length (tx :: txs)) by apply length_map.
  assert (Hcons : match leaves with [] => true | _ :: _ => false end = false) by reflexivity.
  rewrite Hcons. cbn [orb].
  destruct (Z.leb_spec (Z.of_nat (List.length leaves)) i) as [H|H]; [cbn; lia |].
  unfold getitem. cbv zeta.
  destruct (Z.ltb_spec i 0) as [Hneg|Hpos].
  - destruct (Z.ltb_spec (i + Z.of_nat (List.length leaves)) 0) as [Hlow|Hin].
    + cbn [orb bind]. split; [reflexivity | lia].
    + destruct (Z.leb_spec (Z.of_nat (List.length leaves))
                           (i + Z.of_nat (List.length leaves))); [lia |].
      cbn [orb].
      destruct (nth_error leaves _) as [node|] eqn:E;
        [| apply nth_error_None in E; lia].
      cbn [bind]. rewrite <- Hlen.
      apply (proof_levels_length (List.length leaves) node leaves []).
  - destruct (Z.ltb_spec i 0); [lia |].
    destruct (Z.leb_spec (Z.of_nat (List.length leaves)) i); [lia |].
    cbn [orb].
    destruct (nth_error leaves _) as [node|] eqn:E;
      [| apply nth_error_None in E; lia].
    cbn [bind]. rewrite <- Hlen.
    apply (proof_levels_length (List.length leaves) node leaves []).
Qed.

(** The proof of the last of four transactions verifies. *)
Lemma proofs_verify_on_full_levels_witness :
  proof_verifies repr_integral four_transactions 3 = Ok true.
Proof.
  apply (proofs_verify_on_full_levels repr_integral 2 four_transactions 3).
  - reflexivity.
  - cbn. lia.
Defined.

(** ** [MerkleTree.find_transaction_index] and the helpers of [merkle_utils] *)

Lemma index_of_hash_spec (h : string) (level : list MerkleTree.MerkleNode) :
  forall i,
    match MerkleTree.index_of_hash h level i with
    | Some n =>
        exists j x,
          n = (i + j)%nat /\ nth_error level j = Some x /\ MerkleTree.hash x = h
          /\ forall j' y, (j' < j)%nat -> nth_error level j' = Some y ->
                          MerkleTree.hash y <> h
    | None => forall y, In y level -> MerkleTree.hash y <> h
    end.
Proof.
  induction level as [|z level IH]; intros i; cbn [MerkleTree.index_of_hash].
  - intros y [].
  - destruct (String.eqb_spec (MerkleTree.hash z) h) as [E|E].
    + exists 0%nat, z. repeat split; auto. intros j' y Hj. lia.
    + specialize (IH (S i)).
      destruct (MerkleTree.index_of_hash h level (S i)) as [n|].
      * destruct IH as (j & x & Hn & Hx & Hh & Hfirst).
        exists (S j), x. repeat split; auto; [lia |].
        intros [|j'] y Hj Hy; cbn [nth_error] in Hy.
        -- inversion Hy. now subst.
        -- apply (Hfirst j' y); [lia | exact Hy].
      * intros y [Hy|Hy]; [now subst | now apply IH].
Qed.

Lemma leaf_nodes_init (float_repr : Q -> string) (transactions : list dict) :
  MerkleTree.leaf_nodes (MerkleTree.init float_repr transactions)
  = map (MerkleTree._create_leaf_node float_repr) transactions.
Proof. now destruct transactions. Qed.

(** X4.  [find_transaction_index] returns the first position whose
    transaction has the canonical hash of the target, and [None] exactly
    when no transaction of the tree has that hash. *)
Theorem find_transaction_index_first
        (float_repr : Q -> string) (transactions : list dict) (target : dict) :
  match MerkleTree.find_transaction_index
          float_repr (MerkleTree.init float_repr transactions) target with
  | Some i =>
      (exists tx, nth_error transactions i = Some tx
                  /\ leaf_hash float_repr tx = leaf_hash float_repr target)
      /\ (forall j tx, (j < i)%nat -> nth_error transactions j = Some tx ->
                       leaf_hash float_repr tx <> leaf_hash float_repr target)
  | None =>
      forall tx, In tx transactions ->
                 leaf_hash float_repr tx <> leaf_hash float_repr target
  end.
Proof.
  unfold MerkleTree.find_transaction_index. rewrite leaf_nodes_init.
  pose proof (index_of_hash_spec
                (MerkleTree._hash_data (Json.dumps float_repr (VDict target)))
                (map (MerkleTree._create_leaf_node float_repr) transactions) 0) as H.
  destruct (MerkleTree.index_of_hash _ _ 0) as [n|].
  - destruct H as (j & x & Hn & Hx & Hh & Hfirst). cbn [Nat.add] in Hn. subst n.
    rewrite nth_error_map in Hx.
    destruct (nth_error transactions j) as [tx|] eqn:Etx; [| discriminate].
    inversion Hx. subst x. split.
    + exists tx. split; [reflexivity | exact Hh].
    + intros j' tx' Hj Htx'.
      apply (Hfirst j' (MerkleTree._create_leaf_node float_repr tx') Hj).
      now rewrite nth_error_map, Htx'.
  - intros tx Htx. apply (H (MerkleTree._create_leaf_node float_repr tx)).
    now apply in_map.
Qed.

Lemma full_tree_path
      (float_repr : Q -> string) (k : nat) (transactions : list dict)
      (node : MerkleTree.MerkleNode) :
  List.length transactions = (2 ^ k)%nat ->
  In (MerkleTree.hash node)
     (map MerkleTree.hash (map (MerkleTree._create_leaf_node float_repr) transactions)) ->
  fold_path (MerkleTree.hash node)
            (MerkleTree.proof_levels
               (List.length transactions) node
               (map (MerkleTree._create_leaf_node float_repr) transactions) [])
  = MerkleTree.get_root_hash (MerkleTree.init float_repr transactions).
Proof.
  intros Hlen Hin.
  assert (Hpos : (0 < 2 ^ k)%nat) by (apply Nat.neq_0_lt_0, Nat.pow_nonzero; discriminate).
  set (leaves := map (MerkleTree._create_leaf_node float_repr) transactions) in *.
  assert (Hll : List.length leaves = List.length transactions) by apply length_map.
  destruct (full_levels_path k (List.length transactions) leaves node)
    as (r & Hr & Hpath); [lia | lia | exact Hin |].
  rewrite Hpath.
  unfold MerkleTree.get_root_hash, MerkleTree.init, MerkleTree._build_tree.
  destruct transactions as [|tx txs]; [simpl in Hlen; lia |].
  cbn [MerkleTree.root]. fold leaves. rewrite Hll, Hr. reflexivity.
Qed.

(** X5.  When the number of transactions is a power of two, the proof that
    [generate_merkle_proof] makes for a transaction of the list is accepted
    by [verify_transaction_in_block] against the root of
    [calculate_merkle_root]. *)
Theorem generated_proof_verifies
        (float_repr : Q -> string) (k : nat) (transactions : list dict) (target : dict) :
  List.length transactions = (2 ^ k)%nat ->
  In target transactions ->
  exists proof,
    MerkleUtils.generate_merkle_proof float_repr transactions target = Ok (Some proof)
    /\ MerkleUtils.verify_transaction_in_block
         float_repr (MerkleUtils.calculate_merkle_root float_repr transactions)
         target proof = true.
Proof.
  intros Hlen Hin.
  assert (Hpos : (0 < 2 ^ k)%nat) by (apply Nat.neq_0_lt_0, Nat.pow_nonzero; discriminate).
  unfold MerkleUtils.generate_merkle_proof, MerkleUtils.verify_transaction_in_block.
  pose proof (find_transaction_index_first float_repr transactions target) as F.
  destruct (MerkleTree.find_transaction_index _ _ target) as [i|];
    [| exfalso; now apply (F target Hin)].
  destruct F as ((tx & Htx & Hh) & _).
  assert (Hi : (i < List.length transactions)%nat) by (apply nth_error_Some; congruence).
  unfold MerkleTree.get_proof. rewrite leaf_nodes_init.
  set (leaves := map (MerkleTree._create_leaf_node float_repr) transactions).
  assert (Hll : List.length leaves = List.length transactions) by apply length_map.
  assert (Hleaf : nth_error leaves i = Some (MerkleTree._create_leaf_node float_repr tx)).
  { unfold leaves. now rewrite nth_error_map, Htx. }
  assert (Hne : match leaves with [] => true | _ => false end = false).
  { unfold leaves. destruct transactions; [simpl in Hlen; lia | reflexivity]. }
  rewrite Hne. cbn [orb].
  assert (E : (Z.of_nat (List.length leaves) <=? Z.of_nat i) = false)
    by (apply Z.leb_gt; lia).
  rewrite E.
  assert (G : getitem leaves (Z.of_nat i)
              = Ok (MerkleTree._create_leaf_node float_repr tx)).
  { unfold getitem. cbv zeta.
    assert (E1 : (Z.of_nat i <? 0) = false) by (apply Z.ltb_ge; lia).
    rewrite E1. cbv iota. rewrite E1, E. cbn [orb]. now rewrite Nat2Z.id, Hleaf. }
  rewrite G. cbn [bind]. eexists. split; [reflexivity |].
  rewrite verify_proof_fold_path.
  assert (Hroot : MerkleUtils.calculate_merkle_root float_repr transactions
                  = MerkleTree.get_root_hash (MerkleTree.init float_repr transactions)).
  { unfold MerkleUtils.calculate_merkle_root.
    destruct transactions; [simpl in Hlen; lia | reflexivity]. }
  rewrite Hroot, <- Hh.
  change (leaf_hash float_repr tx)
    with (MerkleTree.hash (MerkleTree._create_leaf_node float_repr tx)).
  rewrite Hll. unfold leaves.
  rewrite (full_tree_path float_repr k transactions _ Hlen).
  - apply String.eqb_refl.
  - apply in_map. eapply nth_error_In. exact Hleaf.
Qed.

(** The third of four transactions. *)
Lemma generated_proof_verifies_witness :
  exists proof,
    MerkleUtils.generate_merkle_proof repr_integral four_transactions (tx_i 2)
    = Ok (Some proof)
    /\ MerkleUtils.verify_transaction_in_block
         repr_integral (MerkleUtils.calculate_merkle_root repr_integral four_transactions)
         (tx_i 2) proof = true.
Proof.
  apply (generated_proof_verifies repr_integral 2 four_transactions (tx_i 2)).
  - reflexivity.
  - right. right. left. reflexivity.
Defined.

(** ** Roots are digests *)

Lemma next_level_of_digests (float_repr : Q -> string) (level : list MerkleTree.MerkleNode) :
  Forall (fun x => String.length (MerkleTree.hash x) = 64%nat)
         (MerkleTree.next_level_of level).
Proof.
  induction level as [| x | x y l IH] using pairs_ind;
    cbn [MerkleTree.next_level_of]; repeat constructor; try exact IH;
    apply hexdigest_length.
Qed.

Lemma build_levels_digests (float_repr : Q -> string) (fuel : nat) :
  forall level,
    Forall (fun x => String.length (MerkleTree.hash x) = 64%nat) level ->
    Forall (fun x => String.length (MerkleTree.hash x) = 64%nat)
           (MerkleTree.build_levels fuel level).
Proof.
  induction fuel as [|fuel IH]; intros level H; cbn [MerkleTree.build_levels];
    [exact H |].
  destruct (1 <? List.length level)%nat; [| exact H].
  apply IH, (next_level_of_digests float_repr).
Qed.

Lemma root_hash_length (float_repr : Q -> string) (transactions : list dict) :
  String.length (MerkleTree.get_root_hash (MerkleTree.init float_repr transactions))
  = 64%nat.
Proof.
  unfold MerkleTree.get_root_hash, MerkleTree.init, MerkleTree._build_tree.
  destruct transactions as [|tx txs]; [reflexivity |].
  cbn [MerkleTree.root].
  set (leaves := map (MerkleTree._create_leaf_node float_repr) (tx :: txs)).
  assert (H : Forall (fun x => String.length (MerkleTree.hash x) = 64%nat)
                     (MerkleTree.build_levels (List.length leaves) leaves)).
  { apply (build_levels_digests float_repr). unfold leaves.
    apply Forall_map, Forall_forall. intros x _. apply hexdigest_length. }
  destruct (MerkleTree.build_levels (List.length leaves) leaves) as [|r rest];
    cbn [nth_error]; [reflexivity |].
  now inversion H.
Qed.

Lemma _validate_merkle_tree_init
      (float_repr : Q -> string) (block_index : Z) (timestamp : number)
      (transactions : list dict) (previous_hash validator : string)
      (energy_metrics : dict) (merkle_root : option string) :
  DPoS._validate_merkle_tree
    (Block.init float_repr block_index timestamp transactions previous_hash
                validator energy_metrics merkle_root) = true.
Proof.
  apply _validate_merkle_tree_true.
  exists (MerkleTree.get_root_hash (MerkleTree.init float_repr transactions)),
         (MerkleTree.init float_repr transactions).
  split; [reflexivity |]. split.
  { intros E. pose proof (root_hash_length float_repr transactions) as H.
    rewrite E in H. discriminate. }
  split; [reflexivity |]. split; [reflexivity |].
  unfold MerkleTree.get_transaction_hashes. rewrite length_map.
  apply (leaf_count_init float_repr).
Qed.

Lemma validate_merkle_tree_integrity_init
      (float_repr : Q -> string) (block_index : Z) (timestamp : number)
      (transactions : list dict) (previous_hash validator : string)
      (energy_metrics : dict) (merkle_root : option string) :
  MerkleUtils.validate_merkle_tree_integrity
    float_repr
    (Block.merkle_root (Block.init float_repr block_index timestamp transactions
                                   previous_hash validator energy_metrics merkle_root))
    (Block.transactions (Block.init float_repr block_index timestamp transactions
                                    previous_hash validator energy_metrics merkle_root))
  = true.
Proof.
  unfold MerkleUtils.validate_merkle_tree_integrity.
  change (Block.transactions (Block.init float_repr block_index timestamp transactions
                                         previous_hash validator energy_metrics
                                         merkle_root))
    with transactions.
  change (Block.merkle_root (Block.init float_repr block_index timestamp transactions
                                        previous_hash validator energy_metrics
                                        merkle_root))
    with (Some (MerkleTree.get_root_hash (MerkleTree.init float_repr transactions))).
  destruct transactions; [reflexivity | apply String.eqb_refl].
Qed.

(** X6.  The Merkle checks cannot reject a block made by the constructor of
    [Block]: whatever [merkle_root] argument is passed, [_validate_merkle_tree]
    of the consensus and [validate_merkle_tree_integrity] of the utilities
    both accept the block. *)
Theorem merkle_checks_accept_constructed_blocks
        (float_repr : Q -> string) (block_index : Z) (timestamp : number)
        (transactions : list dict) (previous_hash validator : string)
        (energy_metrics : dict) (merkle_root : option string) :
  let block := Block.init float_repr block_index timestamp transactions previous_hash
                          validator energy_metrics merkle_root in
  DPoS._validate_merkle_tree block = true
  /\ MerkleUtils.validate_merkle_tree_integrity
       float_repr (Block.merkle_root block) (Block.transactions block) = true.
Proof.
  cbv zeta. split.
  - apply _validate_merkle_tree_init.
  - apply validate_merkle_tree_integrity_init.
Qed.

(** X7.  A wire dictionary whose fields have the declared types either
    lacks one of the six required keys, and [from_dict] raises [KeyError],
    or is read by [from_dict] to a block that passes both Merkle checks,
    whatever [merkle_root] the dictionary carried. *)
Theorem merkle_checks_accept_deserialized_blocks
        (float_repr : Q -> string) (data : dict) :
  Block.typed data = true ->
  (exists key,
      In key required_fields /\ dict_get data key = None
      /\ Block.from_dict float_repr data = Raise (KeyError key))
  \/ (exists b,
         Block.from_dict float_repr data = Ok b
         /\ DPoS._validate_merkle_tree b = true
         /\ MerkleUtils.validate_merkle_tree_integrity
              float_repr (Block.merkle_root b) (Block.transactions b) = true).
Proof.
  intros Htyped.
  destruct (from_dict_typed float_repr data Htyped) as [[b H]|Hkey]; [right | now left].
  exists b. split; [exact H |].
  destruct (from_dict_constructed float_repr data b H) as (Hc & Hr & _).
  unfold constructed in Hc. split.
  - apply _validate_merkle_tree_true.
    exists (MerkleTree.get_root_hash (MerkleTree.init float_repr (Block.transactions b))),
           (MerkleTree.init float_repr (Block.transactions b)).
    split; [exact Hr |]. split.
    { intros E. pose proof (root_hash_length float_repr (Block.transactions b)) as L.
      rewrite E in L. discriminate. }
    split; [exact Hc |]. split; [reflexivity |].
    unfold MerkleTree.get_transaction_hashes. rewrite length_map.
    apply (leaf_count_init float_repr).
  - unfold MerkleUtils.validate_merkle_tree_integrity. rewrite Hr.
    destruct (Block.transactions b); [reflexivity | apply String.eqb_refl].
Qed.

(** The block of validator b with a forged [merkle_root] on the wire. *)
Lemma merkle_checks_accept_deserialized_blocks_witness :
  Block.typed tampered_dict = true
  /\ Block.from_dict repr_integral tampered_dict = Ok block_of_b
  /\ ((exists key,
          In key required_fields /\ dict_get tampered_dict key = None
          /\ Block.from_dict repr_integral tampered_dict = Raise (KeyError key))
      \/ (exists b,
             Block.from_dict repr_integral tampered_dict = Ok b
             /\ DPoS._validate_merkle_tree b = true
             /\ MerkleUtils.validate_merkle_tree_integrity
                  repr_integral (Block.merkle_root b) (Block.transactions b) = true)).
Proof.
  split; [vm_compute; reflexivity |].
  split; [vm_compute; reflexivity |].
  apply (merkle_checks_accept_deserialized_blocks repr_integral tampered_dict).
  vm_compute. reflexivity.
Defined.

(** ** The order of the keys of a [dict] *)

Lemma StronglySorted_perm_eq {A : Type} (R : A -> A -> Prop) (l1 : list A) :
  forall l2,
    (forall x y, In x l1 -> In y l1 -> R x y -> R y x -> x = y) ->
    StronglySorted R l1 -> StronglySorted R l2 -> Permutation l1 l2 -> l1 = l2.
Proof.
  induction l1 as [|a l1 IH]; intros l2 Hanti H1 H2 Hp.
  - apply Permutation_nil in Hp. now subst.
  - destruct l2 as [|b l2]; [apply Permutation_sym, Permutation_nil in Hp; discriminate |].
    inversion H1 as [|? ? H1' Ha]. inversion H2 as [|? ? H2' Hb]. subst.
    assert (Eab : a = b).
    { assert (Ia : In a (b :: l2)) by (eapply Permutation_in; [exact Hp | now left]).
      assert (Ib : In b (a :: l1))
        by (eapply Permutation_in; [apply Permutation_sym; exact Hp | now left]).
      destruct Ia as [Ia|Ia]; [now symmetry |].
      destruct Ib as [Ib|Ib]; [exact Ib |].
      apply Hanti; [now left | now right | |].
      - rewrite Forall_forall in Ha. now apply Ha.
      - rewrite Forall_forall in Hb. now apply Hb. }
    subst b. f_equal. apply IH; auto.
    + intros x y Hx Hy. apply Hanti; now right.
    + now apply Permutation_cons_inv in Hp.
Qed.

Lemma key_le_total (x y : string * string) :
  Json.key_le x y = true \/ Json.key_le y x = true.
Proof. apply String.leb_total. Qed.

Lemma key_le_trans (x y z : string * string) :
  Json.key_le x y = true -> Json.key_le y z = true -> Json.key_le x z = true.
Proof. apply string_leb_trans. Qed.

Lemma distinct_keys_inj {B : Type} (l : list (string * B)) :
  NoDup (map fst l) ->
  forall x y, In x l -> In y l -> fst x = fst y -> x = y.
Proof.
  induction l as [|z l IH]; intros Hnd x y Hx Hy E; [now destruct Hx |].
  cbn [map] in Hnd. inversion Hnd as [|? ? Hz Hnd']. subst.
  destruct Hx as [Hx|Hx], Hy as [Hy|Hy]; subst.
  - reflexivity.
  - exfalso. apply Hz. rewrite E. now apply in_map.
  - exfalso. apply Hz. rewrite <- E. now apply in_map.
  - now apply IH.
Qed.

(** X8.  The serialization does not depend on the order in which the keys
    of a dictionary were inserted: two dictionaries with the same items
    under distinct keys have the same [json.dumps(..., sort_keys=True)] text,
    hence the same leaf hash. *)
Theorem dumps_ignores_key_order (float_repr : Q -> string) (d1 d2 : dict) :
  NoDup (map fst d1) ->
  Permutation d1 d2 ->
  Json.dumps float_repr (VDict d1) = Json.dumps float_repr (VDict d2)
  /\ leaf_hash float_repr d1 = leaf_hash float_repr d2.
Proof.
  intros Hnd Hp.
  assert (E : Json.dumps float_repr (VDict d1) = Json.dumps float_repr (VDict d2)).
  { unfold Json.dumps. cbn [Json.encode]. cbv zeta.
    set (g := fun kv : string * value =>
                let '(k, x) := kv in (k, Json.encode float_repr ", " ": " x)).
    assert (Hfst : forall d, map fst (map g d) = map fst d).
    { intros d. rewrite map_map. apply map_ext. now intros [k x]. }
    assert (Es : sorted Json.key_le (map g d1) = sorted Json.key_le (map g d2)).
    { apply (StronglySorted_perm_eq (fun x y => Json.key_le x y = true)).
      - intros x y Hx Hy Hxy Hyx.
        assert (Hin : forall z, In z (sorted Json.key_le (map g d1)) -> In z (map g d1)).
        { intros z. apply Permutation_in, Permutation_sym, sorted_perm. }
        apply (distinct_keys_inj (map g d1)); auto.
        + now rewrite Hfst.
        + now apply String.leb_antisym.
      - apply sorted_StronglySorted; [apply key_le_total | apply key_le_trans].
      - apply sorted_StronglySorted; [apply key_le_total | apply key_le_trans].
      - rewrite <- !sorted_perm. now apply Permutation_map. }
    now rewrite Es. }
  split; [exact E |].
  unfold leaf_hash. now rewrite E.
Qed.

(** A transaction written with its two keys in either order. *)
Lemma dumps_ignores_key_order_witness :
  Json.dumps repr_integral (VDict [("to", VStr "b"); ("amount", VInt 5)])
  = Json.dumps repr_integral (VDict [("amount", VInt 5); ("to", VStr "b")])
  /\ leaf_hash repr_integral [("to", VStr "b"); ("amount", VInt 5)]
     = leaf_hash repr_integral [("amount", VInt 5); ("to", VStr "b")].
Proof.
  apply (dumps_ignores_key_order repr_integral).
  - repeat constructor; cbn; intuition discriminate.
  - apply perm_swap.
Defined.

(** ** The roster and the delegates of [DPoS] *)

Lemma dict_set_keys {A : Type} (d : list (string * A)) (key : string) (x : A) :
  map fst (dict_set d key x)
  = if dict_mem d key then map fst d else (map fst d ++ [key])%list.
Proof.
  unfold dict_mem. induction d as [|[k v] r IH]; cbn [dict_set dict_get map fst app];
    [reflexivity |].
  destruct (String.eqb_spec k key) as [E|E]; cbn [map fst]; [reflexivity |].
  rewrite IH. now destruct (dict_get r key).
Qed.

Lemma dict_get_None_keys {A : Type} (d : list (string * A)) (key : string) :
  dict_get d key = None <-> ~ In key (map fst d).
Proof.
  induction d as [|[k v] r IH]; cbn [dict_get map fst In]; [tauto |].
  destruct (String.eqb_spec k key) as [E|E].
  - split; [discriminate | intros H; exfalso; auto].
  - rewrite IH. tauto.
Qed.

Lemma dict_get_In {A : Type} (d : list (string * A)) (key : string) (x : A) :
  dict_get d key = Some x -> In (key, x) d.
Proof.
  induction d as [|[k v] r IH]; cbn [dict_get In]; [discriminate |].
  destruct (String.eqb_spec k key) as [E|E].
  - intros H. inversion H. subst. now left.
  - intros H. right. now apply IH.
Qed.

Lemma In_dict_get {A : Type} (d : list (string * A)) (key : string) (x : A) :
  NoDup (map fst d) -> In (key, x) d -> dict_get d key = Some x.
Proof.
  induction d as [|[k v] r IH]; cbn [dict_get In map fst]; [tauto |].
  intros Hnd [H|H].
  - inversion H. subst. now rewrite String.eqb_refl.
  - inversion Hnd as [|? ? Hk Hr]. subst.
    destruct (String.eqb_spec k key) as [E|E].
    + exfalso. apply Hk. subst. now apply (in_map fst) in H.
    + now apply IH.
Qed.

Lemma dict_del_keys {A : Type} (d : list (string * A)) (key : string) :
  NoDup (map fst d) ->
  NoDup (map fst (dict_del d key))
  /\ (List.length (dict_del d key) <= List.length d)%nat
  /\ ~ In key (map fst (dict_del d key))
  /\ (forall k, In k (map fst (dict_del d key)) -> In k (map fst d)).
Proof.
  induction d as [|[k v] r IH]; cbn [dict_del map fst List.length]; intros Hnd.
  - repeat split; auto.
  - inversion Hnd as [|? ? Hk Hr]. subst.
    destruct (IH Hr) as (I1 & I2 & I3 & I4).
    destruct (String.eqb_spec k key) as [E|E].
    + subst. repeat split; auto. intros k Hin. now right.
    + cbn [map fst List.length]. repeat split.
      * constructor; [| exact I1]. intros Hin. apply Hk. now apply I4.
      * lia.
      * intros [Hin|Hin]; [congruence | now apply I3].
      * intros k' [Hin|Hin]; [now left | right; now apply I4].
Qed.

Lemma dict_set_length {A : Type} (d : list (string * A)) (key : string) (x : A) :
  List.length (dict_set d key x)
  = if dict_mem d key then List.length d else S (List.length d).
Proof.
  rewrite <- (length_map fst (dict_set d key x)), dict_set_keys.
  destruct (dict_mem d key); [apply length_map |].
  rewrite length_app, length_map. cbn. lia.
Qed.

Lemma dict_set_NoDup {A : Type} (d : list (string * A)) (key : string) (x : A) :
  NoDup (map fst d) -> NoDup (map fst (dict_set d key x)).
Proof.
  intros Hnd. rewrite dict_set_keys. unfold dict_mem.
  destruct (dict_get d key) eqn:E; [exact Hnd |].
  apply dict_get_None_keys in E.
  apply NoDup_app; [exact Hnd | repeat constructor; intros [] |].
  intros k Hk [Hin|[]]. subst. contradiction.
Qed.

(** X9.  The roster stays a dictionary within its capacity: when the
    addresses are distinct and no more than [max_validators], they are so
    after [add_validator], [remove_validator] and [update_stake], and
    [add_validator] reports [True] exactly when there was room. *)
Theorem roster_stays_within_capacity
        (self : DPoS.t) (address : string) (stake : pyfloat) (now : Q) :
  roster_within_capacity self ->
  roster_within_capacity (fst (DPoS.add_validator self address stake))
  /\ roster_within_capacity (fst (DPoS.remove_validator self address))
  /\ roster_within_capacity (fst (DPoS.update_stake self address stake now))
  /\ (snd (DPoS.add_validator self address stake) = true
      <-> Z.of_nat (List.length (DPoS.validators self)) < DPoS.max_validators self).
Proof.
  unfold roster_within_capacity. intros [Hnd Hlen]. repeat split.
  - unfold DPoS.add_validator.
    destruct (Z.leb_spec (DPoS.max_validators self)
                         (Z.of_nat (List.length (DPoS.validators self))));
      cbn [fst DPoS.set_validators DPoS.validators]; [exact Hnd |].
    now apply dict_set_NoDup.
  - unfold DPoS.add_validator.
    destruct (Z.leb_spec (DPoS.max_validators self)
                         (Z.of_nat (List.length (DPoS.validators self))));
      cbn [fst DPoS.set_validators DPoS.validators DPoS.max_validators]; [exact Hlen |].
    rewrite dict_set_length. destruct (dict_mem _ _); lia.
  - unfold DPoS.remove_validator.
    destruct (dict_mem (DPoS.validators self) address);
      cbn [fst DPoS.set_validators DPoS.validators]; [| exact Hnd].
    now apply dict_del_keys.
  - unfold DPoS.remove_validator.
    destruct (dict_mem (DPoS.validators self) address);
      cbn [fst DPoS.set_validators DPoS.validators DPoS.max_validators]; [| exact Hlen].
    destruct (dict_del_keys (DPoS.validators self) address Hnd) as (_ & H & _). lia.
  - unfold DPoS.update_stake.
    destruct (dict_mem (DPoS.validators self) address) eqn:E;
      cbn [negb fst]; [| exact Hnd].
    unfold DPoS._update_delegates. cbn.
    now apply dict_set_NoDup.
  - unfold DPoS.update_stake.
    destruct (dict_mem (DPoS.validators self) address) eqn:E;
      cbn [negb fst]; [| exact Hlen].
    unfold DPoS._update_delegates. cbn.
    rewrite dict_set_length, E. exact Hlen.
  - unfold DPoS.add_validator.
    destruct (Z.leb_spec (DPoS.max_validators self)
                         (Z.of_nat (List.length (DPoS.validators self))));
      cbn [snd]; [discriminate | lia].
  - unfold DPoS.add_validator.
    destruct (Z.leb_spec (DPoS.max_validators self)
                         (Z.of_nat (List.length (DPoS.validators self))));
      cbn [snd]; [lia | reflexivity].
Qed.

(** The roster of the three validators a, b, c. *)
Lemma roster_stays_within_capacity_witness :
  roster_within_capacity (fst (DPoS.add_validator (three_validators None) "d" 5))
  /\ roster_within_capacity (fst (DPoS.remove_validator (three_validators None) "d"))
  /\ roster_within_capacity (fst (DPoS.update_stake (three_validators None) "d" 5 100))
  /\ (snd (DPoS.add_validator (three_validators None) "d" 5) = true
      <-> Z.of_nat (List.length (DPoS.validators (three_validators None)))
          < DPoS.max_validators (three_validators None)).
Proof.
  apply (roster_stays_within_capacity (three_validators None) "d" 5 100).
  split.
  - cbn. repeat constructor; cbn; intuition discriminate.
  - cbn. lia.
Defined.

(** ** The order of the delegates *)

Lemma Qle_bool_opp (a b : Q) : Qle_bool (- a) (- b) = Qle_bool b a.
Proof.
  apply Bool.eq_iff_eq_true. rewrite !Qle_bool_iff. split; intros H; lra.
Qed.

Lemma Qeq_bool_opp (a b : Q) : Qeq_bool (- a) (- b) = Qeq_bool a b.
Proof.
  apply Bool.eq_iff_eq_true. rewrite !Qeq_bool_iff. split; intros H; lra.
Qed.

Lemma Qeq_bool_le (a b : Q) : Qeq_bool a b = Qle_bool a b && Qle_bool b a.
Proof.
  apply Bool.eq_iff_eq_true.
  rewrite andb_true_iff, !Qle_bool_iff, Qeq_bool_iff. split.
  - intros H. split; lra.
  - intros [H1 H2]. lra.
Qed.

Lemma fle_fneg (x y : pyfloat) : fle (fneg x) (fneg y) = fle y x.
Proof.
  destruct x as [a|[|]|], y as [b|[|]|]; cbn; try reflexivity.
  apply Qle_bool_opp.
Qed.

Lemma flt_fneg (x y : pyfloat) : flt (fneg x) (fneg y) = flt y x.
Proof.
  destruct x as [a|[|]|], y as [b|[|]|]; cbn; try reflexivity.
  unfold Qltb. now rewrite Qle_bool_opp.
Qed.

Lemma feq_fneg (x y : pyfloat) : feq (fneg x) (fneg y) = feq x y.
Proof.
  destruct x as [a|[|]|], y as [b|[|]|]; cbn; try reflexivity.
  apply Qeq_bool_opp.
Qed.

Lemma feq_fle (x y : pyfloat) : feq x y = fle x y && fle y x.
Proof.
  destruct x as [a|[|]|], y as [b|[|]|]; cbn; try reflexivity.
  apply Qeq_bool_le.
Qed.

Lemma fle_total (x y : pyfloat) :
  is_nan x = false -> is_nan y = false -> fle x y = true \/ fle y x = true.
Proof.
  destruct x as [a|[|]|], y as [b|[|]|]; cbn; try discriminate; intros _ _; auto.
  destruct (Qle_bool a b) eqn:E; [now left | right].
  apply Qle_bool_false in E. apply Qle_bool_iff. lra.
Qed.

Lemma fle_trans (x y z : pyfloat) :
  fle x y = true -> fle y z = true -> fle x z = true.
Proof.
  destruct x as [a|[|]|], y as [b|[|]|], z as [c|[|]|]; cbn; try easy.
  rewrite !Qle_bool_iff. intros H1 H2. lra.
Qed.

Lemma string_ltb_leb (a b : string) : negb (String.ltb b a) = String.leb a b.
Proof.
  unfold String.ltb, String.leb. rewrite (String.compare_antisym b a).
  now destruct (String.compare a b).
Qed.

(** On stakes without NaN, [sorted] puts a validator before another one
    when its stake is the higher one, or the stakes are equal and its
    address is the lower one. *)
Lemma stake_order_spec (x y : string * pyfloat) :
  is_nan (snd x) = false -> is_nan (snd y) = false ->
  (DPoS.stake_order x y = true
   <-> fle (snd y) (snd x) = true
       /\ (fle (snd x) (snd y) = true -> String.leb (fst x) (fst y) = true)).
Proof.
  intros Hx Hy. unfold DPoS.stake_order, DPoS.key_lt.
  rewrite feq_fneg, flt_fneg, feq_fle, (flt_negb_fle (snd y) (snd x) Hy Hx).
  rewrite <- string_ltb_leb.
  destruct (fle (snd y) (snd x)), (fle (snd x) (snd y)), (String.ltb (fst y) (fst x));
    cbn; intuition discriminate.
Qed.

Lemma stake_order_total (x y : string * pyfloat) :
  is_nan (snd x) = false -> is_nan (snd y) = false ->
  DPoS.stake_order x y = true \/ DPoS.stake_order y x = true.
Proof.
  intros Hx Hy.
  rewrite (stake_order_spec x y Hx Hy), (stake_order_spec y x Hy Hx).
  destruct (fle_total (snd x) (snd y) Hx Hy) as [H|H];
    destruct (fle (snd x) (snd y)) eqn:E1, (fle (snd y) (snd x)) eqn:E2;
    try discriminate.
  - destruct (String.leb_total (fst x) (fst y)) as [L|L]; [left | right]; auto.
  - right. split; [reflexivity | discriminate].
  - destruct (String.leb_total (fst x) (fst y)) as [L|L]; [left | right]; auto.
  - left. split; [reflexivity | discriminate].
Qed.

Lemma stake_order_trans (x y z : string * pyfloat) :
  is_nan (snd x) = false -> is_nan (snd y) = false -> is_nan (snd z) = false ->
  DPoS.stake_order x y = true -> DPoS.stake_order y z = true ->
  DPoS.stake_order x z = true.
Proof.
  intros Hx Hy Hz.
  rewrite (stake_order_spec x y Hx Hy), (stake_order_spec y z Hy Hz),
    (stake_order_spec x z Hx Hz).
  intros [H1 L1] [H2 L2]. split.
  - exact (fle_trans _ _ _ H2 H1).
  - intros H. apply (string_leb_trans _ (fst y)).
    + apply L1. exact (fle_trans _ _ _ H H2).
    + apply L2. exact (fle_trans _ _ _ H1 H).
Qed.

Lemma stake_order_antisym_keys (x y : string * pyfloat) :
  is_nan (snd x) = false -> is_nan (snd y) = false ->
  DPoS.stake_order x y = true -> DPoS.stake_order y x = true -> fst x = fst y.
Proof.
  intros Hx Hy.
  rewrite (stake_order_spec x y Hx Hy), (stake_order_spec y x Hy Hx).
  intros [H1 L1] [H2 L2]. apply String.leb_antisym; auto.
Qed.

(** [sorted] on a list whose items an order compares totally. *)
Section SortingOn.

Context {A : Type} (le : A -> A -> bool) (P : A -> Prop).

Hypothesis le_total : forall x y, P x -> P y -> le x y = true \/ le y x = true.

Hypothesis le_trans :
  forall x y z, P x -> P y -> P z -> le x y = true -> le y z = true -> le x z = true.

Lemma insert_by_StronglySorted_on (x : A) (l : list A) :
  P x -> Forall P l ->
  StronglySorted (fun x y => le x y = true) l ->
  StronglySorted (fun x y => le x y = true) (insert_by le x l).
Proof.
  intros Hx. induction l as [|y r IH]; intros Hl Hs; cbn [insert_by].
  - repeat constructor.
  - inversion Hl as [|? ? Hy Hr]. inversion Hs as [|? ? Hs' Hall]. subst.
    destruct (le x y) eqn:E.
    + constructor; [exact Hs |]. constructor; [exact E |].
      rewrite Forall_forall in Hall, Hr. apply Forall_forall. intros z Hz.
      apply (le_trans x y z); auto.
    + constructor; [now apply IH |].
      assert (Hyx : le y x = true).
      { destruct (le_total x y Hx Hy) as [H|H]; [congruence | exact H]. }
      rewrite Forall_forall in Hall. apply Forall_forall. intros z Hz.
      eapply Permutation_in in Hz; [| apply Permutation_sym, insert_by_perm].
      destruct Hz as [Hz|Hz]; [now subst | now apply Hall].
Qed.

Lemma sorted_StronglySorted_on (l : list A) :
  Forall P l -> StronglySorted (fun x y => le x y = true) (sorted le l).
Proof.
  induction l as [|x r IH]; intros Hl; cbn [sorted fold_right]; [constructor |].
  inversion Hl as [|? ? Hx Hr]. subst.
  apply insert_by_StronglySorted_on; [exact Hx | | now apply IH].
  apply Forall_forall. intros z Hz.
  rewrite Forall_forall in Hr. apply Hr.
  eapply Permutation_in; [apply Permutation_sym, (sorted_perm le) | exact Hz].
Qed.

End SortingOn.

Lemma StronglySorted_app_inv {A : Type} (R : A -> A -> Prop) (l1 l2 : list A) :
  StronglySorted R (l1 ++ l2)%list ->
  forall x y, In x l1 -> In y l2 -> R x y.
Proof.
  induction l1 as [|a l1 IH]; cbn [app]; intros Hs x y Hx Hy; [now destruct Hx |].
  inversion Hs as [|? ? Hs' Ha]. subst.
  destruct Hx as [Hx|Hx].
  - subst. rewrite Forall_forall in Ha. apply Ha, in_or_app. now right.
  - now apply IH.
Qed.

Lemma firstn_map {A B : Type} (g : A -> B) (n : nat) (l : list A) :
  firstn n (map g l) = map g (firstn n l).
Proof.
  revert l. induction n as [|n IH]; intros [|x l]; cbn [firstn map]; try reflexivity.
  now rewrite IH.
Qed.

(** X10.  A recomputation of the delegates takes the validators of highest
    stake: on a roster of distinct addresses none of whose stakes is NaN, and
    with a capacity that is not negative, the delegates are distinct
    addresses of the roster, [min(max_validators, len(validators))] of them,
    and no validator that is left out has a higher stake than a delegate. *)
Theorem delegates_are_the_highest_stakes (self : DPoS.t) (now : Q) :
  NoDup (map fst (DPoS.validators self)) ->
  no_nan_stake self ->
  0 <= DPoS.max_validators self ->
  let self' := DPoS._update_delegates self true now in
  NoDup (DPoS.delegates self')
  /\ Z.of_nat (List.length (DPoS.delegates self'))
     = Z.min (DPoS.max_validators self) (Z.of_nat (List.length (DPoS.validators self)))
  /\ (forall d, In d (DPoS.delegates self') -> exists stake, stake_of self d = Some stake)
  /\ (forall d v stake_d stake_v,
         In d (DPoS.delegates self') -> ~ In v (DPoS.delegates self') ->
         stake_of self d = Some stake_d -> stake_of self v = Some stake_v ->
         fle stake_v stake_d = true).
Proof.
  intros Hnd Hnan Hmax. cbv zeta.
  unfold DPoS._update_delegates. cbn [negb andb DPoS.set_delegates DPoS.delegates].
  unfold slice_to.
  assert (E : (DPoS.max_validators self <? 0) = false) by (apply Z.ltb_ge; lia).
  rewrite E. clear E.
  unfold no_nan_stake in Hnan.
  set (V := DPoS.validators self) in *.
  set (S := sorted DPoS.stake_order V).
  set (n := Z.to_nat (DPoS.max_validators self)).
  assert (HP : Permutation V S) by apply sorted_perm.
  assert (HndS : NoDup (map fst S)).
  { eapply Permutation_NoDup; [apply Permutation_map; exact HP | exact Hnd]. }
  assert (Hsplit : S = (firstn n S ++ skipn n S)%list) by (symmetry; apply firstn_skipn).
  assert (Hsorted : StronglySorted (fun x y => DPoS.stake_order x y = true) S).
  { apply (sorted_StronglySorted_on DPoS.stake_order
                                    (fun validator => is_nan (snd validator) = false));
      [apply stake_order_total | apply stake_order_trans | exact Hnan]. }
  rewrite firstn_map.
  assert (HndF : NoDup (map fst (firstn n S))).
  { rewrite Hsplit, map_app in HndS. now apply NoDup_app_remove_r in HndS. }
  split; [exact HndF |]. split.
  { rewrite length_map, length_firstn. unfold S. rewrite sorted_length. unfold n. lia. }
  split.
  { intros d Hd. apply in_map_iff in Hd. destruct Hd as ([d' s] & Ed & Hin).
    cbn [fst] in Ed. subst d'. exists s. unfold stake_of. fold V.
    apply In_dict_get; [exact Hnd |].
    eapply Permutation_in; [apply Permutation_sym; exact HP |].
    rewrite Hsplit. apply in_or_app. now left. }
  intros d v sd sv Hd Hv Ed Ev.
  unfold stake_of in Ed, Ev. fold V in Ed, Ev.
  apply dict_get_In in Ed. apply dict_get_In in Ev.
  assert (Hd' : In (d, sd) (firstn n S)).
  { apply in_map_iff in Hd. destruct Hd as ([d' s] & Ed' & Hin). cbn [fst] in Ed'. subst d'.
    assert (Es : (d, s) = (d, sd)).
    { apply (distinct_keys_inj V Hnd); [| exact Ed | reflexivity].
      eapply Permutation_in; [apply Permutation_sym; exact HP |].
      rewrite Hsplit. apply in_or_app. now left. }
    now rewrite <- Es. }
  assert (Hv' : In (v, sv) (skipn n S)).
  { assert (Hin : In (v, sv) S) by (eapply Permutation_in; [exact HP | exact Ev]).
    rewrite Hsplit in Hin. apply in_app_or in Hin. destruct Hin as [Hin|Hin]; [| exact Hin].
    exfalso. apply Hv. now apply (in_map fst) in Hin. }
  rewrite Hsplit in Hsorted.
  pose proof (StronglySorted_app_inv _ _ _ Hsorted _ _ Hd' Hv') as Hord.
  rewrite Forall_forall in Hnan.
  apply stake_order_spec in Hord; [| exact (Hnan _ Ed) | exact (Hnan _ Ev)].
  apply Hord.
Qed.

(** Three validators for two seats. *)
Lemma delegates_are_the_highest_stakes_witness :
  NoDup (DPoS.delegates (DPoS._update_delegates two_seats true 100))
  /\ Z.of_nat (List.length (DPoS.delegates (DPoS._update_delegates two_seats true 100)))
     = Z.min (DPoS.max_validators two_seats)
             (Z.of_nat (List.length (DPoS.validators two_seats)))
  /\ (forall d, In d (DPoS.delegates (DPoS._update_delegates two_seats true 100)) ->
                exists stake, stake_of two_seats d = Some stake)
  /\ (forall d v stake_d stake_v,
         In d (DPoS.delegates (DPoS._update_delegates two_seats true 100)) ->
         ~ In v (DPoS.delegates (DPoS._update_delegates two_seats true 100)) ->
         stake_of two_seats d = Some stake_d -> stake_of two_seats v = Some stake_v ->
         fle stake_v stake_d = true).
Proof.
  apply (delegates_are_the_highest_stakes two_seats 100).
  - cbn. repeat constructor; cbn; intuition discriminate.
  - repeat constructor.
  - cbn. lia.
Defined.

(** ** The rotation of the validators *)

(** X11.  The rotation is fair: with the view of the live delegates fixed,
    the elected validator repeats with the period of their number, and
    every live delegate is elected at one of any such number of consecutive
    heights. *)
Theorem rotation_is_fair (self : DPoS.t) (now : Q) (reference_block_index : Z) :
  let n := Z.of_nat (List.length (live_delegates self now)) in
  DPoS.get_current_validator self (reference_block_index + n) now
  = DPoS.get_current_validator self reference_block_index now
  /\ (forall d, In d (live_delegates self now) ->
                exists j, 0 <= j < n
                          /\ DPoS.get_current_validator self (reference_block_index + j) now
                             = Some d).
Proof.
  cbv zeta.
  rewrite <- (sorted_length String.leb (live_delegates self now)).
  split.
  - rewrite !get_current_validator_eq.
    destruct (sorted String.leb (live_delegates self now)) as [|a L] eqn:E; [reflexivity |].
    cbv zeta. do 2 f_equal.
    replace (reference_block_index + Z.of_nat (List.length (a :: L)) + 1)
      with (reference_block_index + 1 + 1 * Z.of_nat (List.length (a :: L))) by lia.
    apply Z_mod_plus_full.
  - intros d Hd.
    assert (Hd' : In d (sorted String.leb (live_delegates self now))).
    { eapply Permutation_in; [apply sorted_perm | exact Hd]. }
    destruct (In_nth_error _ _ Hd') as [k Hk].
    assert (Hlt : (k < List.length (sorted String.leb (live_delegates self now)))%nat).
    { apply nth_error_Some. congruence. }
    set (n := Z.of_nat (List.length (sorted String.leb (live_delegates self now)))) in *.
    assert (Hn : 0 < n) by lia.
    exists ((Z.of_nat k - (reference_block_index + 1)) mod n). split.
    + apply Z.mod_pos_bound. exact Hn.
    + rewrite get_current_validator_eq. fold n.
      destruct (sorted String.leb (live_delegates self now)) as [|a L] eqn:E;
        [cbn in Hlt; lia |].
      cbv zeta. rewrite <- Hk. f_equal.
      replace (reference_block_index
               + (Z.of_nat k - (reference_block_index + 1)) mod n + 1)
        with (reference_block_index + 1
              + (Z.of_nat k - (reference_block_index + 1)) mod n) by lia.
      rewrite Z.add_mod_idemp_r by lia.
      replace (reference_block_index + 1 + (Z.of_nat k - (reference_block_index + 1)))
        with (Z.of_nat k) by lia.
      rewrite Z.mod_small by lia. apply Nat2Z.id.
Qed.

(** ** The checkpoints *)

Lemma fold_left_max_ge (l : list Z) :
  forall k, k <= fold_left Z.max l k /\ Forall (fun x => x <= fold_left Z.max l k) l.
Proof.
  induction l as [|x l IH]; intros k; cbn [fold_left]; [split; [lia | constructor] |].
  destruct (IH (Z.max k x)) as [H1 H2]. split; [lia |].
  constructor; [lia | exact H2].
Qed.

Lemma fold_left_max_In (l : list Z) :
  forall k, fold_left Z.max l k = k \/ In (fold_left Z.max l k) l.
Proof.
  induction l as [|x l IH]; intros k; cbn [fold_left In]; [now left |].
  destruct (IH (Z.max k x)) as [H|H]; [| now right; right].
  rewrite H. destruct (Z.max_spec k x) as [[_ E]|[_ E]]; rewrite E; auto.
Qed.

Lemma int_dict_get_In {A : Type} (d : list (Z * A)) (key : Z) :
  In key (map fst d) -> exists x, DPoS.int_dict_get d key = Some x /\ In (key, x) d.
Proof.
  induction d as [|[k v] r IH]; cbn [map fst In DPoS.int_dict_get]; [tauto |].
  intros H. destruct (Z.eqb_spec k key) as [E|E].
  - subst. exists v. split; [reflexivity | now left].
  - destruct H as [H|H]; [contradiction |].
    destruct (IH H) as (x & Hx & Hin). exists x. split; [exact Hx | now right].
Qed.

Lemma int_dict_get_set {A : Type} (d : list (Z * A)) (key : Z) (x : A) :
  forall k, DPoS.int_dict_get (DPoS.int_dict_set d key x) k
            = if key =? k then Some x else DPoS.int_dict_get d k.
Proof.
  intros k0. induction d as [|[k v] r IH]; cbn [DPoS.int_dict_set DPoS.int_dict_get].
  - reflexivity.
  - destruct (Z.eqb_spec k key) as [E|E]; cbn [DPoS.int_dict_get].
    + subst. now destruct (Z.eqb_spec key k0).
    + rewrite IH. destruct (Z.eqb_spec k k0) as [E1|E1]; [| reflexivity].
      subst. destruct (Z.eqb_spec key k0); [congruence | reflexivity].
Qed.

(** X12.  [get_latest_checkpoint] returns a stored checkpoint under the
    greatest of the heights, and [None] only when there is no checkpoint. *)
Theorem get_latest_checkpoint_is_highest (self : DPoS.t) :
  match DPoS.get_latest_checkpoint self with
  | Some checkpoint =>
      exists height,
        In (height, checkpoint) (DPoS.checkpoints self)
        /\ DPoS.int_dict_get (DPoS.checkpoints self) height = Some checkpoint
        /\ forall h, In h (map fst (DPoS.checkpoints self)) -> h <= height
  | None => DPoS.checkpoints self = []
  end.
Proof.
  unfold DPoS.get_latest_checkpoint, DPoS.max_key.
  destruct (DPoS.checkpoints self) as [|[k c] r] eqn:E; [reflexivity |].
  set (m := fold_left Z.max (map fst r) k).
  assert (Hin : In m (map fst ((k, c) :: r))).
  { cbn [map fst In]. unfold m.
    destruct (fold_left_max_In (map fst r) k) as [H|H]; [left; congruence | now right]. }
  destruct (int_dict_get_In _ _ Hin) as (x & Hx & Hmem).
  rewrite Hx. exists m. split; [exact Hmem |]. split; [exact Hx |].
  intros h [Hh|Hh]; cbn [fst] in *.
  - subst h. apply fold_left_max_ge.
  - destruct (fold_left_max_ge (map fst r) k) as [_ F].
    rewrite Forall_forall in F. now apply F.
Qed.

(** X13.  A checkpoint brings the roster back: after [create_checkpoint]
    at a height that the interval divides, [restore_from_checkpoint] at that
    height, in any later state that holds the same checkpoints, succeeds and
    sets the validators and the delegates to those of the time of the
    checkpoint, and nothing else. *)
Theorem restore_returns_the_checkpointed_roster
        (self saved later : DPoS.t) (block_height : Z) (now : Q) :
  DPoS.create_checkpoint self block_height now = Some saved ->
  block_height mod DPoS.checkpoint_interval self = 0 ->
  DPoS.checkpoints later = DPoS.checkpoints saved ->
  DPoS.restore_from_checkpoint later block_height
  = (DPoS.mkDPoS (DPoS.max_validators later) (DPoS.validators self)
                 (DPoS.delegates self) (DPoS.block_time later)
                 (DPoS.energy_threshold later) (DPoS.metrics later)
                 (DPoS.liveness_threshold later)
                 (DPoS.last_delegate_update_time later)
                 (DPoS.delegate_update_interval later)
                 (DPoS.checkpoints later) (DPoS.checkpoint_interval later),
     true).
Proof.
  unfold DPoS.create_checkpoint. intros Hs Hm Hc.
  destruct (DPoS.checkpoint_interval self =? 0); [discriminate |].
  rewrite Hm in Hs. cbn [Z.eqb] in Hs. inversion Hs. subst saved.
  unfold DPoS.restore_from_checkpoint. rewrite Hc.
  cbn [DPoS.set_checkpoints DPoS.checkpoints].
  rewrite int_dict_get_set, Z.eqb_refl. reflexivity.
Qed.

(** The restoration after the removal of a brings a back. *)
Lemma restore_returns_the_checkpointed_roster_witness :
  DPoS.restore_from_checkpoint after_removal 200
  = (DPoS.mkDPoS (DPoS.max_validators after_removal)
                 (DPoS.validators (three_validators None))
                 (DPoS.delegates (three_validators None))
                 (DPoS.block_time after_removal)
                 (DPoS.energy_threshold after_removal) (DPoS.metrics after_removal)
                 (DPoS.liveness_threshold after_removal)
                 (DPoS.last_delegate_update_time after_removal)
                 (DPoS.delegate_update_interval after_removal)
                 (DPoS.checkpoints after_removal) (DPoS.checkpoint_interval after_removal),
     true).
Proof.
  apply (restore_returns_the_checkpointed_roster
           (three_validators None) checkpointed after_removal 200 50).
  - reflexivity.
  - reflexivity.
  - reflexivity.
Defined.

(** ** The inbound blocks *)

Lemma fle_true_not_nan (x y : pyfloat) :
  fle x y = true -> is_nan x = false /\ is_nan y = false.
Proof. destruct x as [a|a|], y as [b|b|]; cbn; try discriminate; auto. Qed.

Lemma flt_true_not_nan (x y : pyfloat) :
  flt x y = true -> is_nan x = false /\ is_nan y = false.
Proof. destruct x as [a|a|], y as [b|b|]; cbn; try discriminate; auto. Qed.

Lemma fle_sub_zero (x y : pyfloat) : fle x (fsub y (Finite 0)) = fle x y.
Proof.
  destruct x as [a|a|], y as [b|b|]; try reflexivity.
  cbn. apply Bool.eq_iff_eq_true. rewrite !Qle_bool_iff. split; intros H; lra.
Qed.

Lemma fgt_finite_false (x y : Q) : fgt (Finite x) (Finite y) = false <-> (x <= y)%Q.
Proof.
  unfold fgt, flt, Qltb. rewrite negb_false_iff. apply Qle_bool_iff.
Qed.

Lemma existsb_false_hashes (block : Block.t) (blocks : list Block.t) :
  existsb (fun b => String.eqb (Block.hash b) (Block.hash block)) blocks = false
  <-> forall b, In b blocks -> Block.hash b <> Block.hash block.
Proof.
  split.
  - intros H b Hb E.
    assert (T : existsb (fun b => String.eqb (Block.hash b) (Block.hash block)) blocks
                = true).
    { apply existsb_exists. exists b. split; [exact Hb | now apply String.eqb_eq]. }
    congruence.
  - intros H. destruct (existsb _ blocks) eqn:E; [| reflexivity].
    apply existsb_exists in E. destruct E as (b & Hb & E).
    apply String.eqb_eq in E. exfalso. now apply (H b).
Qed.

(** X14.  On a wire dictionary whose fields have the declared types,
    [_handle_new_block] keeps the identity of the node, its pool and its
    engine, and changes the chain only by one block at its end: the block
    is the one that the dictionary describes, it is not yet in the chain, it
    names the hash of the last block, its index is beyond the one of the
    last block, and it has passed the tests of [validate_block]: its
    timestamp is not at or below the one of the last block (a test that a
    timestamp NaN passes, as it passes the one on the distance to the
    clock), its validator is a delegate and the validator of the slot, and
    the power usage is within the threshold.  A node with an empty chain
    takes no block this way.  (The chart histories, which the code updates
    after the append, are not part of the state of the model.) *)
Theorem handle_new_block_appends_only_the_valid_successor
        (float_repr : Q -> string) (self : BlockchainNode.t) (block_data : dict)
        (power_usage time_validator current_time : Q) :
  Block.typed block_data = true ->
  let result :=
    BlockchainNodeHandlers._handle_new_block
      float_repr self block_data power_usage time_validator current_time in
  let self' := fst (fst result) in
  BlockchainNode.node_id self' = BlockchainNode.node_id self
  /\ BlockchainNode.pending_transactions self' = BlockchainNode.pending_transactions self
  /\ BlockchainNode.dpos self' = BlockchainNode.dpos self
  /\ ((BlockchainNode.blocks self' = BlockchainNode.blocks self /\ snd (fst result) = [])
      \/ exists block tail,
           Block.from_dict float_repr block_data = Ok block
           /\ BlockchainNodeHandlers.last_block self = Some tail
           /\ BlockchainNode.blocks self' = (BlockchainNode.blocks self ++ [block])%list
           /\ snd (fst result) = [BlockchainNode.SaveBlock block]
           /\ snd result = Ok tt
           /\ (forall b, In b (BlockchainNode.blocks self) ->
                         Block.hash b <> Block.hash block)
           /\ Block.previous_hash block = Block.hash tail
           /\ Block.block_index tail < Block.block_index block
           /\ fle (float_of (Block.timestamp block)) (float_of (Block.timestamp tail))
              = false
           /\ In (Block.validator block) (DPoS.delegates (BlockchainNode.dpos self))
           /\ DPoS.get_current_validator (BlockchainNode.dpos self)
                                         (Block.block_index tail) time_validator
              = Some (Block.validator block)
           /\ fgt (fabs (fsub (Finite current_time) (float_of (Block.timestamp block))))
                  (Finite (DPoS.block_time (BlockchainNode.dpos self))) = false
           /\ (power_usage <= DPoS.energy_threshold (BlockchainNode.dpos self))%Q).
Proof.
  intros Htyped. cbv zeta.
  unfold BlockchainNodeHandlers._handle_new_block.
  destruct (from_dict_typed float_repr block_data Htyped)
    as [[block Hfrom]|(key & _ & _ & Hfrom)]; rewrite Hfrom; cbn [fst snd].
  2: { repeat (split; [reflexivity |]). left. split; reflexivity. }
  destruct (existsb _ (BlockchainNode.blocks self)) eqn:Hnew; cbn [fst snd];
    [repeat (split; [reflexivity |]); left; split; reflexivity |].
  cbv zeta.
  destruct (MerkleUtils.validate_merkle_tree_integrity _ _ _); cbn [negb fst snd];
    [| repeat (split; [reflexivity |]); left; split; reflexivity].
  destruct (BlockchainNodeHandlers.last_block self) as [tail|] eqn:Hlast.
  2: { destruct (DPoS.validate_block _ _ _ _ _ _ _ _); cbn [fst snd];
       repeat (split; [reflexivity |]); (left; split; reflexivity). }
  destruct (DPoS.validate_block _ _ _ _ _ _ _ _) eqn:Hvalid; cbn [fst snd];
    [| repeat (split; [reflexivity |]); left; split; reflexivity].
  destruct (String.eqb_spec (Block.previous_hash block) (Block.hash tail)) as [Hprev|Hprev];
    cbn [fst snd];
    [| repeat (split; [reflexivity |]); left; split; reflexivity].
  apply validate_block_tests in Hvalid.
  destruct Hvalid as (V1 & V2 & V3 & V4 & V5 & _ & V7).
  rewrite fle_sub_zero in V3. apply fgt_finite_false in V7.
  split; [reflexivity |]. split; [reflexivity |]. split; [reflexivity |].
  right. exists block, tail.
  split; [reflexivity |]. split; [reflexivity |]. split; [reflexivity |].
  split; [reflexivity |]. split; [reflexivity |].
  split; [now apply existsb_false_hashes |].
  split; [exact Hprev |]. split; [exact V4 |].
  split; [exact V3 |]. split; [exact V1 |]. split; [exact V2 |].
  split; [exact V5 | exact V7].
Qed.

(** The block of b arrives at the node whose chain ends with the block of
    a. *)
Lemma handle_new_block_appends_only_the_valid_successor_witness :
  BlockchainNode.blocks
    (fst (fst (BlockchainNodeHandlers._handle_new_block
                 repr_integral peer_node (Block.to_dict second_block) 1 100 102)))
  = [first_block; second_block]
  /\ BlockchainNode.dpos
       (fst (fst (BlockchainNodeHandlers._handle_new_block
                    repr_integral peer_node (Block.to_dict second_block) 1 100 102)))
     = BlockchainNode.dpos peer_node.
Proof.
  split; [vm_compute; reflexivity |].
  apply (handle_new_block_appends_only_the_valid_successor
           repr_integral peer_node (Block.to_dict second_block) 1 100 102).
  reflexivity.
Defined.

(** X15.  A node takes the block of a peer: when the dictionary is the
    [to_dict] of a block made by the constructor on the hash of the last
    block of the node, the block is new, its index and timestamp are beyond
    those of the last block, its validator is a delegate and the validator
    of the slot, its timestamp is within [block_time] of the clock and the
    power usage is within the threshold, [_handle_new_block] appends that
    very block and saves it. *)
Theorem valid_successor_is_appended
        (float_repr : Q -> string) (self : BlockchainNode.t) (tail : Block.t)
        (block_index : Z) (timestamp : number) (transactions : list dict)
        (validator : string) (energy_metrics : dict) (merkle_root : option string)
        (power_usage time_validator current_time : Q) :
  let block := Block.init float_repr block_index timestamp transactions (Block.hash tail)
                          validator energy_metrics merkle_root in
  BlockchainNodeHandlers.last_block self = Some tail ->
  (forall b, In b (BlockchainNode.blocks self) -> Block.hash b <> Block.hash block) ->
  Block.block_index tail < block_index ->
  flt (float_of (Block.timestamp tail)) (float_of timestamp) = true ->
  In validator (DPoS.delegates (BlockchainNode.dpos self)) ->
  DPoS.get_current_validator (BlockchainNode.dpos self) (Block.block_index tail)
                             time_validator = Some validator ->
  fle (fabs (fsub (Finite current_time) (float_of timestamp)))
      (Finite (DPoS.block_time (BlockchainNode.dpos self))) = true ->
  (power_usage <= DPoS.energy_threshold (BlockchainNode.dpos self))%Q ->
  BlockchainNodeHandlers._handle_new_block
    float_repr self (Block.to_dict block) power_usage time_validator current_time
  = (BlockchainNodeHandlers.append_block self block,
     [BlockchainNode.SaveBlock block], Ok tt).
Proof.
  intros block Hlast Hnew Hidx Hts Hdel Hcur Hwin Hpow.
  assert (Hfrom : Block.from_dict float_repr (Block.to_dict block) = Ok block).
  { rewrite from_dict_to_dict_fields. reflexivity. }
  unfold BlockchainNodeHandlers._handle_new_block.
  rewrite Hfrom.
  apply existsb_false_hashes in Hnew. rewrite Hnew.
  rewrite Hlast. cbv beta iota zeta.
  pose proof (validate_merkle_tree_integrity_init
                float_repr block_index timestamp transactions (Block.hash tail)
                validator energy_metrics merkle_root) as Hm.
  fold block in Hm. rewrite Hm. cbn [negb].
  assert (Hv : DPoS.validate_block (BlockchainNode.dpos self) block (Finite power_usage)
                                   (float_of (Block.timestamp tail))
                                   (Block.block_index tail)
                                   (Finite 0) time_validator current_time = true).
  { apply validate_block_tests.
    change (float_of (Block.timestamp block)) with (float_of timestamp).
    destruct (flt_true_not_nan _ _ Hts) as [N1 N2].
    destruct (fle_true_not_nan _ _ Hwin) as [N3 _].
    split; [exact Hdel |]. split; [exact Hcur |].
    split.
    { rewrite fle_sub_zero. apply (fle_false_fgt _ _ N2 N1). exact Hts. }
    split; [exact Hidx |].
    split;
      [apply (fgt_false_fle _ (Finite (DPoS.block_time (BlockchainNode.dpos self)))
                            N3 eq_refl); exact Hwin |].
    split; [apply _validate_merkle_tree_init | now apply fgt_finite_false]. }
  rewrite Hv.
  change (Block.previous_hash block) with (Block.hash tail).
  now rewrite String.eqb_refl.
Qed.

(** The block of b arrives at a node whose chain ends with the block of
    a. *)
Lemma valid_successor_is_appended_witness :
  BlockchainNodeHandlers._handle_new_block
    repr_integral peer_node (Block.to_dict second_block) 1 100 102
  = (BlockchainNodeHandlers.append_block peer_node second_block,
     [BlockchainNode.SaveBlock second_block], Ok tt).
Proof.
  apply (valid_successor_is_appended
           repr_integral peer_node first_block 1 (Float 101) [tx_i 0] "b"
           [("power_usage", VInt 1)] None 1 100 102).
  - reflexivity.
  - intros b [E|[]]. subst b. vm_compute. discriminate.
  - reflexivity.
  - reflexivity.
  - vm_compute. right. left. reflexivity.
  - vm_compute. reflexivity.
  - reflexivity.
  - vm_compute. discriminate.
Defined.

(** ** The chain of a node *)

Lemma last_block_snoc (l : list Block.t) (b : Block.t) :
  last (map Some (l ++ [b])%list) None = Some b.
Proof. rewrite map_app. cbn [map]. apply last_last. Qed.








(** ** Liveness *)

Lemma dict_get_set_same {A : Type} (d : list (string * A)) (key : string) (x : A) :
  dict_get (dict_set d key x) key = Some x.
Proof.
  induction d as [|[k v] r IH]; cbn [dict_set dict_get].
  - now rewrite String.eqb_refl.
  - destruct (String.eqb_spec k key) as [E|E]; cbn [dict_get].
    + subst. now rewrite String.eqb_refl.
    + destruct (String.eqb_spec k key); [contradiction | exact IH].
Qed.

Lemma dict_update_snoc {A : Type} (d other : list (string * A)) (key : string) (x : A) :
  BlockchainMetrics.dict_update d (other ++ [(key, x)])%list
  = dict_set (BlockchainMetrics.dict_update d other) key x.
Proof. unfold BlockchainMetrics.dict_update. now rewrite fold_left_app. Qed.

(** The views that [record_node_metrics] builds carry the times of the
    updates. *)
Lemma record_node_metrics_timestamped
      (view : BlockchainMetrics.t) (node_id : string) (metrics_data : list (string * Q))
      (now : Q) :
  timestamped view ->
  timestamped (BlockchainMetrics.record_node_metrics view node_id metrics_data now).
Proof.
  intros Hview other record. unfold BlockchainMetrics.record_node_metrics. cbv zeta.
  cbn [BlockchainMetrics.all_nodes_metrics].
  destruct (String.eqb_spec other node_id) as [E|E].
  - subst other. rewrite dict_get_set_same. intros H _.
    injection H as Hrec. subst record.
    try rewrite dict_update_snoc. exists now. apply dict_get_set_same.
  - rewrite dict_get_set_other by exact E. apply Hview.
Qed.

(** X18.  A node that reports its metrics is live for [liveness_threshold]
    seconds: after [record_node_metrics] at time [t], the liveness test of
    [get_current_validator] on that node at time [now] holds exactly when
    [now - t] is below the threshold, whatever the message carried, and the
    test on every other node is as before. *)
Theorem reporting_node_is_live
        (self : DPoS.t) (m : BlockchainMetrics.t) (node_id : string)
        (metrics_data : list (string * Q)) (t now : Q) :
  DPoS.is_live self (BlockchainMetrics.record_node_metrics m node_id metrics_data t)
               now node_id
  = Qltb (now - t) (DPoS.liveness_threshold self)
  /\ (forall other,
         other <> node_id ->
         DPoS.is_live self (BlockchainMetrics.record_node_metrics m node_id metrics_data t)
                      now other
         = DPoS.is_live self m now other).
Proof.
  unfold BlockchainMetrics.record_node_metrics. cbv zeta. split.
  - unfold DPoS.is_live. cbn [BlockchainMetrics.all_nodes_metrics].
    rewrite dict_get_set_same, dict_update_snoc.
    destruct (dict_set _ "timestamp" t) as [|kv r] eqn:E.
    + exfalso. revert E. generalize (BlockchainMetrics.dict_update
                                        match dict_get (BlockchainMetrics.all_nodes_metrics m)
                                                       node_id with
                                        | Some m0 => m0
                                        | None => BlockchainMetrics.default_node_metrics
                                        end
                                        (map (fun key =>
                                                (key,
                                                 match dict_get metrics_data key with
                                                 | Some x => x
                                                 | None => 0%Q
                                                 end))
                                             BlockchainMetrics.recorded_fields)).
      intros [|[k v] d]; cbn [dict_set]; [discriminate |].
      destruct (String.eqb k "timestamp"); discriminate.
    + rewrite <- E, dict_get_set_same. reflexivity.
  - intros other Hne. unfold DPoS.is_live. cbn [BlockchainMetrics.all_nodes_metrics].
    now rewrite dict_get_set_other.
Qed.

(** X19.  The elected validator is a delegate, and a live one: with a
    metrics instance it passes the liveness test at the time of the
    election. *)
Theorem elected_validator_is_a_live_delegate
        (self : DPoS.t) (reference_block_index : Z) (now : Q) (validator : string) :
  DPoS.get_current_validator self reference_block_index now = Some validator ->
  In validator (DPoS.delegates self)
  /\ (forall m, DPoS.metrics self = Some m -> DPoS.is_live self m now validator = true).
Proof.
  rewrite get_current_validator_eq. intros H.
  assert (Hin : In validator (live_delegates self now)).
  { eapply Permutation_in; [apply Permutation_sym, (sorted_perm String.leb) |].
    destruct (sorted String.leb (live_delegates self now)) as [|a L]; [discriminate |].
    eapply nth_error_In. exact H. }
  unfold live_delegates in Hin. split.
  - destruct (DPoS.metrics self); [| exact Hin].
    apply filter_In in Hin. apply Hin.
  - intros m Hm. rewrite Hm in Hin. apply filter_In in Hin. apply Hin.
Qed.

(** The validator of the slot after the block of index 0. *)
Lemma elected_validator_is_a_live_delegate_witness :
  In "b" (DPoS.delegates (three_validators (Some three_metrics)))
  /\ (forall m, DPoS.metrics (three_validators (Some three_metrics)) = Some m ->
                DPoS.is_live (three_validators (Some three_metrics)) m 100 "b" = true).
Proof.
  apply (elected_validator_is_a_live_delegate
           (three_validators (Some three_metrics)) 0 100 "b").
  vm_compute. reflexivity.
Defined.

(** ** The histories and the rate of the metrics *)

(** X20.  The chart histories keep the last twenty values: on a history of
    at most twenty values, [record_block_time] and [record_consensus_time]
    leave at most twenty, which are the last ones of the history with the
    new value at its end. *)
Theorem history_keeps_the_last_twenty (history : list Q) (value : Q) :
  (List.length history <= 20)%nat ->
  (List.length (BlockchainMetrics.record_block_time history value) <= 20)%nat
  /\ BlockchainMetrics.record_block_time history value
     = skipn (List.length history + 1 - 20) (history ++ [value])%list
  /\ BlockchainMetrics.record_consensus_time history value
     = BlockchainMetrics.record_block_time history value.
Proof.
  intros H.
  unfold BlockchainMetrics.record_consensus_time, BlockchainMetrics.record_block_time,
    BlockchainMetrics.record_history.
  cbv zeta. rewrite length_app. cbn [List.length].
  destruct (Nat.ltb_spec 20 (List.length history + 1)) as [L|L].
  - assert (E : (List.length history + 1 - 20 = 1)%nat) by lia. rewrite E.
    split; [| split; reflexivity].
    destruct history as [|x r]; cbn [app tl List.length] in *; [lia |].
    rewrite length_app. cbn [List.length]. lia.
  - assert (E : (List.length history + 1 - 20 = 0)%nat) by lia. rewrite E.
    split; [| split; reflexivity].
    rewrite length_app. cbn [List.length]. lia.
Qed.

(** A full history takes one more value. *)
Lemma history_keeps_the_last_twenty_witness :
  (List.length (BlockchainMetrics.record_block_time (repeat 3%Q 20) 4) <= 20)%nat
  /\ BlockchainMetrics.record_block_time (repeat 3%Q 20) 4
     = skipn (List.length (repeat 3%Q 20) + 1 - 20) (repeat 3%Q 20 ++ [4%Q])%list
  /\ BlockchainMetrics.record_consensus_time (repeat 3%Q 20) 4
     = BlockchainMetrics.record_block_time (repeat 3%Q 20) 4.
Proof.
  apply (history_keeps_the_last_twenty (repeat 3%Q 20) 4).
  cbn. lia.
Defined.

Lemma drop_older_spec (cutoff : Q) (events : list Q) :
  exists old,
    events = (old ++ BlockchainMetrics.drop_older cutoff events)%list
    /\ Forall (fun e => (e < cutoff)%Q) old
    /\ match BlockchainMetrics.drop_older cutoff events with
       | [] => True
       | first :: _ => (cutoff <= first)%Q
       end.
Proof.
  induction events as [|x r IH]; cbn [BlockchainMetrics.drop_older].
  - exists []. repeat split; constructor.
  - destruct (Qltb x cutoff) eqn:E.
    + destruct IH as (old & H1 & H2 & H3). exists (x :: old).
      split; [cbn [app]; now rewrite <- H1 |].
      split; [constructor; [now apply Qltb_true | exact H2] | exact H3].
    + exists []. split; [reflexivity |]. split; [constructor |].
      now apply Qltb_false.
Qed.

Lemma StronglySorted_app {A : Type} (R : A -> A -> Prop) (l1 l2 : list A) :
  StronglySorted R l1 -> StronglySorted R l2 ->
  (forall x y, In x l1 -> In y l2 -> R x y) ->
  StronglySorted R (l1 ++ l2)%list.
Proof.
  induction l1 as [|a l1 IH]; intros H1 H2 H; [exact H2 |].
  inversion H1 as [|? ? H1' Ha]. subst. cbn [app]. constructor.
  - apply IH; auto. intros x y Hx Hy. apply H; [now right | exact Hy].
  - apply Forall_app. split; [exact Ha |].
    apply Forall_forall. intros y Hy. apply H; [now left | exact Hy].
Qed.

Lemma StronglySorted_suffix {A : Type} (R : A -> A -> Prop) (l1 l2 : list A) :
  StronglySorted R (l1 ++ l2)%list -> StronglySorted R l2.
Proof.
  induction l1 as [|a l1 IH]; cbn [app]; intros H; [exact H |].
  inversion H. now apply IH.
Qed.

Lemma StronglySorted_repeat (x : Q) (n : nat) : StronglySorted Qle (repeat x n).
Proof.
  induction n as [|n IH]; cbn [repeat]; constructor; [exact IH |].
  apply Forall_forall. intros y Hy. apply repeat_spec in Hy. subst. apply Qle_refl.
Qed.

(** X21.  The deque of [record_transactions] holds the events of the
    window: when the events are in the order of time and none is later than
    the clock, then after the call the deque is the old one with [count]
    events at the time of the clock (none for a negative count), without its
    events older than [tps_window_seconds]; what stays is in the order of
    time and within the window. *)
Theorem transaction_events_stay_in_the_window
        (transaction_events : list Q) (count : Z) (now : Q) :
  StronglySorted Qle transaction_events ->
  Forall (fun e => (e <= now)%Q) transaction_events ->
  let kept := BlockchainMetrics.record_transactions transaction_events count now in
  StronglySorted Qle kept
  /\ Forall (fun e => (now - BlockchainMetrics.tps_window_seconds <= e)%Q /\ (e <= now)%Q) kept
  /\ exists old,
       (transaction_events ++ repeat now (Z.to_nat (Z.max 0 count)))%list
       = (old ++ kept)%list
       /\ Forall (fun e => (e < now - BlockchainMetrics.tps_window_seconds)%Q) old.
Proof.
  intros Hs Hle. cbv zeta. unfold BlockchainMetrics.record_transactions. cbv zeta.
  set (all := (transaction_events ++ repeat now (Z.to_nat (Z.max 0 count)))%list).
  assert (Hall : StronglySorted Qle all).
  { apply StronglySorted_app; [exact Hs | apply StronglySorted_repeat |].
    intros x y Hx Hy. apply repeat_spec in Hy. subst.
    rewrite Forall_forall in Hle. now apply Hle. }
  assert (Hnow : Forall (fun e => (e <= now)%Q) all).
  { apply Forall_app. split; [exact Hle |].
    apply Forall_forall. intros y Hy. apply repeat_spec in Hy. subst. apply Qle_refl. }
  destruct (drop_older_spec (now - BlockchainMetrics.tps_window_seconds) all)
    as (old & H1 & H2 & H3).
  set (kept := BlockchainMetrics.drop_older (now - BlockchainMetrics.tps_window_seconds) all)
    in *.
  assert (Hk : StronglySorted Qle kept).
  { apply (StronglySorted_suffix Qle old). now rewrite <- H1. }
  split; [exact Hk |]. split; [| exists old; split; [exact H1 | exact H2]].
  assert (Hk2 : Forall (fun e => (e <= now)%Q) kept).
  { rewrite H1 in Hnow. apply Forall_app in Hnow. apply Hnow. }
  destruct kept as [|first rest]; [constructor |].
  inversion Hk as [|? ? _ Hfirst]. subst.
  rewrite Forall_forall in Hk2, Hfirst. apply Forall_forall.
  intros e [He|He].
  - subst. split; [exact H3 | apply Hk2; now left].
  - split; [| apply Hk2; now right].
    eapply Qle_trans; [exact H3 | now apply Hfirst].
Qed.

(** Two events at times 1 and 95, and three more at time 100. *)
Lemma transaction_events_stay_in_the_window_witness :
  StronglySorted Qle (BlockchainMetrics.record_transactions [1%Q; 95%Q] 3 100)
  /\ Forall (fun e => (100 - BlockchainMetrics.tps_window_seconds <= e)%Q /\ (e <= 100)%Q)
            (BlockchainMetrics.record_transactions [1%Q; 95%Q] 3 100)
  /\ exists old,
       ([1%Q; 95%Q] ++ repeat 100%Q (Z.to_nat (Z.max 0 3)))%list
       = (old ++ BlockchainMetrics.record_transactions [1%Q; 95%Q] 3 100)%list
       /\ Forall (fun e => (e < 100 - BlockchainMetrics.tps_window_seconds)%Q) old.
Proof.
  apply (transaction_events_stay_in_the_window [1%Q; 95%Q] 3 100).
  - repeat constructor; discriminate.
  - repeat constructor; discriminate.
Defined.

(** X22.  The rate of [get_tps] is the number of events of the window over
    a span between a microsecond and the ten seconds of the window: it is 0
    exactly on an empty window, and otherwise between a tenth of the number
    of events and a million times that number. *)
Theorem get_tps_bounds (transaction_events : list Q) (now : Q) :
  let kept := fst (BlockchainMetrics.get_tps transaction_events now) in
  let rate := snd (BlockchainMetrics.get_tps transaction_events now) in
  kept = BlockchainMetrics.drop_older (now - BlockchainMetrics.tps_window_seconds)
                                      transaction_events
  /\ (kept = [] -> rate = 0%Q)
  /\ (kept <> [] ->
      (inject_Z (Z.of_nat (List.length kept)) / 10 <= rate)%Q
      /\ (rate <= inject_Z (Z.of_nat (List.length kept)) * 1000000)%Q
      /\ (0 < rate)%Q).
Proof.
  cbv zeta. unfold BlockchainMetrics.get_tps. cbv zeta.
  destruct (BlockchainMetrics.drop_older _ transaction_events) as [|first rest] eqn:E;
    cbn [fst snd].
  - split; [reflexivity |]. split; [reflexivity | congruence].
  - split; [reflexivity |]. split; [discriminate |]. intros _.
    set (elapsed := (last (first :: rest) first - first)%Q).
    set (elapsed' := if Qeq_bool elapsed 0
                     then BlockchainMetrics.tps_window_seconds else elapsed).
    set (bounded := if Qltb elapsed' BlockchainMetrics.tps_window_seconds
                    then elapsed' else BlockchainMetrics.tps_window_seconds).
    set (span := if Qltb (1 # 1000000) bounded then bounded else (1 # 1000000)%Q).
    set (n := inject_Z (Z.of_nat (List.length (first :: rest)))).
    assert (Hn : (1 <= n)%Q).
    { unfold n. rewrite <- (Zle_Qle 1). cbn [List.length]. lia. }
    assert (Hb : (bounded <= 10)%Q).
    { unfold bounded. destruct (Qltb elapsed' _) eqn:B.
      - apply Qltb_true in B. unfold BlockchainMetrics.tps_window_seconds in B. lra.
      - unfold BlockchainMetrics.tps_window_seconds. lra. }
    assert (Hspan : ((1 # 1000000) <= span)%Q /\ (span <= 10)%Q).
    { unfold span. destruct (Qltb (1 # 1000000) bounded) eqn:B.
      - apply Qltb_true in B. split; lra.
      - split; [lra | ]. unfold Qle. cbn. lia. }
    destruct Hspan as [S1 S2].
    assert (Spos : (0 < span)%Q) by (eapply Qlt_le_trans; [| exact S1]; reflexivity).
    split; [| split].
    + apply Qle_shift_div_l; [exact Spos |].
      unfold Qdiv. setoid_replace (n * / 10 * span)%Q with (n * (span / 10))%Q by field.
      setoid_replace n with (n * 1)%Q at 2 by ring.
      apply Qmult_le_l; [lra |]. apply Qle_shift_div_r; [reflexivity | lra].
    + apply Qle_shift_div_r; [exact Spos |].
      setoid_replace (n * 1000000 * span)%Q with (n * (1000000 * span))%Q by ring.
      setoid_replace n with (n * 1)%Q at 1 by ring.
      apply Qmult_le_l; [lra |]. lra.
    + apply Qlt_shift_div_l; [exact Spos |]. lra.
Qed.

(** ** The fields that [Block.from_dict] reads *)

(** X23.  [Block.from_dict] raises [KeyError] on the first of its six
    required keys that the dictionary lacks, in the order of the reads, and
    it does not read the key [hash]: the hash of the block on the wire has
    no effect on the result. *)
Theorem from_dict_reads_six_fields (float_repr : Q -> string) (data : dict) :
  match find (fun key => negb (dict_mem data key)) required_fields with
  | Some key => Block.from_dict float_repr data = Raise (KeyError key)
  | None => forall key, In key required_fields -> dict_mem data key = true
  end
  /\ (forall stored : value,
         Block.from_dict float_repr (dict_set data "hash" stored)
         = Block.from_dict float_repr data).
Proof.
  split.
  - unfold Block.from_dict, dict_getitem, dict_mem, required_fields.
    cbn [find].
    destruct (dict_get data "block_index") eqn:E1; cbn [negb bind]; [| reflexivity].
    destruct (dict_get data "timestamp") eqn:E2; cbn [negb bind]; [| reflexivity].
    destruct (dict_get data "transactions") eqn:E3; cbn [negb bind]; [| reflexivity].
    destruct (dict_get data "previous_hash") eqn:E4; cbn [negb bind]; [| reflexivity].
    destruct (dict_get data "validator") eqn:E5; cbn [negb bind]; [| reflexivity].
    destruct (dict_get data "energy_metrics") eqn:E6; cbn [negb bind]; [| reflexivity].
    intros key [H|[H|[H|[H|[H|[H|[]]]]]]]; subst key.
    + now rewrite E1.
    + now rewrite E2.
    + now rewrite E3.
    + now rewrite E4.
    + now rewrite E5.
    + now rewrite E6.
  - intros stored. unfold Block.from_dict, Block.stored_merkle_root.
    rewrite !dict_getitem_set_other by discriminate.
    rewrite dict_get_set_other by discriminate.
    reflexivity.
Qed.

(** ** The validator status messages *)

Lemma add_validator_keeps (self : DPoS.t) (address : string) (stake : pyfloat) :
  DPoS.delegates (fst (DPoS.add_validator self address stake)) = DPoS.delegates self
  /\ DPoS.max_validators (fst (DPoS.add_validator self address stake))
     = DPoS.max_validators self
  /\ (roster_within_capacity self ->
      roster_within_capacity (fst (DPoS.add_validator self address stake))).
Proof.
  unfold DPoS.add_validator, roster_within_capacity.
  destruct (Z.leb_spec (DPoS.max_validators self)
                       (Z.of_nat (List.length (DPoS.validators self))));
    cbn [fst DPoS.set_validators DPoS.validators DPoS.max_validators DPoS.delegates];
    repeat split; try tauto.
  - now apply dict_set_NoDup.
  - rewrite dict_set_length. destruct (dict_mem _ _); lia.
Qed.

(** X24.  A validator status message changes the roster and nothing else:
    [_handle_validator_status] keeps the delegates, the chain and the pool,
    so a validator that it adds takes no slot before the delegates are
    recomputed, and the roster stays within its capacity. *)
Theorem validator_status_keeps_the_delegates
        (self : BlockchainNode.t) (validators : option (list (string * pyfloat))) :
  let self' := BlockchainNodeHandlers._handle_validator_status self validators in
  DPoS.delegates (BlockchainNode.dpos self') = DPoS.delegates (BlockchainNode.dpos self)
  /\ BlockchainNode.blocks self' = BlockchainNode.blocks self
  /\ BlockchainNode.pending_transactions self' = BlockchainNode.pending_transactions self
  /\ (forall reference_block_index now,
         DPoS.get_current_validator (BlockchainNode.dpos self') reference_block_index now
         = DPoS.get_current_validator (BlockchainNode.dpos self) reference_block_index now)
  /\ (roster_within_capacity (BlockchainNode.dpos self) ->
      roster_within_capacity (BlockchainNode.dpos self')).
Proof.
  cbv zeta. unfold BlockchainNodeHandlers._handle_validator_status.
  destruct validators as [validators|];
    [| repeat (split; [now intros |]); auto].
  cbn [BlockchainNode.dpos BlockchainNode.blocks BlockchainNode.pending_transactions].
  assert (H : forall dpos,
             let dpos' := fold_left (fun dpos validator =>
                                       fst (DPoS.add_validator dpos (fst validator)
                                                               (snd validator)))
                                    validators dpos in
             DPoS.delegates dpos' = DPoS.delegates dpos
             /\ DPoS.metrics dpos' = DPoS.metrics dpos
             /\ DPoS.liveness_threshold dpos' = DPoS.liveness_threshold dpos
             /\ (roster_within_capacity dpos -> roster_within_capacity dpos')).
  { induction validators as [|v vs IH]; intros dpos; cbv zeta; cbn [fold_left];
      [repeat (split; [reflexivity |]); auto |].
    destruct (IH (fst (DPoS.add_validator dpos (fst v) (snd v)))) as (I1 & I2 & I3 & I4).
    cbv zeta in I1, I2, I3, I4.
    destruct (add_validator_keeps dpos (fst v) (snd v)) as (A1 & _ & A3).
    split; [congruence |].
    split; [rewrite I2; unfold DPoS.add_validator; now destruct (_ <=? _) |].
    split; [rewrite I3; unfold DPoS.add_validator; now destruct (_ <=? _) |].
    auto. }
  destruct (H (BlockchainNode.dpos self)) as (H1 & H2 & H3 & H4).
  cbv zeta in H1, H2, H3, H4.
  split; [exact H1 |]. split; [reflexivity |]. split; [reflexivity |].
  split; [| exact H4].
  intros reference_block_index now.
  unfold DPoS.get_current_validator, DPoS.is_live. rewrite H1, H2.
  destruct (DPoS.metrics (BlockchainNode.dpos self)); [| reflexivity].
  unfold DPoS.is_live. rewrite H3. reflexivity.
Qed.

(** ** The size and the batch helpers of [merkle_utils] *)

(** X25.  [calculate_merkle_tree_size] counts the nodes of a full binary
    tree of the height of the tree: for [n] transactions, [n] at least 1,
    the total is [2^(height+1) - 1], which is at least [2n - 1] and below
    [4n], and the internal nodes are the total without the leaves. *)
Theorem tree_size_is_that_of_a_full_tree
        (float_repr : Q -> string) (transactions : list dict) :
  transactions <> [] ->
  let n := Z.of_nat (List.length transactions) in
  let height :=
    Z.of_nat (BlockchainNode.get_tree_height (MerkleTree.init float_repr transactions)) in
  MerkleUtils.calculate_merkle_tree_size float_repr transactions
  = [ ("total_nodes", 2 ^ (height + 1) - 1); ("leaf_nodes", n);
      ("internal_nodes", 2 ^ (height + 1) - 1 - n); ("tree_height", height) ]
  /\ 2 * n - 1 <= 2 ^ (height + 1) - 1 < 4 * n.
Proof.
  intros Hne. cbv zeta. split.
  - unfold MerkleUtils.calculate_merkle_tree_size.
    destruct transactions as [|tx txs]; [congruence |].
    cbv zeta. rewrite (leaf_count_init float_repr). reflexivity.
  - rewrite tree_height_rounds.
    assert (H1 : (1 <= List.length transactions)%nat).
    { destruct transactions; [congruence | cbn [List.length]; lia]. }
    destruct (rounds_bounds (List.length transactions) (List.length transactions) H1
                            (Nat.le_refl _)) as [[E En]|(k & E & Hlo & Hhi)]; rewrite E.
    + rewrite En. cbn. lia.
    + replace (Z.of_nat (S k) + 1) with (Z.of_nat k + 2) by lia.
      rewrite Z.pow_add_r by lia. change (2 ^ 2) with 4.
      assert (Ek : Z.of_nat (2 ^ k) = 2 ^ Z.of_nat k).
      { rewrite Nat2Z.inj_pow. reflexivity. }
      rewrite <- Ek. clear Ek E.
      generalize dependent (2 ^ k)%nat. intros q Hlo Hhi. lia.
Qed.

(** The size of the tree of three transactions. *)
Lemma tree_size_is_that_of_a_full_tree_witness :
  MerkleUtils.calculate_merkle_tree_size repr_integral three_transactions
  = [ ("total_nodes",
       2 ^ (Z.of_nat (BlockchainNode.get_tree_height
                        (MerkleTree.init repr_integral three_transactions)) + 1) - 1);
      ("leaf_nodes", Z.of_nat (List.length three_transactions));
      ("internal_nodes",
       2 ^ (Z.of_nat (BlockchainNode.get_tree_height
                        (MerkleTree.init repr_integral three_transactions)) + 1) - 1
       - Z.of_nat (List.length three_transactions));
      ("tree_height",
       Z.of_nat (BlockchainNode.get_tree_height
                   (MerkleTree.init repr_integral three_transactions))) ]
  /\ 2 * Z.of_nat (List.length three_transactions) - 1
     <= 2 ^ (Z.of_nat (BlockchainNode.get_tree_height
                         (MerkleTree.init repr_integral three_transactions)) + 1) - 1
     < 4 * Z.of_nat (List.length three_transactions).
Proof.
  apply (tree_size_is_that_of_a_full_tree repr_integral three_transactions).
  discriminate.
Defined.

(** X26.  [batch_verify_transactions] answers for every transaction: the
    result has one entry for each transaction, all of them [False] when the
    numbers of transactions and of proofs differ, and otherwise the answers
    of [verify_transaction_in_block] in the order of the transactions. *)
Theorem batch_verify_answers_every_transaction
        (float_repr : Q -> string) (block_merkle_root : string)
        (transactions : list dict) (proofs : list (list MerkleTree.proof_item)) :
  let results :=
    MerkleUtils.batch_verify_transactions float_repr block_merkle_root transactions proofs in
  List.length results = List.length transactions
  /\ (List.length transactions <> List.length proofs ->
      Forall (fun r => r = false) results)
  /\ (List.length transactions = List.length proofs ->
      forall i tx proof,
        nth_error transactions i = Some tx -> nth_error proofs i = Some proof ->
        nth_error results i
        = Some (MerkleUtils.verify_transaction_in_block
                  float_repr block_merkle_root tx proof)).
Proof.
  cbv zeta. unfold MerkleUtils.batch_verify_transactions.
  destruct (Nat.eqb_spec (List.length transactions) (List.length proofs)) as [E|E];
    cbn [negb].
  - split; [rewrite length_map, length_combine; lia |].
    split; [contradiction |].
    intros _ i tx proof Htx Hproof.
    rewrite nth_error_map.
    assert (Hc : nth_error (combine transactions proofs) i = Some (tx, proof)).
    { clear E. revert proofs i Htx Hproof.
      induction transactions as [|t ts IH]; intros [|p ps] [|i] Htx Hproof;
        cbn [nth_error combine] in *; try discriminate.
      - congruence.
      - now apply IH. }
    now rewrite Hc.
  - split; [apply repeat_length |].
    split; [| contradiction].
    intros _. apply Forall_forall. intros r Hr. now apply repeat_spec in Hr.
Qed.

(** ** Progress of the proposer, and the order of the roster *)



(** X28.  The delegates do not depend on the order in which the validators
    joined: two engines with the same capacity whose rosters hold the same
    entries under distinct addresses, no stake being NaN, compute the same
    delegates. *)
Theorem delegates_ignore_insertion_order (self other : DPoS.t) (now later : Q) :
  NoDup (map fst (DPoS.validators self)) ->
  no_nan_stake self ->
  Permutation (DPoS.validators self) (DPoS.validators other) ->
  DPoS.max_validators self = DPoS.max_validators other ->
  DPoS.delegates (DPoS._update_delegates self true now)
  = DPoS.delegates (DPoS._update_delegates other true later).
Proof.
  intros Hnd Hnan Hp Hmax. unfold no_nan_stake in Hnan.
  assert (Hnan' : Forall (fun validator => is_nan (snd validator) = false)
                         (DPoS.validators other)).
  { eapply Permutation_Forall; [exact Hp | exact Hnan]. }
  unfold DPoS._update_delegates. cbn [negb andb DPoS.set_delegates DPoS.delegates].
  rewrite Hmax. do 2 f_equal.
  apply (StronglySorted_perm_eq (fun x y => DPoS.stake_order x y = true)).
  - intros x y Hx Hy Hxy Hyx.
    assert (Hin : forall z, In z (sorted DPoS.stake_order (DPoS.validators self)) ->
                            In z (DPoS.validators self)).
    { intros z. apply Permutation_in, Permutation_sym, sorted_perm. }
    rewrite Forall_forall in Hnan.
    apply (distinct_keys_inj (DPoS.validators self) Hnd); auto.
    apply stake_order_antisym_keys; auto.
  - apply (sorted_StronglySorted_on DPoS.stake_order
                                    (fun validator => is_nan (snd validator) = false));
      [apply stake_order_total | apply stake_order_trans | exact Hnan].
  - apply (sorted_StronglySorted_on DPoS.stake_order
                                    (fun validator => is_nan (snd validator) = false));
      [apply stake_order_total | apply stake_order_trans | exact Hnan'].
  - rewrite <- !sorted_perm. exact Hp.
Qed.

(** The roster of two seats, and the same roster entered in another
    order. *)
Lemma delegates_ignore_insertion_order_witness :
  DPoS.delegates (DPoS._update_delegates two_seats true 100)
  = DPoS.delegates
      (DPoS._update_delegates
         (DPoS.set_validators two_seats [("b", Finite 20); ("a", Finite 5); ("c", Finite 10)])
         true 200).
Proof.
  apply (delegates_ignore_insertion_order
           two_seats
           (DPoS.set_validators two_seats
                                [("b", Finite 20); ("a", Finite 5); ("c", Finite 10)])
           100 200).
  - cbn. repeat constructor; cbn; intuition discriminate.
  - repeat constructor.
  - cbn. apply perm_trans with [("b", Finite 20); ("a", Finite 5); ("c", Finite 10)];
      [apply perm_swap | apply Permutation_refl].
  - reflexivity.
Defined.

(** The hypothesis on NaN cannot be dropped: the keys of a roster with a
    stake NaN are not totally ordered.  In each of the two rosters below no
    key is below the key before it, so [sorted] returns the list as it is,
    and the one seat goes to b in the first roster and to c in the second,
    although c has the higher stake and the entries are the same. *)
Example nan_stake_depends_on_insertion_order :
  let joined (roster : list (string * pyfloat)) :=
    DPoS._update_delegates (DPoS.mkDPoS 1 roster [] 3 5 None 60 0 300 [] 100) true 100 in
  DPoS.delegates (joined [("b", Finite 5); ("a", NaN); ("c", Finite 10)]) = ["b"]
  /\ DPoS.delegates (joined [("c", Finite 10); ("a", NaN); ("b", Finite 5)]) = ["c"].
Proof.
  split; vm_compute; reflexivity.
Qed.
